(** * Sercalo filter controller: the serial session of [interface/communication.py]

    A shallow embedding of [serial_ports] and of the [SerialCommunicator]
    class (connect, send_command, run, disconnect), with the properties of
    the serial command/response exchange stated over it.

    Python values are modelled as follows.
    - [str]: a list of Unicode code points ([pystr]).
    - [bytes]: a list of [Byte.byte].
    - an exception: its class and the text [str(e)] gives ([exn]).
    - the [SerialCommunicator] object: a record of its four attributes; the
      signals it emits, what it prints and what the port accepted are kept
      in a [world] that every method threads through.
    - what the host decides (whether a port opens, what [readline] returns,
      whether [write] fails, whether standard output takes a line that is
      printed, what the other thread does meanwhile) enters each
      definition as an explicit argument. *)

From Stdlib Require Import List Bool Arith NArith ZArith Lia.
From Stdlib Require Import Strings.Ascii Strings.String Strings.Byte DecimalString.
Import ListNotations.

(** ** Python strings *)

Module Py.

(** A [str] is a sequence of code points; a lone surrogate is a legal
    element of a [str], as in Python. *)
Definition pystr := list N.

(** The [str] denoted by an ASCII literal of the source. *)
Definition lit (s : string) : pystr :=
  map N_of_ascii (list_ascii_of_string s).

(** [str.isspace] on one code point: the table CPython uses for
    [str.strip()] without argument. *)
Definition isspace (c : N) : bool :=
  ((0x09 <=? c) && (c <=? 0x0D) ||
   (0x1C <=? c) && (c <=? 0x20) ||
   (c =? 0x85) || (c =? 0xA0) || (c =? 0x1680) ||
   (0x2000 <=? c) && (c <=? 0x200A) ||
   (c =? 0x2028) || (c =? 0x2029) || (c =? 0x202F) ||
   (c =? 0x205F) || (c =? 0x3000))%N.

Fixpoint lstrip (s : pystr) : pystr :=
  match s with
  | c :: s' => if isspace c then lstrip s' else s
  | [] => []
  end.

Definition rstrip (s : pystr) : pystr := rev (lstrip (rev s)).

(** [s.strip()] *)
Definition strip (s : pystr) : pystr := rstrip (lstrip s).

(** [s.startswith(p)] *)
Fixpoint startswith (s p : pystr) : bool :=
  match p, s with
  | [], _ => true
  | _ :: _, [] => false
  | a :: p', b :: s' => (a =? b)%N && startswith s' p'
  end.

(** Truth value of a [str]: non-empty. *)
Definition truthy (s : pystr) : bool :=
  match s with [] => false | _ :: _ => true end.

(** ['%s' % n] for a non-negative integer. *)
Definition str_of_nat (n : nat) : pystr :=
  lit (NilEmpty.string_of_uint (Nat.to_uint n)).

(** *** The UTF-8 codec, strict as [str.encode('utf-8')] and
    [bytes.decode('utf-8')] are. *)

Definition byte_of (n : N) : byte :=
  match Byte.of_N n with Some b => b | None => x00 end.

(** One code point to its bytes; [None] stands for UnicodeEncodeError
    (a surrogate cannot be encoded). *)
Definition encode_char (c : N) : option (list byte) :=
  (if c <? 0x80 then Some [byte_of c]
   else if c <? 0x800 then
     Some [byte_of (N.lor 0xC0 (N.shiftr c 6));
           byte_of (N.lor 0x80 (N.land c 0x3F))]
   else if c <? 0x10000 then
     if (0xD800 <=? c) && (c <=? 0xDFFF) then None
     else
       Some [byte_of (N.lor 0xE0 (N.shiftr c 12));
             byte_of (N.lor 0x80 (N.land (N.shiftr c 6) 0x3F));
             byte_of (N.lor 0x80 (N.land c 0x3F))]
   else if c <? 0x110000 then
     Some [byte_of (N.lor 0xF0 (N.shiftr c 18));
           byte_of (N.lor 0x80 (N.land (N.shiftr c 12) 0x3F));
           byte_of (N.lor 0x80 (N.land (N.shiftr c 6) 0x3F));
           byte_of (N.lor 0x80 (N.land c 0x3F))]
   else None)%N.

Fixpoint encode (s : pystr) : option (list byte) :=
  match s with
  | [] => Some []
  | c :: s' =>
      match encode_char c, encode s' with
      | Some bs, Some bs' => Some (bs ++ bs')
      | _, _ => None
      end
  end.

(** Is [b] a byte in the range [lo..hi]? *)
Definition in_range (lo hi : N) (b : byte) : bool :=
  ((lo <=? Byte.to_N b) && (Byte.to_N b <=? hi))%N.

(** The six payload bits of a continuation byte. *)
Definition low6 (b : byte) : N := N.land (Byte.to_N b) 0x3F.

Definition cons_opt (c : N) (r : option pystr) : option pystr :=
  match r with Some s => Some (c :: s) | None => None end.

(** Bytes to code points; [None] stands for UnicodeDecodeError. Overlong
    forms, surrogates, code points above U+10FFFF, stray continuation
    bytes and truncated sequences are all rejected. *)
Fixpoint decode (bs : list byte) : option pystr :=
  match bs with
  | [] => Some []
  | b0 :: r0 =>
      let n0 := Byte.to_N b0 in
      if (n0 <? 0x80)%N then cons_opt n0 (decode r0)
      else if (n0 <? 0xC2)%N then None
      else if (n0 <? 0xE0)%N then
        match r0 with
        | b1 :: r1 =>
            if in_range 0x80 0xBF b1
            then cons_opt (N.shiftl (N.land n0 0x1F) 6 + low6 b1)%N (decode r1)
            else None
        | [] => None
        end
      else if (n0 <? 0xF0)%N then
        match r0 with
        | b1 :: b2 :: r2 =>
            let lo := if (n0 =? 0xE0)%N then 0xA0%N else 0x80%N in
            let hi := if (n0 =? 0xED)%N then 0x9F%N else 0xBF%N in
            if in_range lo hi b1 && in_range 0x80 0xBF b2
            then cons_opt (N.shiftl (N.land n0 0x0F) 12
                           + N.shiftl (low6 b1) 6 + low6 b2)%N (decode r2)
            else None
        | _ => None
        end
      else if (n0 <? 0xF5)%N then
        match r0 with
        | b1 :: b2 :: b3 :: r3 =>
            let lo := if (n0 =? 0xF0)%N then 0x90%N else 0x80%N in
            let hi := if (n0 =? 0xF4)%N then 0x8F%N else 0xBF%N in
            if in_range lo hi b1 && in_range 0x80 0xBF b2
               && in_range 0x80 0xBF b3
            then cons_opt (N.shiftl (N.land n0 0x07) 18
                           + N.shiftl (low6 b1) 12
                           + N.shiftl (low6 b2) 6 + low6 b3)%N (decode r3)
            else None
        | _ => None
        end
      else None
  end.

End Py.

Import Py.

(** The line terminator the source writes as a backslash-n escape. *)
Definition nl : pystr := [10%N].

(** [s.replace(old, new)] for a non-empty [old]: the occurrences of [old]
    are replaced from left to right and do not overlap. [skip] counts the
    characters of the occurrence just replaced that are still to be passed
    over. *)
Fixpoint replace_from (old new : pystr) (skip : nat) (s : pystr) : pystr :=
  match s with
  | [] => []
  | c :: s' =>
      match skip with
      | S k => replace_from old new k s'
      | O =>
          if startswith s old
          then new ++ replace_from old new (List.length old - 1) s'
          else c :: replace_from old new 0 s'
      end
  end.

(** [s.replace(old, new)]; with an empty [old], Python puts [new] before
    every character and at the end. *)
Definition str_replace (s old new : pystr) : pystr :=
  match old with
  | [] => new ++ flat_map (fun c => c :: new) s
  | _ :: _ => replace_from old new 0 s
  end.

(** ** Exceptions *)

(** The exception classes the source names or can meet. [Exception] stands
    for any class not listed; [OSError] is also [IOError] and
    [EnvironmentError], its aliases; [SerialException] is
    [serial.SerialException] with its subclasses. *)
Inductive exc_class :=
| Exception
| OSError
| SerialException
| TypeError
| ValueError
| UnicodeDecodeError
| UnicodeEncodeError.

Definition exc_class_eqb (c d : exc_class) : bool :=
  match c, d with
  | Exception, Exception | OSError, OSError
  | SerialException, SerialException | TypeError, TypeError
  | ValueError, ValueError | UnicodeDecodeError, UnicodeDecodeError
  | UnicodeEncodeError, UnicodeEncodeError => true
  | _, _ => false
  end.

(** A class followed by its ancestors. pyserial declares
    [class SerialException(IOError)]. *)
Definition mro (c : exc_class) : list exc_class :=
  match c with
  | Exception => [Exception]
  | OSError => [OSError; Exception]
  | SerialException => [SerialException; OSError; Exception]
  | TypeError => [TypeError; Exception]
  | ValueError => [ValueError; Exception]
  | UnicodeDecodeError => [UnicodeDecodeError; ValueError; Exception]
  | UnicodeEncodeError => [UnicodeEncodeError; ValueError; Exception]
  end.

Definition issubclass (c d : exc_class) : bool :=
  existsb (exc_class_eqb d) (mro c).

(** A raised exception: its class and what [str(e)] gives. *)
Record exn := mk_exn { exc_type : exc_class; exc_str : pystr }.

(** Does [except (c1, c2, ...)] catch [e]? *)
Definition catches (classes : list exc_class) (e : exn) : bool :=
  existsb (issubclass (exc_type e)) classes.

(** ** The session object and what it acts on *)

(** A [serial.Serial] handle. *)
Record Serial := mk_Serial {
  port : pystr;
  baudrate : Z;
  timeout : option Z;
  is_open : bool
}.

(** The attributes [__init__] gives a [SerialCommunicator]. *)
Record SerialCommunicator := mk_SerialCommunicator {
  serial_port : option Serial;
  _port_name : pystr;
  _baudrate : Z;
  _is_running : bool
}.

(** The three signals of the class, each emission with its argument. *)
Inductive signal :=
| response_received (s : pystr)
| error_received (s : pystr)
| port_closed.

Inductive channel := ch_response_received | ch_error_received | ch_port_closed.

(** The signal an emission arrives on, which is all a connected slot can
    tell apart besides the argument. *)
Definition channel_of (s : signal) : channel :=
  match s with
  | response_received _ => ch_response_received
  | error_received _ => ch_error_received
  | port_closed => ch_port_closed
  end.

(** Everything the methods read or change: the object, the emissions so
    far (oldest first), the lines printed and the bytes the port took. *)
Record world := mk_world {
  self : SerialCommunicator;
  emitted : list signal;
  printed : list pystr;
  wire : list byte
}.

(** ** A monad for methods: state, exceptions, and calls still running *)

(** How a call ends. [Pending]: the call has not returned by the end of
    the host script it was given (the read loop is still looping). *)
Inductive outcome (A : Type) :=
| Returned (a : A)
| Raised (e : exn)
| Pending.

Arguments Returned {A} a.
Arguments Raised {A} e.
Arguments Pending {A}.

Definition M (A : Type) : Type := world -> outcome A * world.

Definition ret {A} (a : A) : M A := fun w => (Returned a, w).

Definition raise {A} (e : exn) : M A := fun w => (Raised e, w).

Definition bind {A B} (m : M A) (k : A -> M B) : M B :=
  fun w =>
    match m w with
    | (Returned a, w') => k a w'
    | (Raised e, w') => (Raised e, w')
    | (Pending, w') => (Pending, w')
    end.

Declare Scope py_scope.
Delimit Scope py_scope with py.
Notation "x <- m ;; k" := (bind m (fun x => k))
  (at level 61, m at next level, right associativity) : py_scope.
Notation "m ;; k" := (bind m (fun _ => k))
  (at level 61, right associativity) : py_scope.
Open Scope py_scope.

(** One [except classes as e: handler] clause. *)
Definition clause (A : Type) : Type := (list exc_class * (exn -> M A))%type.

(** The first clause that catches [e], if any. *)
Fixpoint handler_for {A} (clauses : list (clause A)) (e : exn)
  : option (exn -> M A) :=
  match clauses with
  | [] => None
  | (classes, h) :: rest =>
      if catches classes e then Some h else handler_for rest e
  end.

(** [try: body / except ...]: an exception no clause catches goes on. *)
Definition try_except {A} (body : M A) (clauses : list (clause A)) : M A :=
  fun w =>
    match body w with
    | (Raised e, w') =>
        match handler_for clauses e with
        | Some h => h e w'
        | None => (Raised e, w')
        end
    | r => r
    end.

Definition get_self : M SerialCommunicator := fun w => (Returned (self w), w).

Definition set_self (sc : SerialCommunicator) : M unit :=
  fun w => (Returned tt,
            mk_world sc (emitted w) (printed w) (wire w)).

(** [self.serial_port = v] *)
Definition set_serial_port (v : option Serial) : M unit :=
  sc <- get_self ;;
  set_self (mk_SerialCommunicator v (_port_name sc) (_baudrate sc)
                                  (_is_running sc)).

(** [self._is_running = b] *)
Definition set_is_running (b : bool) : M unit :=
  sc <- get_self ;;
  set_self (mk_SerialCommunicator (serial_port sc) (_port_name sc)
                                  (_baudrate sc) b).

(** [sig.emit(...)] *)
Definition emit (s : signal) : M unit :=
  fun w => (Returned tt,
            mk_world (self w) (emitted w ++ [s]) (printed w) (wire w)).

(** ** What the host decides *)

(** [serial.Serial(...)]: the port opens, or the constructor raises. *)
Inductive open_outcome := open_ok | open_raises (e : exn).

(** [serial_port.write(data)]: the port takes the bytes, or it raises. *)
Inductive write_outcome := write_ok | write_raises (e : exn).

(** [serial_port.readline()]: some bytes (none at all when the read times
    out), or it raises. *)
Inductive read_outcome := read_returns (raw : list byte) | read_raises (e : exn).

(** What [print(s)] raises when [sys.stdout], a text stream, does not take
    the line: the encoding of the stream has no bytes for a character of
    [s] (UnicodeEncodeError), the stream is closed (ValueError), or the
    write under it fails (OSError); each with the text of [str(e)]. *)
Inductive stdout_error :=
| cannot_encode (msg : pystr)
| stream_closed (msg : pystr)
| write_failed (msg : pystr).

Definition stdout_exn (err : stdout_error) : exn :=
  match err with
  | cannot_encode msg => mk_exn UnicodeEncodeError msg
  | stream_closed msg => mk_exn ValueError msg
  | write_failed msg => mk_exn OSError msg
  end.

(** [print(s)]: standard output takes the line, or [print] raises. *)
Inductive print_outcome := print_ok | print_raises (err : stdout_error).

(** A call the GUI thread makes on the session while the worker thread is
    inside [run]; [MainWindow] calls both methods directly. *)
Inductive caller_op :=
| call_disconnect
| call_send_command (wo : write_outcome) (command : pystr).

(** One turn of the [while] of [run] as the host shapes it: the calls of
    the other thread that land before the loop test, those that land while
    [readline] blocks, and what [readline] then does. *)
Record iteration := mk_iteration {
  before_test : list caller_op;
  during_read : list caller_op;
  read : read_outcome
}.

Inductive loop_ctl := Next | Break.

(** The machine [serial_ports] runs on: [sys.platform], [glob.glob], and
    for each port name whether [serial.Serial(port)] followed by [close()]
    goes through ([None]) or raises. *)
Record host := mk_host {
  sys_platform : pystr;
  glob_glob : pystr -> list pystr;
  probe : pystr -> option exn
}.

(** ** The source, function by function *)

Section Session.

(** The text of the UnicodeDecodeError for given undecodable bytes and of
    the UnicodeEncodeError for a given string, as CPython words them. *)
Variable decode_error_text : list byte -> pystr.
Variable encode_error_text : pystr -> pystr.

(** Standard output as the host provides it: what it does with a line,
    given the lines it has taken so far. *)
Variable sys_stdout : list pystr -> pystr -> print_outcome.

(** [print(s)] *)
Definition print (s : pystr) : M unit :=
  fun w =>
    match sys_stdout (printed w) s with
    | print_ok =>
        (Returned tt,
         mk_world (self w) (emitted w) (printed w ++ [s]) (wire w))
    | print_raises err => (Raised (stdout_exn err), w)
    end.

(** [s.encode('utf-8')] *)
Definition str_encode (s : pystr) : M (list byte) :=
  match encode s with
  | Some bs => ret bs
  | None => raise (mk_exn UnicodeEncodeError (encode_error_text s))
  end.

(** [bs.decode('utf-8')] *)
Definition bytes_decode (bs : list byte) : M pystr :=
  match decode bs with
  | Some s => ret s
  | None => raise (mk_exn UnicodeDecodeError (decode_error_text bs))
  end.

(** [serial.Serial(p, b, timeout=t)] *)
Definition Serial_new (o : open_outcome) (p : pystr) (b : Z) (t : option Z)
  : M Serial :=
  match o with
  | open_ok => ret (mk_Serial p b t true)
  | open_raises e => raise e
  end.

(** [self.serial_port.write(data)] *)
Definition Serial_write (wo : write_outcome) (data : list byte) : M unit :=
  match wo with
  | write_ok =>
      fun w => (Returned tt,
                mk_world (self w) (emitted w) (printed w) (wire w ++ data))
  | write_raises e => raise e
  end.

(** [self.serial_port.readline()] *)
Definition Serial_readline (rd : read_outcome) : M (list byte) :=
  match rd with
  | read_returns raw => ret raw
  | read_raises e => raise e
  end.

(** [self.serial_port.close()] *)
Definition Serial_close : M unit :=
  sc <- get_self ;;
  match serial_port sc with
  | Some p => set_serial_port
                (Some (mk_Serial (port p) (baudrate p) (timeout p) false))
  | None => raise (mk_exn Exception
                     (lit "'NoneType' object has no attribute 'close'"))
  end.

(** [self.serial_port and self.serial_port.is_open] *)
Definition port_is_open (sc : SerialCommunicator) : bool :=
  match serial_port sc with
  | Some p => is_open p
  | None => false
  end.

(** [SerialCommunicator.__init__] *)
Definition init (port_name : pystr) (baud : Z) : SerialCommunicator :=
  mk_SerialCommunicator None port_name baud false.

(** [SerialCommunicator.send_command] *)
Definition send_command (wo : write_outcome) (command : pystr) : M unit :=
  sc <- get_self ;;
  if port_is_open sc then
    try_except
      (let full_command := lit ":" ++ command ++ nl in
       data <- str_encode full_command ;;
       Serial_write wo data ;;
       print (lit "Enviado: " ++ strip full_command))
      [([SerialException],
        fun e => emit (error_received
                         (lit "Erro ao enviar comando: " ++ exc_str e)))]
  else ret tt.

(** [SerialCommunicator.disconnect] *)
Definition disconnect : M unit :=
  set_is_running false ;;
  sc <- get_self ;;
  if port_is_open sc then Serial_close else ret tt.

(** The [try] statement inside the [while] of [run]. *)
Definition run_body (rd : read_outcome) : M loop_ctl :=
  try_except
    (raw <- Serial_readline rd ;;
     text <- bytes_decode raw ;;
     let line := strip text in
     if truthy line then
       print (lit "Recebido: " ++ line) ;;
       if startswith line (lit ":ACK") then
         emit (response_received line) ;; ret Next
       else if startswith line (lit ":NACK") then
         emit (error_received line) ;; ret Next
       else ret Next
     else ret Next)
    [([TypeError], fun _ => ret Break);
     ([Exception],
      fun e => emit (error_received (lit "Erro de leitura: " ++ exc_str e)) ;;
               ret Break)].

(** The condition of the [while] of [run]. *)
Definition loop_test (w : world) : bool :=
  _is_running (self w) && port_is_open (self w).

(** A call made by the other thread: its effect on the world stays, its
    result (or exception) goes to that thread. *)
Definition other_call (op : caller_op) (w : world) : world :=
  match op with
  | call_disconnect => snd (disconnect w)
  | call_send_command wo command => snd (send_command wo command w)
  end.

Definition other_thread (ops : list caller_op) (w : world) : world :=
  fold_left (fun w op => other_call op w) ops w.

(** [SerialCommunicator.run], over the turns the host provides. When the
    script ends with the loop test still true the call is [Pending]. *)
Fixpoint run (env : list iteration) : M unit :=
  fun w =>
    match env with
    | [] => if loop_test w then (Pending, w) else emit port_closed w
    | it :: env' =>
        let w1 := other_thread (before_test it) w in
        if loop_test w1 then
          match run_body (read it) (other_thread (during_read it) w1) with
          | (Returned Next, w2) => run env' w2
          | (Returned Break, w2) => emit port_closed w2
          | (Raised e, w2) => (Raised e, w2)
          | (Pending, w2) => (Pending, w2)
          end
        else emit port_closed w1
    end.

(** [SerialCommunicator.connect] *)
Definition connect (o : open_outcome) (env : list iteration) : M unit :=
  sc <- get_self ;;
  try_except
    (p <- Serial_new o (_port_name sc) (_baudrate sc) (Some 1%Z) ;;
     set_serial_port (Some p) ;;
     set_is_running true ;;
     run env)
    [([SerialException],
      fun e => emit (error_received
                       (lit "Falha ao abrir porta " ++ _port_name sc
                        ++ lit ": " ++ exc_str e)))].

(** The candidate names of [serial_ports], per platform. *)
Definition candidate_ports (h : host) : outcome (list pystr) :=
  let platform := sys_platform h in
  if startswith platform (lit "win") then
    Returned (map (fun i => lit "COM" ++ str_of_nat (i + 1)) (seq 0 256))
  else if startswith platform (lit "linux")
          || startswith platform (lit "cygwin") then
    Returned (glob_glob h (lit "/dev/tty[A-Za-z]*"))
  else if startswith platform (lit "darwin") then
    Returned (glob_glob h (lit "/dev/tty.*"))
  else Raised (mk_exn OSError (lit "Unsupported platform")).

(** The [for port in ports] loop of [serial_ports]. *)
Fixpoint probe_ports (h : host) (ports result : list pystr)
  : outcome (list pystr) :=
  match ports with
  | [] => Returned result
  | p :: ports' =>
      match probe h p with
      | None => probe_ports h ports' (result ++ [p])
      | Some e =>
          if catches [OSError; SerialException] e
          then probe_ports h ports' result
          else Raised e
      end
  end.

(** [serial_ports] *)
Definition serial_ports (h : host) : outcome (list pystr) :=
  match candidate_ports h with
  | Returned ports => probe_ports h ports []
  | Raised e => Raised e
  | Pending => Pending
  end.

(** ** The window: [widgets/*.py] and [main_window.py] *)

(** The Qt widgets the handlers read and write, each reduced to the
    properties the source touches. *)
Record QLabel := mk_QLabel { label_text : pystr; label_styleSheet : pystr }.

Record QPushButton := mk_QPushButton {
  button_text : pystr;
  button_enabled : bool
}.

Record QComboBox := mk_QComboBox {
  items : list pystr;
  currentText : pystr;
  combo_enabled : bool
}.

(** [QComboBox.clear] and [QComboBox.addItem]: the first item put into an
    empty box becomes the current one. *)
Definition combo_clear (c : QComboBox) : QComboBox :=
  mk_QComboBox [] [] (combo_enabled c).

Definition combo_addItem (p : pystr) (c : QComboBox) : QComboBox :=
  mk_QComboBox (items c ++ [p])
               (match items c with [] => p | _ :: _ => currentText c end)
               (combo_enabled c).

Definition combo_setEnabled (b : bool) (c : QComboBox) : QComboBox :=
  mk_QComboBox (items c) (currentText c) b.

Inductive QThread := mk_QThread (running : bool).

(** [BaseCommandWidget]: of what [__init__] builds, its methods read and
    write the status label only. *)
Record BaseCommandWidget := mk_BaseCommandWidget { status_label : QLabel }.

(** [BaseCommandWidget.__init__] *)
Definition BaseCommandWidget_init : BaseCommandWidget :=
  mk_BaseCommandWidget (mk_QLabel (lit "Pronto.") (lit "color: gray;")).

(** [BaseCommandWidget.update_status] *)
Definition update_status (message : pystr) (is_error : bool)
           (wd : BaseCommandWidget) : BaseCommandWidget :=
  if is_error then
    let clean_message := strip (str_replace message (lit ":NACK:") []) in
    mk_BaseCommandWidget
      (mk_QLabel (lit "Erro: " ++ clean_message)
                 (lit "color: red; font-style: italic;"))
  else
    let clean_message := strip (str_replace message (lit ":ACK:") []) in
    mk_BaseCommandWidget
      (mk_QLabel (if truthy clean_message
                  then lit "OK: " ++ clean_message else lit "OK")
                 (lit "color: green;")).

(** The click handlers of the four panels. Each takes the texts of its
    input fields and gives the commands it emits on
    [send_command_requested], with the panel as it leaves it. *)

(** [GetWlWidget.on_get_clicked] *)
Definition on_get_clicked (band : pystr) (wd : BaseCommandWidget)
  : list pystr * BaseCommandWidget :=
  ([lit "get-wl?" ++ band], wd).

(** [SetWlWidget.on_set_clicked] *)
Definition on_set_clicked (band wl : pystr) (wd : BaseCommandWidget)
  : list pystr * BaseCommandWidget :=
  if truthy wl then ([lit "set-wl:" ++ band ++ lit ":" ++ wl], wd)
  else ([], wd).

(** [GetIdenWidget.on_get_iden_clicked] *)
Definition on_get_iden_clicked (wd : BaseCommandWidget)
  : list pystr * BaseCommandWidget :=
  ([lit "iden?"], wd).

(** The command [SweepWidget.on_start_sweep_clicked] formats. *)
Definition sweep_command (band min_wl max_wl step_wl time_ms : pystr) : pystr :=
  lit "sweep:" ++ band ++ lit ":" ++ min_wl ++ lit ":" ++ max_wl
  ++ lit ":" ++ step_wl ++ lit ":" ++ time_ms.

(** [SweepWidget.on_start_sweep_clicked] *)
Definition on_start_sweep_clicked
           (band min_wl max_wl step_wl time_ms : pystr)
           (wd : BaseCommandWidget) : list pystr * BaseCommandWidget :=
  if negb (forallb truthy [band; min_wl; max_wl; step_wl; time_ms]) then
    ([], update_status (lit "Todos os campos devem ser preenchidos.") true wd)
  else
    ([sweep_command band min_wl max_wl step_wl time_ms], wd).

(** [MainWindow]: the attributes its methods read and write, and the
    message boxes it has shown (title and text, oldest first). *)
Record MainWindow := mk_MainWindow {
  comm_thread : option QThread;
  communicator : option SerialCommunicator;
  port_selector : QComboBox;
  refresh_button : QPushButton;
  connect_button : QPushButton;
  command_widgets : list BaseCommandWidget;
  message_boxes : list (pystr * pystr)
}.

(** The running program: the window, and what the session of the window
    has emitted, printed and written so far. The session object itself is
    the [communicator] attribute of the window. *)
Record application := mk_application {
  window : MainWindow;
  app_emitted : list signal;
  app_printed : list pystr;
  app_wire : list byte
}.

Definition set_window (mw : MainWindow) (a : application) : application :=
  mk_application mw (app_emitted a) (app_printed a) (app_wire a).

(** The world a method of the session object [sc] runs in, and the
    program once the method has run. *)
Definition world_of (sc : SerialCommunicator) (a : application) : world :=
  mk_world sc (app_emitted a) (app_printed a) (app_wire a).

Definition store (w : world) (a : application) : application :=
  mk_application (mk_MainWindow (comm_thread (window a)) (Some (self w))
                        (port_selector (window a)) (refresh_button (window a))
                        (connect_button (window a))
                        (command_widgets (window a))
                        (message_boxes (window a)))
         (emitted w) (printed w) (wire w).

(** [QMessageBox.warning(self, title, text)] *)
Definition warning (title text : pystr) (a : application) : application :=
  set_window (mk_MainWindow (comm_thread (window a)) (communicator (window a))
                            (port_selector (window a))
                            (refresh_button (window a))
                            (connect_button (window a))
                            (command_widgets (window a))
                            (message_boxes (window a) ++ [(title, text)])) a.

Definition set_command_widgets (ws : list BaseCommandWidget) (a : application) : application :=
  set_window (mk_MainWindow (comm_thread (window a)) (communicator (window a))
                            (port_selector (window a))
                            (refresh_button (window a))
                            (connect_button (window a))
                            ws (message_boxes (window a))) a.

(** [MainWindow.handle_response] *)
Definition handle_response (response : pystr) (a : application) : application :=
  set_command_widgets
    (map (update_status response false) (command_widgets (window a))) a.

(** [MainWindow.handle_error] *)
Definition handle_error (error_message : pystr) (a : application) : application :=
  set_command_widgets
    (map (update_status error_message true) (command_widgets (window a))) a.

(** [MainWindow.on_disconnected] *)
Definition on_disconnected (a : application) : application :=
  set_window (mk_MainWindow None None
                            (combo_setEnabled true (port_selector (window a)))
                            (mk_QPushButton
                               (button_text (refresh_button (window a))) true)
                            (mk_QPushButton
                               (lit "Conectar")
                               (button_enabled (connect_button (window a))))
                            (command_widgets (window a))
                            (message_boxes (window a))) a.

(** The slots [toggle_connection] connects the three signals of the
    session to. *)
Definition dispatch (s : signal) (a : application) : application :=
  match s with
  | response_received response => handle_response response a
  | error_received error_message => handle_error error_message a
  | port_closed => on_disconnected a
  end.

(** A method of the session called from the GUI thread. What it emits
    there reaches the slots of the window at once, the window living in
    the thread that emits. *)
Definition gui_call (m : M unit) (sc : SerialCommunicator) (a : application)
  : outcome unit * application :=
  let (r, w') := m (world_of sc a) in
  (r, fold_left (fun a s => dispatch s a)
                (skipn (List.length (app_emitted a)) (emitted w'))
                (store w' a)).

(** [MainWindow.toggle_connection] *)
Definition toggle_connection (a : application) : application :=
  match communicator (window a) with
  | None =>
      let port_name := currentText (port_selector (window a)) in
      if negb (truthy port_name) then
        warning (lit "Sem Porta") (lit "Nenhuma porta serial selecionada.") a
      else
        set_window
          (mk_MainWindow (Some (mk_QThread true))
                         (Some (init port_name 115200%Z))
                         (combo_setEnabled false (port_selector (window a)))
                         (mk_QPushButton
                            (button_text (refresh_button (window a))) false)
                         (mk_QPushButton
                            (lit "Desconectar")
                            (button_enabled (connect_button (window a))))
                         (command_widgets (window a))
                         (message_boxes (window a))) a
  | Some sc => snd (gui_call disconnect sc a)
  end.

(** [MainWindow.send_command_from_widget] *)
Definition send_command_from_widget (wo : write_outcome) (command : pystr)
           (a : application) : outcome unit * application :=
  match communicator (window a) with
  | Some sc => gui_call (send_command wo command) sc a
  | None =>
      (Returned tt,
       warning (lit "Desconectado")
               (lit "Conecte-se a uma porta serial primeiro.") a)
  end.

(** [MainWindow.closeEvent] *)
Definition closeEvent (a : application) : application :=
  match communicator (window a) with
  | Some sc => snd (gui_call disconnect sc a)
  | None => a
  end.

(** [MainWindow.populate_ports] *)
Definition populate_ports (h : host) (a : application) : outcome unit * application :=
  let cleared :=
    set_window (mk_MainWindow (comm_thread (window a))
                              (communicator (window a))
                              (combo_clear (port_selector (window a)))
                              (refresh_button (window a))
                              (connect_button (window a))
                              (command_widgets (window a))
                              (message_boxes (window a))) a in
  match serial_ports h with
  | Returned port_names =>
      (Returned tt,
       set_window (mk_MainWindow (comm_thread (window cleared))
                                 (communicator (window cleared))
                                 (fold_left (fun c p => combo_addItem p c)
                                            port_names
                                            (port_selector (window cleared)))
                                 (refresh_button (window cleared))
                                 (connect_button (window cleared))
                                 (command_widgets (window cleared))
                                 (message_boxes (window cleared))) cleared)
  | Raised e => (Raised e, cleared)
  | Pending => (Pending, cleared)
  end.

(** [MainWindow.__init__], up to its last statement: the window with its
    four panels, before the ports are listed. *)
Definition MainWindow_new : application :=
  mk_application (mk_MainWindow None None
                        (mk_QComboBox [] [] true)
                        (mk_QPushButton (lit "Atualizar") true)
                        (mk_QPushButton (lit "Conectar") true)
                        [BaseCommandWidget_init; BaseCommandWidget_init;
                         BaseCommandWidget_init; BaseCommandWidget_init]
                        [])
         [] [] [].

(** [MainWindow.__init__] *)
Definition MainWindow_init (h : host) : outcome unit * application :=
  populate_ports h MainWindow_new.

(** The slot the [started] signal of the worker thread runs:
    [SerialCommunicator.connect], in the worker thread. *)
Definition thread_started (o : open_outcome) (env : list iteration) (a : application)
  : outcome unit * application :=
  match communicator (window a) with
  | Some sc => let (r, w') := connect o env (world_of sc a) in (r, store w' a)
  | None => (Returned tt, a)
  end.

(** What can happen in the GUI thread while the window holds a session
    (the refresh button and the port list are disabled then): a click on
    the connect button, a command asked for by a panel, the delivery of a
    signal the session has emitted, the window being closed. The slots
    are connected to the signals of the session object [toggle_connection]
    has just built, so what can be delivered is what has been emitted
    since then: the entries of the log from [since] on, [since] being the
    length of the log when the object was built. Any of them may be
    delivered, at any time and more than once: the deliveries Qt really
    makes are among these. *)
Inductive gui_event :=
| ev_toggle
| ev_command (wo : write_outcome) (command : pystr)
| ev_deliver (i : nat)
| ev_close.

Definition gui_step (since : nat) (ev : gui_event) (a : application)
  : application :=
  match ev with
  | ev_toggle => toggle_connection a
  | ev_command wo command => snd (send_command_from_widget wo command a)
  | ev_deliver i =>
      match nth_error (skipn since (app_emitted a)) i with
      | Some s => dispatch s a
      | None => a
      end
  | ev_close => closeEvent a
  end.

Definition gui_steps (since : nat) (evs : list gui_event) (a : application)
  : application :=
  fold_left (fun a ev => gui_step since ev a) evs a.

(** ** Vocabulary of the statements *)

(** [w] after the emissions [l], and after the printed lines [l]. *)
Definition emits (l : list signal) (w : world) : world :=
  mk_world (self w) (emitted w ++ l) (printed w) (wire w).

Definition prints (l : list pystr) (w : world) : world :=
  mk_world (self w) (emitted w) (printed w ++ l) (wire w).

Definition is_port_closed (s : signal) : bool :=
  match s with port_closed => true | _ => false end.

(** How many [port_closed] emissions a trace holds. *)
Definition count_port_closed (l : list signal) : nat :=
  List.length (filter is_port_closed l).

(** A handle after [close()]. *)
Definition closed_handle (p : Serial) : Serial :=
  mk_Serial (port p) (baudrate p) (timeout p) false.

Definition is_disconnect (op : caller_op) : bool :=
  match op with call_disconnect => true | call_send_command _ _ => false end.

(** Does [readline().decode('utf-8')] raise in this turn? *)
Definition read_faults (rd : read_outcome) : bool :=
  match rd with
  | read_raises _ => true
  | read_returns raw =>
      match decode raw with Some _ => false | None => true end
  end.

(** A turn that ends the loop if the loop gets that far: the other thread
    calls [disconnect], or the read faults. *)
Definition stops (it : iteration) : bool :=
  existsb is_disconnect (before_test it)
  || existsb is_disconnect (during_read it)
  || read_faults (read it).

(** Did the probe of [serial_ports] open and close the port? *)
Definition probe_ok (h : host) (p : pystr) : bool :=
  match probe h p with None => true | Some _ => false end.

(** ASCII text as the bytes a device puts on the line. *)
Definition ascii_bytes (s : string) : list byte :=
  map byte_of_ascii (list_ascii_of_string s).

(** *** Sample sessions and hosts *)

(** A session just built for COM3 at the default rate, nothing done yet. *)
Definition fresh_world : world :=
  mk_world (init (lit "COM3") 115200%Z) [] [] [].

(** The same session once [connect] has opened the port. *)
Definition open_world : world :=
  mk_world (mk_SerialCommunicator
              (Some (mk_Serial (lit "COM3") 115200%Z (Some 1%Z) true))
              (lit "COM3") 115200%Z true) [] [] [].

Definition busy : exn := mk_exn SerialException (lit "could not open port").

Definition bad_baud : exn := mk_exn ValueError (lit "Not a valid baudrate").

Definition fd_gone : exn :=
  mk_exn TypeError (lit "an integer is required").

Definition io_fault : exn := mk_exn OSError (lit "Input/output error").

(** Stand-ins for the texts CPython gives its codec errors. *)
Definition sample_decode_text (bs : list byte) : pystr :=
  lit "'utf-8' codec can't decode byte 0xff: invalid start byte".

Definition sample_encode_text (s : pystr) : pystr :=
  lit "'utf-8' codec can't encode character: surrogates not allowed".

(** A standard output that takes every line (a UTF-8 terminal), and one
    whose encoding is ASCII (the C locale). *)
Definition utf8_stdout (h : list pystr) (s : pystr) : print_outcome :=
  print_ok.

Definition ascii_error_text : pystr :=
  lit "'ascii' codec can't encode character: ordinal not in range(128)".

Definition ascii_stdout (h : list pystr) (s : pystr) : print_outcome :=
  if forallb (fun c => (c <? 0x80)%N) s then print_ok
  else print_raises (cannot_encode ascii_error_text).

(** A standard output that is closed once it has taken one line. *)
Definition one_line_stdout (h : list pystr) (s : pystr) : print_outcome :=
  match h with
  | [] => print_ok
  | _ :: _ => print_raises (stream_closed (lit "I/O operation on closed file."))
  end.


(** A Linux box with two tty devices, the second one busy. *)
Definition linux_box : host :=
  mk_host (lit "linux")
          (fun _ => [lit "/dev/ttyUSB0"; lit "/dev/ttyS0"])
          (fun p => if startswith p (lit "/dev/ttyUSB") then None
                    else Some busy).

Definition unknown_box : host :=
  mk_host (lit "sunos5") (fun _ => []) (fun _ => None).

(** What one decoded, stripped line makes the loop emit. *)
Definition classify (line : pystr) : list signal :=
  if startswith line (lit ":ACK") then [response_received line]
  else if startswith line (lit ":NACK") then [error_received line]
  else [].

(** [w'] continues [w] with emissions none of which is [port_closed]. *)
Definition quiet (w w' : world) : Prop :=
  exists l, emitted w' = emitted w ++ l /\ count_port_closed l = 0.

(** A line that neither begins nor ends with whitespace (and is not
    empty): the text [strip] leaves as it is. *)
Definition bare (l : pystr) : bool :=
  match l with
  | [] => false
  | c :: _ => negb (isspace c) && negb (isspace (last l c))
  end.

(** [w] once [connect] has opened the port and set the running flag. *)
Definition opened (w : world) : world :=
  mk_world (mk_SerialCommunicator
              (Some (mk_Serial (_port_name (self w)) (_baudrate (self w))
                               (Some 1%Z) true))
              (_port_name (self w)) (_baudrate (self w)) true)
           (emitted w) (printed w) (wire w).

(** *** Vocabulary of the further properties *)

(** A code point [str.encode('utf-8')] accepts: not a surrogate, and at
    most U+10FFFF. *)
Definition encodable (c : N) : bool :=
  ((c <? 0xD800) || ((0xDFFF <? c) && (c <? 0x110000)))%N.

Definition is_ascii (c : N) : bool := (c <? 0x80)%N.

(** Does [old] occur somewhere in [s]? *)
Fixpoint occurs (old s : pystr) : bool :=
  startswith s old
  || match s with
     | [] => false
     | _ :: s' => occurs old s'
     end.

(** A text without a colon. *)
Definition no_colon (s : pystr) : bool :=
  forallb (fun c => negb (c =? 58)%N) s.




(** A turn in which the other thread does not call [disconnect]. *)
Definition no_disconnect (it : iteration) : bool :=
  negb (existsb is_disconnect (before_test it))
  && negb (existsb is_disconnect (during_read it)).

(** The window with other panels, everything else as it is. *)
Definition same_controls (a a' : application) : Prop :=
  comm_thread (window a') = comm_thread (window a)
  /\ communicator (window a') = communicator (window a)
  /\ port_selector (window a') = port_selector (window a)
  /\ refresh_button (window a') = refresh_button (window a)
  /\ connect_button (window a') = connect_button (window a)
  /\ message_boxes (window a') = message_boxes (window a)
  /\ List.length (command_widgets (window a'))
     = List.length (command_widgets (window a)).

(** The label of a panel after an error and after a success. *)
Definition error_label (s : pystr) : QLabel :=
  mk_QLabel (lit "Erro: " ++ s) (lit "color: red; font-style: italic;").

Definition ok_label (s : pystr) : QLabel :=
  mk_QLabel (if truthy s then lit "OK: " ++ s else lit "OK")
            (lit "color: green;").

(** The window after an open that failed: it holds a session object that
    has no port handle, its controls are those of a connected window, and
    no [port_closed] has been emitted since that object was built, at
    length [since] of the log. *)
Definition half_open (since : nat) (a : application) : Prop :=
  (exists sc, communicator (window a) = Some sc /\ serial_port sc = None)
  /\ button_text (connect_button (window a)) = lit "Desconectar"
  /\ button_enabled (refresh_button (window a)) = false
  /\ combo_enabled (port_selector (window a)) = false
  /\ count_port_closed (skipn since (app_emitted a)) = 0.

(** The program with another window. *)
Definition with_port_selector (c : QComboBox) (a : application) : application :=
  set_window (mk_MainWindow (comm_thread (window a)) (communicator (window a))
                            c (refresh_button (window a))
                            (connect_button (window a))
                            (command_widgets (window a))
                            (message_boxes (window a))) a.

(** A window just built, with COM3 listed and selected. *)
Definition sample_app : application :=
  mk_application
    (mk_MainWindow None None
                   (mk_QComboBox [lit "COM3"] (lit "COM3") true)
                   (mk_QPushButton (lit "Atualizar") true)
                   (mk_QPushButton (lit "Conectar") true)
                   [BaseCommandWidget_init; BaseCommandWidget_init;
                    BaseCommandWidget_init; BaseCommandWidget_init]
                   [])
    [] [] [].

(** The same window after an earlier session has come and gone: the log
    holds what that session emitted. *)
Definition used_app : application :=
  mk_application (window sample_app)
                 [response_received (lit ":ACK:1550.000"); port_closed]
                 [lit "Recebido: :ACK:1550.000"] [].

(** The same window while its session has the port open. *)
Definition connected_app : application :=
  mk_application
    (mk_MainWindow (Some (mk_QThread true)) (Some (self open_world))
                   (mk_QComboBox [lit "COM3"] (lit "COM3") false)
                   (mk_QPushButton (lit "Atualizar") false)
                   (mk_QPushButton (lit "Desconectar") true)
                   [BaseCommandWidget_init; BaseCommandWidget_init;
                    BaseCommandWidget_init; BaseCommandWidget_init]
                   [])
    [] [] [].

(** A Windows machine on which only COM3 and COM7 open. *)
Definition windows_box : host :=
  mk_host (lit "win32") (fun _ => [])
          (fun p => if startswith p (lit "COM3") || startswith p (lit "COM7")
                    then (if (List.length p =? 4)%nat then None else Some busy)
                    else Some busy).

(** A Linux machine whose second device makes the probe raise a
    ValueError. *)
Definition odd_box : host :=
  mk_host (lit "linux")
          (fun _ => [lit "/dev/ttyUSB0"; lit "/dev/ttyS0"; lit "/dev/ttyS1"])
          (fun p => if startswith p (lit "/dev/ttyUSB") then None
                    else Some bad_baud).

(** ** Basic facts *)

(** ** The codec: decoding reads back what encoding wrote *)

Lemma to_N_byte_of (n : N) : (n < 256)%N -> Byte.to_N (byte_of n) = n.
Proof using.
  intro H. unfold byte_of.
  pose proof (Byte.to_of_N_option_map n) as E.
  destruct (Byte.of_N n) as [b|]; simpl in E.
  - destruct (N.leb_spec n 255); [now inversion E | discriminate E].
  - destruct (N.leb_spec n 255); [discriminate E | lia].
Qed.

(** Enumerate a number known to be below a small bound. *)
Ltac enum_below y H :=
  destruct y as [|y]; [|do 7 (try destruct y as [y|y|])];
  try (exfalso; clear - H; lia); try reflexivity.

(** The payload bits of a lead byte and of a continuation byte: setting
    the marker bits is an addition, and masking gives the payload back. *)
Lemma lead2_bits (y : N) : (y < 32)%N ->
  N.lor 0xC0 y = (0xC0 + y)%N /\ N.land (0xC0 + y) 0x1F = y.
Proof using. intro H. enum_below y H; split; reflexivity. Qed.

Lemma lead3_bits (y : N) : (y < 16)%N ->
  N.lor 0xE0 y = (0xE0 + y)%N /\ N.land (0xE0 + y) 0x0F = y.
Proof using. intro H. enum_below y H; split; reflexivity. Qed.

Lemma lead4_bits (y : N) : (y < 8)%N ->
  N.lor 0xF0 y = (0xF0 + y)%N /\ N.land (0xF0 + y) 0x07 = y.
Proof using. intro H. enum_below y H; split; reflexivity. Qed.

Lemma cont_bits (z : N) : (z < 64)%N ->
  N.lor 0x80 z = (0x80 + z)%N /\ N.land (0x80 + z) 0x3F = z.
Proof using. intro H. enum_below z H; split; reflexivity. Qed.


(** Decide every comparison the goal tests, by the bounds at hand. *)
Ltac tests :=
  repeat match goal with
         | |- context [(?a =? ?b)%N] => destruct (N.eqb_spec a b); try lia
         | |- context [(?a <? ?b)%N] => destruct (N.ltb_spec a b); try lia
         | |- context [(?a <=? ?b)%N] => destruct (N.leb_spec a b); try lia
         end.

(** [decode] on a well-formed sequence of each length. *)
Lemma decode_1 (b0 : byte) (rest : list byte) :
  (Byte.to_N b0 < 0x80)%N ->
  decode (b0 :: rest) = cons_opt (Byte.to_N b0) (decode rest).
Proof using. intro H. cbn [decode]. tests. reflexivity. Qed.

Lemma decode_2 (b0 b1 : byte) (rest : list byte) :
  (0xC2 <= Byte.to_N b0 < 0xE0)%N ->
  (0x80 <= Byte.to_N b1 <= 0xBF)%N ->
  decode (b0 :: b1 :: rest)
  = cons_opt (N.shiftl (N.land (Byte.to_N b0) 0x1F) 6 + low6 b1)%N
             (decode rest).
Proof using. intros H0 H1. cbn [decode]. unfold in_range. tests. reflexivity. Qed.

Lemma decode_3 (b0 b1 b2 : byte) (rest : list byte) :
  (0xE0 <= Byte.to_N b0 < 0xF0)%N ->
  (0x80 <= Byte.to_N b1 <= 0xBF)%N ->
  (Byte.to_N b0 = 0xE0 -> 0xA0 <= Byte.to_N b1)%N ->
  (Byte.to_N b0 = 0xED -> Byte.to_N b1 <= 0x9F)%N ->
  (0x80 <= Byte.to_N b2 <= 0xBF)%N ->
  decode (b0 :: b1 :: b2 :: rest)
  = cons_opt (N.shiftl (N.land (Byte.to_N b0) 0x0F) 12
              + N.shiftl (low6 b1) 6 + low6 b2)%N
             (decode rest).
Proof using.
  intros H0 H1 Hlo Hhi H2. cbn [decode]. unfold in_range. tests; reflexivity.
Qed.

Lemma decode_4 (b0 b1 b2 b3 : byte) (rest : list byte) :
  (0xF0 <= Byte.to_N b0 < 0xF5)%N ->
  (0x80 <= Byte.to_N b1 <= 0xBF)%N ->
  (Byte.to_N b0 = 0xF0 -> 0x90 <= Byte.to_N b1)%N ->
  (Byte.to_N b0 = 0xF4 -> Byte.to_N b1 <= 0x8F)%N ->
  (0x80 <= Byte.to_N b2 <= 0xBF)%N ->
  (0x80 <= Byte.to_N b3 <= 0xBF)%N ->
  decode (b0 :: b1 :: b2 :: b3 :: rest)
  = cons_opt (N.shiftl (N.land (Byte.to_N b0) 0x07) 18
              + N.shiftl (low6 b1) 12
              + N.shiftl (low6 b2) 6 + low6 b3)%N
             (decode rest).
Proof using.
  intros H0 H1 Hlo Hhi H2 H3. cbn [decode]. unfold in_range. tests; reflexivity.
Qed.

(** Shifts and the six-bit mask as division, remainder and product. *)
Lemma shiftr_6 (c : N) : N.shiftr c 6 = (c / 64)%N.
Proof using. now rewrite N.shiftr_div_pow2. Qed.
Lemma shiftr_12 (c : N) : N.shiftr c 12 = (c / 4096)%N.
Proof using. now rewrite N.shiftr_div_pow2. Qed.
Lemma shiftr_18 (c : N) : N.shiftr c 18 = (c / 262144)%N.
Proof using. now rewrite N.shiftr_div_pow2. Qed.
Lemma land_63 (c : N) : N.land c 0x3F = (c mod 64)%N.
Proof using. change 0x3F%N with (N.ones 6). now rewrite N.land_ones. Qed.
Lemma shiftl_6 (c : N) : N.shiftl c 6 = (c * 64)%N.
Proof using. now rewrite N.shiftl_mul_pow2. Qed.
Lemma shiftl_12 (c : N) : N.shiftl c 12 = (c * 4096)%N.
Proof using. now rewrite N.shiftl_mul_pow2. Qed.
Lemma shiftl_18 (c : N) : N.shiftl c 18 = (c * 262144)%N.
Proof using. now rewrite N.shiftl_mul_pow2. Qed.

Lemma some_eq {A} (x y : A) : Some x = Some y -> x = y.
Proof using. congruence. Qed.

(** Linear arithmetic with division and remainder by constants. *)
Ltac dlia := zify; Z.to_euclidean_division_equations; lia.

(** Decoding undoes the encoding of one code point, whatever follows. *)
Lemma decode_encode_char (c : N) (cs rest : list byte) :
  encode_char c = Some cs ->
  decode (cs ++ rest) = cons_opt c (decode rest).
Proof using.
  clear decode_error_text encode_error_text sys_stdout.
  unfold encode_char. intro E.
  destruct (N.ltb_spec c 0x80) as [L1|L1].
  { apply some_eq in E; subst cs. cbn [app].
    rewrite decode_1; rewrite to_N_byte_of by lia; [reflexivity | lia]. }
  destruct (N.ltb_spec c 0x800) as [L2|L2].
  { apply some_eq in E; subst cs. cbn [app].
    rewrite shiftr_6, land_63.
    destruct (lead2_bits (c / 64)) as [A0 B0]; [dlia|].
    destruct (cont_bits (c mod 64)) as [A1 B1]; [dlia|].
    rewrite A0, A1.
    rewrite decode_2; unfold low6; rewrite !to_N_byte_of by dlia; try dlia.
    rewrite B0, B1, shiftl_6. f_equal. dlia. }
  destruct (N.ltb_spec c 0x10000) as [L3|L3].
  { destruct (N.leb_spec 0xD800 c) as [S1|S1];
      [destruct (N.leb_spec c 0xDFFF) as [S2|S2]; [discriminate E|] |];
      cbn [andb] in E; apply some_eq in E; subst cs; cbn [app];
      rewrite shiftr_6, shiftr_12, !land_63;
      (destruct (lead3_bits (c / 4096)) as [A0 B0]; [dlia|]);
      (destruct (cont_bits ((c / 64) mod 64)) as [A1 B1]; [dlia|]);
      (destruct (cont_bits (c mod 64)) as [A2 B2]; [dlia|]);
      rewrite A0, A1, A2;
      (rewrite decode_3; unfold low6; rewrite !to_N_byte_of by dlia; try dlia);
      rewrite B0, B1, B2, shiftl_6, shiftl_12; f_equal; dlia. }
  destruct (N.ltb_spec c 0x110000) as [L4|L4]; [|discriminate E].
  apply some_eq in E; subst cs. cbn [app].
  rewrite shiftr_6, shiftr_12, shiftr_18, !land_63.
  destruct (lead4_bits (c / 262144)) as [A0 B0]; [dlia|].
  destruct (cont_bits ((c / 4096) mod 64)) as [A1 B1]; [dlia|].
  destruct (cont_bits ((c / 64) mod 64)) as [A2 B2]; [dlia|].
  destruct (cont_bits (c mod 64)) as [A3 B3]; [dlia|].
  rewrite A0, A1, A2, A3.
  rewrite decode_4; unfold low6; rewrite !to_N_byte_of by dlia; try dlia.
  rewrite B0, B1, B2, B3, shiftl_6, shiftl_12, shiftl_18. f_equal. dlia.
Qed.

(** What [encode] produces, [decode] reads back. *)
Lemma decode_encode (s : pystr) (bs : list byte) :
  encode s = Some bs -> decode bs = Some s.
Proof using.
  revert bs. induction s as [|c s IH]; intros bs E; cbn [encode] in E.
  - now inversion E.
  - destruct (encode_char c) as [cs|] eqn:C; [|discriminate E].
    destruct (encode s) as [bs'|]; [|discriminate E].
    inversion E; subst bs.
    rewrite (decode_encode_char c cs bs' C), (IH bs' eq_refl). reflexivity.
Qed.

(** The other way round: the bytes [decode] accepts are the bytes
    [encode_char] writes for the code point read. *)
Lemma byte_of_to_N (b : byte) : byte_of (Byte.to_N b) = b.
Proof using. unfold byte_of. now rewrite Byte.of_to_N. Qed.

Lemma encode_char_1 (b0 : byte) :
  (Byte.to_N b0 < 0x80)%N -> encode_char (Byte.to_N b0) = Some [b0].
Proof using.
  intro H. unfold encode_char.
  destruct (N.ltb_spec (Byte.to_N b0) 0x80); [|lia].
  now rewrite byte_of_to_N.
Qed.

Lemma encode_char_2 (b0 b1 : byte) :
  (0xC2 <= Byte.to_N b0 < 0xE0)%N ->
  (0x80 <= Byte.to_N b1 <= 0xBF)%N ->
  encode_char (N.shiftl (N.land (Byte.to_N b0) 0x1F) 6 + low6 b1)%N
  = Some [b0; b1].
Proof using.
  clear decode_error_text encode_error_text sys_stdout.
  intros H0 H1. unfold low6.
  rewrite <- (byte_of_to_N b0) at 2. rewrite <- (byte_of_to_N b1) at 2.
  replace (Byte.to_N b0) with (0xC0 + (Byte.to_N b0 - 0xC0))%N by lia.
  replace (Byte.to_N b1) with (0x80 + (Byte.to_N b1 - 0x80))%N by lia.
  set (y := (Byte.to_N b0 - 0xC0)%N). set (z := (Byte.to_N b1 - 0x80)%N).
  assert (Hy : (2 <= y < 32)%N) by (unfold y; lia).
  assert (Hz : (z < 64)%N) by (unfold z; lia).
  destruct (lead2_bits y) as [A0 B0]; [lia|]. destruct (cont_bits z) as [A1 B1]; [lia|].
  rewrite B0, B1, shiftl_6. unfold encode_char.
  destruct (N.ltb_spec (y * 64 + z) 0x80); [lia|].
  destruct (N.ltb_spec (y * 64 + z) 0x800); [|lia].
  rewrite shiftr_6, land_63.
  replace ((y * 64 + z) / 64)%N with y by dlia.
  replace ((y * 64 + z) mod 64)%N with z by dlia.
  now rewrite A0, A1.
Qed.

Lemma encode_char_3 (b0 b1 b2 : byte) :
  (0xE0 <= Byte.to_N b0 < 0xF0)%N ->
  (0x80 <= Byte.to_N b1 <= 0xBF)%N ->
  (Byte.to_N b0 = 0xE0 -> 0xA0 <= Byte.to_N b1)%N ->
  (Byte.to_N b0 = 0xED -> Byte.to_N b1 <= 0x9F)%N ->
  (0x80 <= Byte.to_N b2 <= 0xBF)%N ->
  encode_char (N.shiftl (N.land (Byte.to_N b0) 0x0F) 12
               + N.shiftl (low6 b1) 6 + low6 b2)%N
  = Some [b0; b1; b2].
Proof using.
  clear decode_error_text encode_error_text sys_stdout.
  intros H0 H1 Hlo Hhi H2. unfold low6.
  rewrite <- (byte_of_to_N b0) at 2. rewrite <- (byte_of_to_N b1) at 2.
  rewrite <- (byte_of_to_N b2) at 2.
  assert (Hlo' : (Byte.to_N b0 - 0xE0 = 0 -> 32 <= Byte.to_N b1 - 0x80)%N)
    by lia.
  assert (Hhi' : (Byte.to_N b0 - 0xE0 = 13 -> Byte.to_N b1 - 0x80 < 32)%N)
    by lia.
  replace (Byte.to_N b0) with (0xE0 + (Byte.to_N b0 - 0xE0))%N by lia.
  replace (Byte.to_N b1) with (0x80 + (Byte.to_N b1 - 0x80))%N by lia.
  replace (Byte.to_N b2) with (0x80 + (Byte.to_N b2 - 0x80))%N by lia.
  set (y := (Byte.to_N b0 - 0xE0)%N) in *.
  set (z1 := (Byte.to_N b1 - 0x80)%N) in *.
  set (z2 := (Byte.to_N b2 - 0x80)%N) in *.
  assert (Hy : (y < 16)%N) by (unfold y; lia).
  assert (Hz1 : (z1 < 64)%N) by (unfold z1; lia).
  assert (Hz2 : (z2 < 64)%N) by (unfold z2; lia).
  clearbody y z1 z2. clear H0 H1 H2 Hlo Hhi.
  destruct (lead3_bits y) as [A0 B0]; [lia|].
  destruct (cont_bits z1) as [A1 B1]; [lia|]. destruct (cont_bits z2) as [A2 B2]; [lia|].
  rewrite B0, B1, B2, shiftl_6, shiftl_12. unfold encode_char.
  set (c := (y * 4096 + z1 * 64 + z2)%N).
  assert (C0 : (c / 4096 = y)%N) by (unfold c; dlia).
  assert (C1 : ((c / 64) mod 64 = z1)%N) by (unfold c; dlia).
  assert (C2 : (c mod 64 = z2)%N) by (unfold c; dlia).
  destruct (N.ltb_spec c 0x80); [unfold c in *; lia|].
  destruct (N.ltb_spec c 0x800); [unfold c in *; lia|].
  destruct (N.ltb_spec c 0x10000); [|unfold c in *; lia].
  replace ((0xD800 <=? c) && (c <=? 0xDFFF))%N with false.
  - rewrite shiftr_6, shiftr_12, !land_63, C0, C1, C2. now rewrite A0, A1, A2.
  - symmetry. apply andb_false_iff.
    destruct (N.leb_spec 0xD800 c); [|now left]. right.
    apply N.leb_gt. unfold c in *. lia.
Qed.

Lemma encode_char_4 (b0 b1 b2 b3 : byte) :
  (0xF0 <= Byte.to_N b0 < 0xF5)%N ->
  (0x80 <= Byte.to_N b1 <= 0xBF)%N ->
  (Byte.to_N b0 = 0xF0 -> 0x90 <= Byte.to_N b1)%N ->
  (Byte.to_N b0 = 0xF4 -> Byte.to_N b1 <= 0x8F)%N ->
  (0x80 <= Byte.to_N b2 <= 0xBF)%N ->
  (0x80 <= Byte.to_N b3 <= 0xBF)%N ->
  encode_char (N.shiftl (N.land (Byte.to_N b0) 0x07) 18
               + N.shiftl (low6 b1) 12
               + N.shiftl (low6 b2) 6 + low6 b3)%N
  = Some [b0; b1; b2; b3].
Proof using.
  clear decode_error_text encode_error_text sys_stdout.
  intros H0 H1 Hlo Hhi H2 H3. unfold low6.
  rewrite <- (byte_of_to_N b0) at 2. rewrite <- (byte_of_to_N b1) at 2.
  rewrite <- (byte_of_to_N b2) at 2. rewrite <- (byte_of_to_N b3) at 2.
  assert (Hlo' : (Byte.to_N b0 - 0xF0 = 0 -> 16 <= Byte.to_N b1 - 0x80)%N)
    by lia.
  assert (Hhi' : (Byte.to_N b0 - 0xF0 = 4 -> Byte.to_N b1 - 0x80 < 16)%N)
    by lia.
  replace (Byte.to_N b0) with (0xF0 + (Byte.to_N b0 - 0xF0))%N by lia.
  replace (Byte.to_N b1) with (0x80 + (Byte.to_N b1 - 0x80))%N by lia.
  replace (Byte.to_N b2) with (0x80 + (Byte.to_N b2 - 0x80))%N by lia.
  replace (Byte.to_N b3) with (0x80 + (Byte.to_N b3 - 0x80))%N by lia.
  set (y := (Byte.to_N b0 - 0xF0)%N) in *.
  set (z1 := (Byte.to_N b1 - 0x80)%N) in *.
  set (z2 := (Byte.to_N b2 - 0x80)%N) in *.
  set (z3 := (Byte.to_N b3 - 0x80)%N) in *.
  assert (Hy : (y < 5)%N) by (unfold y; lia).
  assert (Hz1 : (z1 < 64)%N) by (unfold z1; lia).
  assert (Hz2 : (z2 < 64)%N) by (unfold z2; lia).
  assert (Hz3 : (z3 < 64)%N) by (unfold z3; lia).
  clearbody y z1 z2 z3. clear H0 H1 H2 H3 Hlo Hhi.
  destruct (lead4_bits y) as [A0 B0]; [lia|].
  destruct (cont_bits z1) as [A1 B1]; [lia|]. destruct (cont_bits z2) as [A2 B2]; [lia|].
  destruct (cont_bits z3) as [A3 B3]; [lia|].
  rewrite B0, B1, B2, B3, shiftl_6, shiftl_12, shiftl_18. unfold encode_char.
  set (c := (y * 262144 + z1 * 4096 + z2 * 64 + z3)%N).
  assert (C0 : (c / 262144 = y)%N) by (unfold c; dlia).
  assert (C1 : ((c / 4096) mod 64 = z1)%N) by (unfold c; dlia).
  assert (C2 : ((c / 64) mod 64 = z2)%N) by (unfold c; dlia).
  assert (C3 : (c mod 64 = z3)%N) by (unfold c; dlia).
  destruct (N.ltb_spec c 0x80); [unfold c in *; lia|].
  destruct (N.ltb_spec c 0x800); [unfold c in *; lia|].
  destruct (N.ltb_spec c 0x10000); [unfold c in *; lia|].
  destruct (N.ltb_spec c 0x110000); [|unfold c in *; lia].
  rewrite shiftr_6, shiftr_12, shiftr_18, !land_63, C0, C1, C2, C3.
  now rewrite A0, A1, A2, A3.
Qed.

Lemma cons_opt_some (c : N) (r : option pystr) (s : pystr) :
  cons_opt c r = Some s -> exists s', r = Some s' /\ s = c :: s'.
Proof using.
  destruct r as [s'|]; [|discriminate]. intro H. apply some_eq in H.
  now exists s'.
Qed.

(** What [decode] accepts is an encoding: [encode] writes the same bytes
    back. With [decode_encode], [decode bs = Some s] exactly when
    [encode s = Some bs]. *)
Lemma encode_decode (bs : list byte) (s : pystr) :
  decode bs = Some s -> encode s = Some bs.
Proof using.
  clear decode_error_text encode_error_text sys_stdout.
  assert (G : forall n bs, List.length bs <= n ->
                           forall s, decode bs = Some s -> encode s = Some bs).
  { clear bs s. induction n as [|n IH]; intros bs L s D.
    - destruct bs; [|cbn in L; lia]. cbn in D. apply some_eq in D. now subst.
    - destruct bs as [|b0 r0]; [cbn in D; apply some_eq in D; now subst|].
      cbn [decode] in D. cbn [List.length] in L.
      destruct (N.ltb_spec (Byte.to_N b0) 0x80) as [T1|T1].
      { apply cons_opt_some in D. destruct D as [s' [D ->]].
        cbn [encode]. rewrite (encode_char_1 b0 T1).
        now rewrite (IH r0 ltac:(lia) s' D). }
      destruct (N.ltb_spec (Byte.to_N b0) 0xC2) as [T2|T2]; [discriminate D|].
      destruct (N.ltb_spec (Byte.to_N b0) 0xE0) as [T3|T3].
      { destruct r0 as [|b1 r1]; [discriminate D|]. unfold in_range in D.
        destruct (N.leb_spec 0x80 (Byte.to_N b1)); [|discriminate D].
        destruct (N.leb_spec (Byte.to_N b1) 0xBF); [|discriminate D].
        cbn [andb] in D.
        apply cons_opt_some in D. destruct D as [s' [D ->]].
        cbn [encode]. rewrite encode_char_2 by lia.
        cbn [List.length] in L.
        now rewrite (IH r1 ltac:(lia) s' D). }
      destruct (N.ltb_spec (Byte.to_N b0) 0xF0) as [T4|T4].
      { destruct r0 as [|b1 [|b2 r2]]; try discriminate D.
        unfold in_range in D.
        destruct (N.eqb_spec (Byte.to_N b0) 0xE0);
          destruct (N.eqb_spec (Byte.to_N b0) 0xED); try lia;
          cbv zeta in D;
          (match type of D with
           | context [(?lo <=? Byte.to_N b1)%N] =>
               destruct (N.leb_spec lo (Byte.to_N b1)); [|discriminate D]
           end);
          (match type of D with
           | context [(Byte.to_N b1 <=? ?hi)%N] =>
               destruct (N.leb_spec (Byte.to_N b1) hi); [|discriminate D]
           end);
          (destruct (N.leb_spec 0x80 (Byte.to_N b2)); [|discriminate D]);
          (destruct (N.leb_spec (Byte.to_N b2) 0xBF); [|discriminate D]);
          cbn [andb] in D;
          apply cons_opt_some in D; destruct D as [s' [D ->]];
          cbn [encode]; rewrite encode_char_3 by lia;
          cbn [List.length] in L;
          now rewrite (IH r2 ltac:(lia) s' D). }
      destruct (N.ltb_spec (Byte.to_N b0) 0xF5) as [T5|T5]; [|discriminate D].
      destruct r0 as [|b1 [|b2 [|b3 r3]]]; try discriminate D.
      unfold in_range in D.
      destruct (N.eqb_spec (Byte.to_N b0) 0xF0);
        destruct (N.eqb_spec (Byte.to_N b0) 0xF4); try lia;
        cbv zeta in D;
        (match type of D with
         | context [(?lo <=? Byte.to_N b1)%N] =>
             destruct (N.leb_spec lo (Byte.to_N b1)); [|discriminate D]
         end);
        (match type of D with
         | context [(Byte.to_N b1 <=? ?hi)%N] =>
             destruct (N.leb_spec (Byte.to_N b1) hi); [|discriminate D]
         end);
        (destruct (N.leb_spec 0x80 (Byte.to_N b2)); [|discriminate D]);
        (destruct (N.leb_spec (Byte.to_N b2) 0xBF); [|discriminate D]);
        (destruct (N.leb_spec 0x80 (Byte.to_N b3)); [|discriminate D]);
        (destruct (N.leb_spec (Byte.to_N b3) 0xBF); [|discriminate D]);
        cbn [andb] in D;
        apply cons_opt_some in D; destruct D as [s' [D ->]];
        cbn [encode]; rewrite encode_char_4 by lia;
        cbn [List.length] in L;
        now rewrite (IH r3 ltac:(lia) s' D). }
  intro D. exact (G (List.length bs) bs (le_n _) s D).
Qed.

(** ** [strip] on a line and its terminator *)

Lemma lstrip_spaces_app (a b : pystr) :
  forallb isspace a = true -> lstrip (a ++ b) = lstrip b.
Proof using.
  induction a as [|c a IH]; intro H; [reflexivity|].
  cbn [forallb] in H. apply andb_true_iff in H. destruct H as [C H].
  cbn [app lstrip]. rewrite C. now apply IH.
Qed.

Lemma forallb_rev (f : N -> bool) (l : pystr) :
  forallb f (rev l) = forallb f l.
Proof using.
  induction l as [|c l IH]; [reflexivity|].
  cbn [rev forallb]. rewrite forallb_app, IH. cbn [forallb].
  now rewrite andb_true_r, andb_comm.
Qed.

(** A bare line followed by whitespace only (its terminator, a carriage
    return, blanks) strips to the bare line. *)
Lemma strip_bare_padded (l ws : pystr) :
  bare l = true -> forallb isspace ws = true -> strip (l ++ ws) = l.
Proof using.
  intros B W. destruct l as [|c l]; [discriminate B|].
  unfold bare in B. apply andb_true_iff in B. destruct B as [B1 B2].
  apply negb_true_iff in B1, B2.
  unfold strip. cbn [app lstrip]. rewrite B1.
  change (c :: l ++ ws) with ((c :: l) ++ ws).
  unfold rstrip. rewrite rev_app_distr.
  rewrite lstrip_spaces_app by now rewrite forallb_rev.
  assert (N : c :: l <> []) by discriminate.
  rewrite (app_removelast_last c N) at 1.
  rewrite rev_app_distr. cbn [rev app lstrip]. rewrite B2.
  change (last (c :: l) c :: rev (removelast (c :: l)))
    with (rev [last (c :: l) c] ++ rev (removelast (c :: l))).
  rewrite <- rev_app_distr, rev_involutive.
  now rewrite <- (app_removelast_last c N).
Qed.

(** ** Worlds, exception classes and the two prefixes *)

Lemma emits_nil (w : world) : emits [] w = w.
Proof. destruct w; unfold emits; simpl; now rewrite app_nil_r. Qed.

Lemma emits_emits (l1 l2 : list signal) (w : world) :
  emits l2 (emits l1 w) = emits (l1 ++ l2) w.
Proof. unfold emits; simpl; now rewrite app_assoc. Qed.

Lemma catches_Exception (e : exn) : catches [Exception] e = true.
Proof. destruct e as [c s]; destruct c; reflexivity. Qed.

Lemma catches_TypeError (e : exn) :
  catches [TypeError] e = true <-> exc_type e = TypeError.
Proof.
  destruct e as [c s]; destruct c; simpl; split;
    intro H; try reflexivity; discriminate H.
Qed.

Lemma catches_SerialException (e : exn) :
  catches [SerialException] e = true <-> exc_type e = SerialException.
Proof.
  destruct e as [c s]; destruct c; simpl; split;
    intro H; try reflexivity; discriminate H.
Qed.

Lemma nack_not_ack (s : pystr) :
  startswith s (lit ":NACK") = true -> startswith s (lit ":ACK") = false.
Proof.
  destruct s as [|a [|b s]]; try discriminate.
  - simpl. now rewrite andb_false_r.
  - change (startswith (a :: b :: s) (lit ":NACK"))
      with ((58 =? a)%N && ((78 =? b)%N && startswith s (lit "ACK"))).
    change (startswith (a :: b :: s) (lit ":ACK"))
      with ((58 =? a)%N && ((65 =? b)%N && startswith s (lit "CK"))).
    destruct (58 =? a)%N; cbn [andb]; [|intro H; discriminate H].
    destruct (N.eqb_spec 78 b) as [<-|]; cbn [andb];
      [reflexivity | intro H; discriminate H].
Qed.

Lemma startswith_nonempty (s p : pystr) :
  startswith s p = true -> truthy p = true -> truthy s = true.
Proof. destruct p, s; simpl; auto; discriminate. Qed.

Lemma stdout_exn_not_TypeError (err : stdout_error) :
  catches [TypeError] (stdout_exn err) = false.
Proof using. destruct err; reflexivity. Qed.

Lemma stdout_exn_not_SerialException (err : stdout_error) :
  catches [SerialException] (stdout_exn err) = false.
Proof using. destruct err; reflexivity. Qed.

Lemma print_ok_eq (s : pystr) (w : world) :
  sys_stdout (printed w) s = print_ok -> print s w = (Returned tt, prints [s] w).
Proof. intro P. unfold print. now rewrite P. Qed.

Lemma print_raises_eq (s : pystr) (err : stdout_error) (w : world) :
  sys_stdout (printed w) s = print_raises err ->
  print s w = (Raised (stdout_exn err), w).
Proof. intro P. unfold print. now rewrite P. Qed.

(** The [try] body on bytes that decode, when standard output takes the
    line: the loop goes on, having printed and classified the stripped
    line when there is one. *)
Lemma run_body_line (raw : list byte) (text : pystr) (w : world) :
  decode raw = Some text ->
  (truthy (strip text) = true ->
   sys_stdout (printed w) (lit "Recebido: " ++ strip text) = print_ok) ->
  run_body (read_returns raw) w =
  (Returned Next,
   if truthy (strip text)
   then emits (classify (strip text))
              (prints [lit "Recebido: " ++ strip text] w)
   else w).
Proof.
  intros D P.
  unfold run_body, try_except, bind, Serial_readline, bytes_decode, ret.
  rewrite D. unfold classify.
  destruct (truthy (strip text)); [|reflexivity].
  rewrite (print_ok_eq _ w (P eq_refl)).
  unfold emit, emits, prints; simpl.
  destruct (startswith (strip text) (lit ":ACK")); [reflexivity|].
  destruct (startswith (strip text) (lit ":NACK")); [reflexivity|].
  simpl. now rewrite app_nil_r.
Qed.

(** The [try] body on a line standard output does not take: [print]
    raises inside the [try], before anything is emitted for the line, and
    the last [except] clause reports it as a read error and ends the
    loop. *)
Lemma run_body_unprinted (raw : list byte) (text : pystr)
      (err : stdout_error) (w : world) :
  decode raw = Some text ->
  truthy (strip text) = true ->
  sys_stdout (printed w) (lit "Recebido: " ++ strip text) = print_raises err ->
  run_body (read_returns raw) w =
  (Returned Break,
   emits [error_received (lit "Erro de leitura: "
                          ++ exc_str (stdout_exn err))] w).
Proof.
  intros D K P.
  unfold run_body, try_except, bind, Serial_readline, bytes_decode, ret.
  rewrite D, K. rewrite (print_raises_eq _ err w P).
  cbn [handler_for]. rewrite stdout_exn_not_TypeError, catches_Exception.
  reflexivity.
Qed.

Lemma run_body_raises (e : exn) (w : world) :
  run_body (read_raises e) w =
  (Returned Break,
   if catches [TypeError] e then w
   else emits [error_received (lit "Erro de leitura: " ++ exc_str e)] w).
Proof.
  unfold run_body, try_except, bind, Serial_readline, raise.
  cbn [handler_for].
  destruct (catches [TypeError] e); [reflexivity|].
  now rewrite catches_Exception.
Qed.

Lemma run_body_undecodable (raw : list byte) (w : world) :
  decode raw = None ->
  run_body (read_returns raw) w =
  (Returned Break,
   emits [error_received (lit "Erro de leitura: " ++ decode_error_text raw)] w).
Proof.
  intro D. unfold run_body, try_except, bind, Serial_readline, bytes_decode, ret, raise.
  rewrite D. reflexivity.
Qed.

(** ** The emissions only grow, and only [run] emits [port_closed] *)

Lemma count_port_closed_app (l1 l2 : list signal) :
  count_port_closed (l1 ++ l2) = count_port_closed l1 + count_port_closed l2.
Proof. unfold count_port_closed. now rewrite filter_app, length_app. Qed.

Lemma quiet_refl (w : world) : quiet w w.
Proof. exists []. now rewrite app_nil_r. Qed.

Lemma quiet_trans (w1 w2 w3 : world) : quiet w1 w2 -> quiet w2 w3 -> quiet w1 w3.
Proof.
  intros [l1 [E1 C1]] [l2 [E2 C2]]. exists (l1 ++ l2). split.
  - now rewrite E2, E1, app_assoc.
  - rewrite count_port_closed_app. lia.
Qed.

Lemma quiet_emits (l : list signal) (w : world) :
  count_port_closed l = 0 -> quiet w (emits l w).
Proof. intro C. now exists l. Qed.

Lemma quiet_same (w w' : world) : emitted w' = emitted w -> quiet w w'.
Proof. intro E. exists []. now rewrite app_nil_r. Qed.

Lemma classify_quiet (line : pystr) : count_port_closed (classify line) = 0.
Proof.
  unfold classify.
  destruct (startswith line (lit ":ACK")); [reflexivity|].
  destruct (startswith line (lit ":NACK")); reflexivity.
Qed.

(** One turn of the [try] statement always returns; it leaves the object
    and the wire alone, emits no [port_closed], and breaks when the read
    faults. *)
Lemma run_body_total (rd : read_outcome) (w : world) :
  exists c w',
    run_body rd w = (Returned c, w') /\
    self w' = self w /\ wire w' = wire w /\ quiet w w' /\
    (read_faults rd = true -> c = Break).
Proof.
  destruct rd as [raw|e].
  - simpl read_faults. destruct (decode raw) as [text|] eqn:D.
    + destruct (truthy (strip text)) eqn:K.
      * destruct (sys_stdout (printed w) (lit "Recebido: " ++ strip text))
          as [|err] eqn:P.
        -- rewrite (run_body_line raw text w D (fun _ => P)), K.
           do 2 eexists. split; [reflexivity|].
           repeat split; try discriminate.
           apply quiet_emits with (w := prints _ w), classify_quiet.
        -- rewrite (run_body_unprinted raw text err w D K P).
           do 2 eexists. split; [reflexivity|].
           repeat split; try discriminate. now apply quiet_emits.
      * rewrite (run_body_line raw text w D), K.
        -- do 2 eexists. split; [reflexivity|].
           repeat split; try discriminate. apply quiet_refl.
        -- intro H. congruence.
    + rewrite (run_body_undecodable raw w D). do 2 eexists.
      split; [reflexivity|]. repeat split. now apply quiet_emits.
  - rewrite run_body_raises. do 2 eexists. split; [reflexivity|].
    destruct (catches [TypeError] e); repeat split;
      [apply quiet_refl | now apply quiet_emits].
Qed.

(** [disconnect] in closed form. *)
Lemma disconnect_eq (w : world) :
  disconnect w =
  (Returned tt,
   mk_world (mk_SerialCommunicator
               (option_map closed_handle (serial_port (self w)))
               (_port_name (self w)) (_baudrate (self w)) false)
            (emitted w) (printed w) (wire w)).
Proof.
  destruct w as [[sp name baud running] em pr wi].
  destruct sp as [[p b t []]|]; reflexivity.
Qed.

(** [send_command] in closed form, case by case. *)
Lemma send_command_not_open (wo : write_outcome) (command : pystr) (w : world) :
  port_is_open (self w) = false ->
  send_command wo command w = (Returned tt, w).
Proof.
  intro C. unfold send_command, bind, get_self. now rewrite C.
Qed.

Lemma send_command_written (command : pystr) (data : list byte) (w : world) :
  port_is_open (self w) = true ->
  encode (lit ":" ++ command ++ nl) = Some data ->
  sys_stdout (printed w) (lit "Enviado: " ++ strip (lit ":" ++ command ++ nl))
  = print_ok ->
  send_command write_ok command w =
  (Returned tt,
   mk_world (self w) (emitted w)
            (printed w ++ [lit "Enviado: " ++ strip (lit ":" ++ command ++ nl)])
            (wire w ++ data)).
Proof.
  intros O E P. unfold send_command, bind, get_self. rewrite O.
  unfold try_except, bind, str_encode. rewrite E.
  unfold ret, Serial_write, print. cbn [printed]. now rewrite P.
Qed.

(** The port has taken the frame when [print] raises: the exception, which
    is no [SerialException], leaves [send_command] with the bytes
    written. *)
Lemma send_command_unprinted (command : pystr) (data : list byte)
      (err : stdout_error) (w : world) :
  port_is_open (self w) = true ->
  encode (lit ":" ++ command ++ nl) = Some data ->
  sys_stdout (printed w) (lit "Enviado: " ++ strip (lit ":" ++ command ++ nl))
  = print_raises err ->
  send_command write_ok command w =
  (Raised (stdout_exn err),
   mk_world (self w) (emitted w) (printed w) (wire w ++ data)).
Proof.
  intros O E P. unfold send_command, bind, get_self. rewrite O.
  unfold try_except, bind, str_encode. rewrite E.
  unfold ret, Serial_write, print. cbn [printed]. rewrite P.
  cbn [handler_for]. now rewrite stdout_exn_not_SerialException.
Qed.

(** Whatever [print] does, an accepted write leaves the frame on the wire
    and nothing else changed but the lines printed. *)
Lemma send_command_wire (command : pystr) (data : list byte) (w : world) :
  port_is_open (self w) = true ->
  encode (lit ":" ++ command ++ nl) = Some data ->
  exists r pr,
    send_command write_ok command w
    = (r, mk_world (self w) (emitted w) pr (wire w ++ data)).
Proof.
  intros O E.
  destruct (sys_stdout (printed w)
              (lit "Enviado: " ++ strip (lit ":" ++ command ++ nl)))
    as [|err] eqn:P.
  - rewrite (send_command_written command data w O E P).
    do 2 eexists. reflexivity.
  - rewrite (send_command_unprinted command data err w O E P).
    do 2 eexists. reflexivity.
Qed.

Lemma send_command_write_raises (e : exn) (command : pystr) (data : list byte)
      (w : world) :
  port_is_open (self w) = true ->
  encode (lit ":" ++ command ++ nl) = Some data ->
  send_command (write_raises e) command w =
  if catches [SerialException] e
  then (Returned tt,
        emits [error_received (lit "Erro ao enviar comando: " ++ exc_str e)] w)
  else (Raised e, w).
Proof.
  intros O E. unfold send_command, bind, get_self. rewrite O.
  unfold try_except, bind, str_encode. rewrite E.
  unfold ret, Serial_write, raise. cbn [handler_for].
  destruct (catches [SerialException] e); reflexivity.
Qed.

Lemma send_command_unencodable (wo : write_outcome) (command : pystr) (w : world) :
  port_is_open (self w) = true ->
  encode (lit ":" ++ command ++ nl) = None ->
  send_command wo command w =
  (Raised (mk_exn UnicodeEncodeError
                  (encode_error_text (lit ":" ++ command ++ nl))), w).
Proof.
  intros O E. unfold send_command, bind, get_self. rewrite O.
  unfold try_except, bind, str_encode. rewrite E. reflexivity.
Qed.

(** [send_command] never touches the object and never emits [port_closed]. *)
Lemma send_command_frame (wo : write_outcome) (command : pystr) (w : world) :
  self (snd (send_command wo command w)) = self w /\
  quiet w (snd (send_command wo command w)).
Proof.
  destruct (port_is_open (self w)) eqn:O.
  - destruct (encode (lit ":" ++ command ++ nl)) as [data|] eqn:E.
    + destruct wo as [|e].
      * destruct (send_command_wire command data w O E) as [r [pr S]].
        rewrite S. split; [reflexivity | now apply quiet_same].
      * rewrite (send_command_write_raises e command data w O E).
        destruct (catches [SerialException] e);
          (split; [reflexivity|]); [now apply quiet_emits | apply quiet_refl].
    + rewrite (send_command_unencodable wo command w O E).
      split; [reflexivity | apply quiet_refl].
  - rewrite (send_command_not_open wo command w O).
    split; [reflexivity | apply quiet_refl].
Qed.

Lemma other_call_quiet (op : caller_op) (w : world) : quiet w (other_call op w).
Proof.
  destruct op as [|wo command]; simpl.
  - rewrite disconnect_eq. now apply quiet_same.
  - apply send_command_frame.
Qed.

Lemma other_thread_quiet (ops : list caller_op) (w : world) :
  quiet w (other_thread ops w).
Proof.
  revert w. induction ops as [|op ops IH]; intro w; simpl.
  - apply quiet_refl.
  - eapply quiet_trans; [apply other_call_quiet | apply IH].
Qed.

(** Nothing the other thread can call sets the running flag again. *)
Lemma other_call_stopped (op : caller_op) (w : world) :
  _is_running (self w) = false \/ is_disconnect op = true ->
  _is_running (self (other_call op w)) = false.
Proof.
  destruct op as [|wo command]; simpl.
  - intros _. now rewrite disconnect_eq.
  - intros [H|H]; [|discriminate H].
    now rewrite (proj1 (send_command_frame wo command w)).
Qed.

Lemma other_thread_stopped (ops : list caller_op) (w : world) :
  _is_running (self w) = false \/ existsb is_disconnect ops = true ->
  _is_running (self (other_thread ops w)) = false.
Proof.
  revert w. induction ops as [|op ops IH]; intros w H; simpl.
  - destruct H as [H|H]; [exact H | discriminate H].
  - apply IH. simpl in H. rewrite orb_true_iff in H.
    destruct H as [H|[H|H]]; auto; left; apply other_call_stopped; auto.
Qed.

(** ** The read loop *)

Lemma run_nil (w : world) :
  run [] w =
  if loop_test w then (Pending, w) else (Returned tt, emits [port_closed] w).
Proof. reflexivity. Qed.

Lemma run_exits (it : iteration) (env : list iteration) (w : world) :
  loop_test (other_thread (before_test it) w) = false ->
  run (it :: env) w =
  (Returned tt, emits [port_closed] (other_thread (before_test it) w)).
Proof. intro T. cbn [run]. now rewrite T. Qed.

Lemma run_next (it : iteration) (env : list iteration) (w w2 : world) :
  loop_test (other_thread (before_test it) w) = true ->
  run_body (read it)
           (other_thread (during_read it) (other_thread (before_test it) w))
  = (Returned Next, w2) ->
  run (it :: env) w = run env w2.
Proof. intros T B. cbn [run]. now rewrite T, B. Qed.

Lemma run_break (it : iteration) (env : list iteration) (w w2 : world) :
  loop_test (other_thread (before_test it) w) = true ->
  run_body (read it)
           (other_thread (during_read it) (other_thread (before_test it) w))
  = (Returned Break, w2) ->
  run (it :: env) w = (Returned tt, emits [port_closed] w2).
Proof. intros T B. cbn [run]. now rewrite T, B. Qed.

(** [run] never raises. When it returns it has emitted [port_closed] once,
    last; as long as it loops it has emitted none. *)
Lemma run_safe (env : list iteration) (w : world) (r : outcome unit) (w' : world) :
  run env w = (r, w') ->
  (r = Returned tt /\
   exists l, emitted w' = emitted w ++ l ++ [port_closed] /\
             count_port_closed l = 0)
  \/ (r = Pending /\ quiet w w').
Proof.
  revert w. induction env as [|it env IH]; intros w R.
  - rewrite run_nil in R. destruct (loop_test w); inversion R; subst.
    + right. split; [reflexivity | apply quiet_refl].
    + left. split; [reflexivity|]. now exists [].
  - pose proof (other_thread_quiet (before_test it) w) as Q1.
    destruct (loop_test (other_thread (before_test it) w)) eqn:T.
    + pose proof (other_thread_quiet (during_read it)
                    (other_thread (before_test it) w)) as Q2.
      destruct (run_body_total (read it)
                  (other_thread (during_read it)
                     (other_thread (before_test it) w)))
        as [c [w2 [B [_ [_ [Q3 _]]]]]].
      pose proof (quiet_trans _ _ _ Q1 (quiet_trans _ _ _ Q2 Q3)) as Q.
      destruct c.
      * rewrite (run_next it env w w2 T B) in R.
        destruct (IH _ R) as [[-> [l [E C]]]|[-> Q']].
        -- left. split; [reflexivity|].
           destruct Q as [l0 [E0 C0]]. exists (l0 ++ l). split.
           ++ now rewrite E, E0, <- !app_assoc.
           ++ rewrite count_port_closed_app. lia.
        -- right. split; [reflexivity | exact (quiet_trans _ _ _ Q Q')].
      * rewrite (run_break it env w w2 T B) in R. inversion R; subst.
        left. split; [reflexivity|].
        destruct Q as [l0 [E0 C0]]. exists l0. split; [|exact C0].
        simpl. now rewrite E0, <- app_assoc.
    + rewrite (run_exits it env w T) in R. inversion R; subst.
      left. split; [reflexivity|].
      destruct Q1 as [l0 [E0 C0]]. exists l0. split; [|exact C0].
      simpl. now rewrite E0, <- app_assoc.
Qed.

Lemma loop_test_stopped (w : world) :
  _is_running (self w) = false -> loop_test w = false.
Proof. intro H. unfold loop_test. now rewrite H. Qed.

(** [run] returns once the running flag is down, and in any script that
    holds a turn with a [disconnect] or a faulting read. *)
Lemma run_returns (env : list iteration) (w : world) :
  _is_running (self w) = false \/ existsb stops env = true ->
  fst (run env w) = Returned tt.
Proof.
  revert w. induction env as [|it env IH]; intros w H.
  - destruct H as [H|H]; [|discriminate H].
    rewrite run_nil, (loop_test_stopped w H). reflexivity.
  - destruct (loop_test (other_thread (before_test it) w)) eqn:T.
    + destruct (run_body_total (read it)
                  (other_thread (during_read it)
                     (other_thread (before_test it) w)))
        as [c [w2 [B [S [_ [_ F]]]]]].
      destruct c.
      * rewrite (run_next it env w w2 T B). apply IH.
        destruct H as [H|H].
        -- exfalso.
           rewrite (loop_test_stopped _
                      (other_thread_stopped (before_test it) w (or_introl H)))
             in T. discriminate T.
        -- simpl in H. rewrite orb_true_iff in H.
           destruct H as [H|H]; [|now right]. left. rewrite S.
           unfold stops in H. rewrite !orb_true_iff in H.
           destruct H as [[H|H]|H].
           ++ exfalso.
              rewrite (loop_test_stopped _
                         (other_thread_stopped (before_test it) w (or_intror H)))
                in T. discriminate T.
           ++ apply other_thread_stopped. now right.
           ++ apply F in H. discriminate H.
      * rewrite (run_break it env w w2 T B). reflexivity.
    + rewrite (run_exits it env w T). reflexivity.
Qed.

(** ** [connect] *)

Lemma connect_opens (env : list iteration) (w : world) :
  connect open_ok env w = run env (opened w).
Proof.
  unfold connect, bind, get_self, try_except, Serial_new, ret.
  change (set_serial_port _ w) with
    (Returned tt,
     mk_world (mk_SerialCommunicator
                 (Some (mk_Serial (_port_name (self w)) (_baudrate (self w))
                                  (Some 1%Z) true))
                 (_port_name (self w)) (_baudrate (self w))
                 (_is_running (self w)))
              (emitted w) (printed w) (wire w)).
  cbv beta iota.
  change (set_is_running true _) with (Returned tt, opened w).
  cbv beta iota.
  destruct (run env (opened w)) as [[[]|e|] w'] eqn:R; try reflexivity.
  destruct (run_safe env _ _ _ R) as [[H _]|[H _]]; discriminate H.
Qed.

Lemma connect_open_raises (e : exn) (env : list iteration) (w : world) :
  connect (open_raises e) env w =
  if catches [SerialException] e
  then (Returned tt,
        emits [error_received (lit "Falha ao abrir porta "
                               ++ _port_name (self w) ++ lit ": "
                               ++ exc_str e)] w)
  else (Raised e, w).
Proof.
  unfold connect, bind, get_self, try_except, Serial_new, raise.
  cbn [handler_for].
  destruct (catches [SerialException] e); reflexivity.
Qed.

(** ** [serial_ports] *)

Lemma probe_ports_result (h : host) (ports acc result : list pystr) :
  probe_ports h ports acc = Returned result ->
  result = acc ++ filter (probe_ok h) ports.
Proof.
  revert acc. induction ports as [|p ports IH]; intros acc R;
    cbn [probe_ports filter] in *.
  - inversion R. now rewrite app_nil_r.
  - unfold probe_ok at 1. destruct (probe h p) as [e|].
    + destruct (catches [OSError; SerialException] e); [auto | discriminate R].
    + rewrite (IH _ R). now rewrite <- app_assoc.
Qed.

Lemma probe_ports_returns (h : host) (ports acc : list pystr) :
  (forall p e, In p ports -> probe h p = Some e ->
               catches [OSError; SerialException] e = true) ->
  probe_ports h ports acc = Returned (acc ++ filter (probe_ok h) ports).
Proof.
  revert acc. induction ports as [|p ports IH]; intros acc H;
    cbn [probe_ports filter].
  - now rewrite app_nil_r.
  - unfold probe_ok at 1. destruct (probe h p) as [e|] eqn:P.
    + rewrite (H p e (or_introl eq_refl) P). apply IH.
      intros q e' I. apply H. now right.
    + rewrite IH; [now rewrite <- app_assoc|].
      intros q e' I. apply H. now right.
Qed.

(** ** The properties of the specification *)

(** C1, amended. When the loop reads a line whose bytes decode as UTF-8,
    whose text, once leading and trailing whitespace is stripped, starts
    with [:ACK], and which standard output takes when the loop prints it,
    that turn of the loop emits exactly one signal, [response_received],
    carrying the stripped text, and the loop goes on; when the stripped
    text starts with [:NACK] the turn emits exactly one signal,
    [error_received], carrying the stripped text. The stripped text is
    the line itself when the line neither begins nor ends with whitespace
    and only whitespace (its terminator) follows it. *)
Theorem ack_nack_line_emits_once
        (before during : list caller_op) (raw : list byte) (text : pystr)
        (rest : list iteration) (w : world) :
  loop_test (other_thread before w) = true ->
  decode raw = Some text ->
  let line := strip text in
  let w2 := other_thread during (other_thread before w) in
  (startswith line (lit ":ACK") = true ->
   sys_stdout (printed w2) (lit "Recebido: " ++ line) = print_ok ->
   run (mk_iteration before during (read_returns raw) :: rest) w =
   run rest (emits [response_received line]
                   (prints [lit "Recebido: " ++ line] w2)))
  /\
  (startswith line (lit ":NACK") = true ->
   sys_stdout (printed w2) (lit "Recebido: " ++ line) = print_ok ->
   run (mk_iteration before during (read_returns raw) :: rest) w =
   run rest (emits [error_received line]
                   (prints [lit "Recebido: " ++ line] w2)))
  /\
  (forall l ws, bare l = true -> forallb isspace ws = true ->
                text = l ++ ws -> line = l).
Proof.
  intros T D line w2.
  split; [|split].
  - intros P Q. apply run_next; [exact T|]. cbn [before_test during_read read].
    fold w2. rewrite (run_body_line raw text w2 D (fun _ => Q)). fold line.
    rewrite (startswith_nonempty _ _ P eq_refl).
    unfold classify. now rewrite P.
  - intros P Q. apply run_next; [exact T|]. cbn [before_test during_read read].
    fold w2. rewrite (run_body_line raw text w2 D (fun _ => Q)). fold line.
    rewrite (startswith_nonempty _ _ P eq_refl).
    unfold classify. now rewrite (nack_not_ack _ P), P.
  - intros l ws Bl W E. unfold line. rewrite E.
    now apply strip_bare_padded.
Qed.

(** C2. In a session whose port is open, sending a command [c] whose
    framed form [":" + c + newline] has the UTF-8 encoding [data] hands
    exactly [data] to the port: when the port takes the write, the wire
    grows by [data] and by nothing else, no signal is emitted, and [data]
    decodes back to the framed command. This is so whatever the [print]
    that follows the write does; when standard output takes its line,
    the call returns normally. *)
Theorem send_command_writes_frame
        (command : pystr) (data : list byte) (w : world) :
  port_is_open (self w) = true ->
  encode (lit ":" ++ command ++ nl) = Some data ->
  decode data = Some (lit ":" ++ command ++ nl) /\
  exists r w',
    send_command write_ok command w = (r, w') /\
    wire w' = wire w ++ data /\
    emitted w' = emitted w /\
    self w' = self w /\
    (sys_stdout (printed w)
                (lit "Enviado: " ++ strip (lit ":" ++ command ++ nl))
     = print_ok ->
     r = Returned tt).
Proof.
  intros O E. split; [exact (decode_encode _ _ E)|].
  destruct (sys_stdout (printed w)
              (lit "Enviado: " ++ strip (lit ":" ++ command ++ nl)))
    as [|err] eqn:P.
  - do 2 eexists.
    split; [apply (send_command_written command data w O E P)|].
    repeat split.
  - do 2 eexists.
    split; [apply (send_command_unprinted command data err w O E P)|].
    repeat split. intro H. discriminate H.
Qed.

(** C3, amended. A session whose port opens runs the read loop, which
    never raises. When the loop ends, exactly one [port_closed] has been
    emitted since [connect] was called and it is the last signal of the
    loop; as long as the loop runs, none has been emitted. The loop does
    end in every script in which the other thread calls [disconnect] or a
    read faults. *)
Theorem port_closed_once_per_opened_session (env : list iteration) (w : world) :
  (forall r w', connect open_ok env w = (r, w') ->
     (r = Returned tt /\
      exists l, emitted w' = emitted w ++ l ++ [port_closed] /\
                count_port_closed l = 0)
     \/ (r = Pending /\
         exists l, emitted w' = emitted w ++ l /\ count_port_closed l = 0))
  /\ (existsb stops env = true -> fst (connect open_ok env w) = Returned tt).
Proof.
  split.
  - intros r w' C. rewrite connect_opens in C. exact (run_safe env _ _ _ C).
  - intro S. rewrite connect_opens. apply run_returns. now right.
Qed.


(** C5, amended. What the session catches goes by exception class. A
    [SerialException] raised while [connect] opens the port or while
    [send_command] writes is caught and turned into one [error_received];
    the read loop lets no exception out at all. An exception of any other
    class raised by the open or by the write is not caught and reaches the
    caller, and so does the UnicodeEncodeError of a command that has no
    UTF-8 encoding. *)
Theorem faults_caught_by_class (w : world) :
  (forall e env, exc_type e = SerialException ->
     connect (open_raises e) env w =
     (Returned tt,
      emits [error_received (lit "Falha ao abrir porta "
                             ++ _port_name (self w) ++ lit ": "
                             ++ exc_str e)] w))
  /\ (forall e env, exc_type e <> SerialException ->
        connect (open_raises e) env w = (Raised e, w))
  /\ (forall env r w', connect open_ok env w = (r, w') ->
        r = Returned tt \/ r = Pending)
  /\ (forall e command data,
        port_is_open (self w) = true ->
        encode (lit ":" ++ command ++ nl) = Some data ->
        exc_type e = SerialException ->
        send_command (write_raises e) command w =
        (Returned tt,
         emits [error_received (lit "Erro ao enviar comando: "
                                ++ exc_str e)] w))
  /\ (forall e command data,
        port_is_open (self w) = true ->
        encode (lit ":" ++ command ++ nl) = Some data ->
        exc_type e <> SerialException ->
        send_command (write_raises e) command w = (Raised e, w))
  /\ (forall wo command,
        port_is_open (self w) = true ->
        encode (lit ":" ++ command ++ nl) = None ->
        send_command wo command w =
        (Raised (mk_exn UnicodeEncodeError
                        (encode_error_text (lit ":" ++ command ++ nl))), w))
  /\ (forall env r w', run env w = (r, w') ->
        r = Returned tt \/ r = Pending).
Proof.
  repeat split.
  - intros e env C. rewrite connect_open_raises.
    now rewrite (proj2 (catches_SerialException e) C).
  - intros e env C. rewrite connect_open_raises.
    destruct (catches [SerialException] e) eqn:K; [|reflexivity].
    apply catches_SerialException in K. contradiction.
  - intros env r w' C. rewrite connect_opens in C.
    destruct (run_safe env _ _ _ C) as [[H _]|[H _]]; auto.
  - intros e command data O E C.
    rewrite (send_command_write_raises e command data w O E).
    now rewrite (proj2 (catches_SerialException e) C).
  - intros e command data O E C.
    rewrite (send_command_write_raises e command data w O E).
    destruct (catches [SerialException] e) eqn:K; [|reflexivity].
    apply catches_SerialException in K. contradiction.
  - intros wo command O E. exact (send_command_unencodable wo command w O E).
  - intros env r w' R. destruct (run_safe env _ _ _ R) as [[H _]|[H _]]; auto.
Qed.

(** C6, amended. When the loop reads a line whose bytes decode as UTF-8
    and whose text, once leading and trailing whitespace is stripped,
    starts with neither [:ACK] nor [:NACK] (an empty or blank line
    included), and standard output takes the line if the loop prints it
    (it prints the stripped text unless that is empty), that turn of the
    loop emits no signal: the line is at most printed, and the loop goes
    on. *)
Theorem other_line_emits_nothing
        (before during : list caller_op) (raw : list byte) (text : pystr)
        (rest : list iteration) (w : world) :
  loop_test (other_thread before w) = true ->
  decode raw = Some text ->
  startswith (strip text) (lit ":ACK") = false ->
  startswith (strip text) (lit ":NACK") = false ->
  let w2 := other_thread during (other_thread before w) in
  (truthy (strip text) = true ->
   sys_stdout (printed w2) (lit "Recebido: " ++ strip text) = print_ok) ->
  run (mk_iteration before during (read_returns raw) :: rest) w =
  run rest (if truthy (strip text)
            then prints [lit "Recebido: " ++ strip text] w2
            else w2).
Proof.
  intros T D A K w2 P. apply run_next; [exact T|].
  cbn [before_test during_read read]. fold w2.
  rewrite (run_body_line raw text w2 D P). unfold classify. rewrite A, K.
  now rewrite emits_nil.
Qed.

(** C7. [disconnect] always returns; it leaves the running flag false and
    the port handle, if there is one, closed; it emits nothing, prints
    nothing and writes nothing; and calling it again any number of times
    leaves the world exactly as the first call left it. *)
Theorem disconnect_idempotent (w : world) (n : nat) :
  let w1 := snd (disconnect w) in
  fst (disconnect w) = Returned tt
  /\ _is_running (self w1) = false
  /\ serial_port (self w1) = option_map closed_handle (serial_port (self w))
  /\ port_is_open (self w1) = false
  /\ emitted w1 = emitted w /\ printed w1 = printed w /\ wire w1 = wire w
  /\ Nat.iter (S n) (fun x => snd (disconnect x)) w = w1.
Proof.
  cbv zeta. rewrite disconnect_eq. cbn [fst snd self emitted printed wire
    _is_running serial_port].
  repeat split.
  - unfold port_is_open. cbn [serial_port self].
    now destruct (serial_port (self w)).
  - induction n as [|n IH].
    + cbn [Nat.iter nat_rect]. now rewrite disconnect_eq.
    + change (Nat.iter (S (S n)) (fun x => snd (disconnect x)) w)
        with (snd (disconnect (Nat.iter (S n) (fun x => snd (disconnect x)) w))).
      rewrite IH, disconnect_eq. cbn [fst snd self emitted printed wire
        _is_running serial_port _port_name _baudrate].
      now destruct (serial_port (self w)) as [[p b t o]|].
Qed.

(** C8. On a platform it recognises, whatever [serial_ports] returns is
    the list of candidates whose probe opened, in candidate order, so no
    candidate whose probe failed is in it; it does return that list when
    every failed probe raised an [OSError] (a [SerialException] is one);
    and on a platform whose name starts with none of win, linux, cygwin,
    darwin it raises EnvironmentError('Unsupported platform'). *)
Theorem serial_ports_only_opened (h : host) :
  (forall ports result,
     candidate_ports h = Returned ports ->
     serial_ports h = Returned result ->
     result = filter (probe_ok h) ports /\
     forall p, In p result -> In p ports /\ probe h p = None)
  /\ (forall ports,
        candidate_ports h = Returned ports ->
        (forall p e, In p ports -> probe h p = Some e ->
                     issubclass (exc_type e) OSError = true) ->
        serial_ports h = Returned (filter (probe_ok h) ports))
  /\ (startswith (sys_platform h) (lit "win") = false ->
      startswith (sys_platform h) (lit "linux") = false ->
      startswith (sys_platform h) (lit "cygwin") = false ->
      startswith (sys_platform h) (lit "darwin") = false ->
      serial_ports h = Raised (mk_exn OSError (lit "Unsupported platform"))).
Proof.
  split; [|split].
  - intros ports result C R. unfold serial_ports in R. rewrite C in R.
    apply probe_ports_result in R. cbn [app] in R. subst result.
    split; [reflexivity|].
    intros p I. apply filter_In in I. destruct I as [I P].
    split; [exact I|]. unfold probe_ok in P.
    destruct (probe h p); [discriminate P | reflexivity].
  - intros ports C P. unfold serial_ports. rewrite C.
    apply (probe_ports_returns h ports []).
    intros p e I E. unfold catches. cbn [existsb].
    now rewrite (P p e I E).
  - intros W L C D. unfold serial_ports, candidate_ports.
    now rewrite W, L, C, D.
Qed.

(** C9. When the session has no port handle, or has one that is not open,
    [send_command] returns normally and changes nothing: no byte written,
    no signal emitted, nothing printed, the object untouched. *)
Theorem send_command_not_open_is_noop
        (wo : write_outcome) (command : pystr) (w : world) :
  serial_port (self w) = None
  \/ (exists p, serial_port (self w) = Some p /\ is_open p = false) ->
  send_command wo command w = (Returned tt, w).
Proof.
  intro H. apply send_command_not_open. unfold port_is_open.
  destruct H as [H|[p [H C]]]; now rewrite H.
Qed.

(** C10. A failed open, a failed write, a failed read and a [:NACK] line
    each reach the listener as one emission of the same signal,
    [error_received], whose only argument is a string; the channel an
    emission arrives on is therefore the same for all four. *)
Theorem failures_share_error_channel (w : world) :
  (forall e env, exc_type e = SerialException ->
     exists s : pystr,
       connect (open_raises e) env w = (Returned tt, emits [error_received s] w))
  /\ (forall e command data,
        port_is_open (self w) = true ->
        encode (lit ":" ++ command ++ nl) = Some data ->
        exc_type e = SerialException ->
        exists s : pystr,
          send_command (write_raises e) command w =
          (Returned tt, emits [error_received s] w))
  /\ (forall e, exc_type e <> TypeError ->
        exists s : pystr,
          run_body (read_raises e) w =
          (Returned Break, emits [error_received s] w))
  /\ (forall raw text,
        decode raw = Some text ->
        startswith (strip text) (lit ":NACK") = true ->
        exists s : pystr,
          emitted (snd (run_body (read_returns raw) w)) =
          emitted w ++ [error_received s])
  /\ (forall s1 s2 : pystr,
        channel_of (error_received s1) = channel_of (error_received s2)).
Proof.
  repeat split.
  - intros e env C. rewrite connect_open_raises.
    rewrite (proj2 (catches_SerialException e) C). eexists. reflexivity.
  - intros e command data O E C.
    rewrite (send_command_write_raises e command data w O E).
    rewrite (proj2 (catches_SerialException e) C). eexists. reflexivity.
  - intros e C. rewrite run_body_raises.
    destruct (catches [TypeError] e) eqn:K.
    + apply catches_TypeError in K. contradiction.
    + eexists. reflexivity.
  - intros raw text D P.
    pose proof (startswith_nonempty _ _ P eq_refl) as K.
    destruct (sys_stdout (printed w) (lit "Recebido: " ++ strip text))
      as [|err] eqn:Q.
    + rewrite (run_body_line raw text w D (fun _ => Q)), K.
      unfold classify. rewrite (nack_not_ack _ P), P.
      eexists. reflexivity.
    + rewrite (run_body_unprinted raw text err w D K Q).
      eexists. reflexivity.
Qed.

(** ** Further properties of the code *)

(** *** What [encode] accepts, and what it writes *)

Lemma encode_char_none (c : N) :
  encode_char c = None <-> encodable c = false.
Proof using.
  clear decode_error_text encode_error_text sys_stdout.
  unfold encode_char, encodable.
  destruct (N.ltb_spec c 0x80); destruct (N.ltb_spec c 0x800);
    destruct (N.ltb_spec c 0x10000); destruct (N.ltb_spec c 0x110000);
    destruct (N.leb_spec 0xD800 c); destruct (N.leb_spec c 0xDFFF);
    destruct (N.ltb_spec c 0xD800); destruct (N.ltb_spec 0xDFFF c);
    cbn [andb orb]; try lia; split; intro K; try reflexivity;
    discriminate K.
Qed.

Lemma encode_none (s : pystr) :
  encode s = None <-> forallb encodable s = false.
Proof using.
  induction s as [|c s IH]; cbn [encode forallb].
  - split; intro H; discriminate H.
  - destruct (encode_char c) as [cs|] eqn:C.
    + assert (E : encodable c = true).
      { destruct (encodable c) eqn:E; [reflexivity|].
        apply encode_char_none in E. congruence. }
      rewrite E. cbn [andb]. rewrite <- IH.
      destruct (encode s); split; intro H; try reflexivity; discriminate H.
    + apply encode_char_none in C. rewrite C. cbn [andb].
      split; reflexivity.
Qed.

Lemma encode_app (a b : pystr) :
  encode (a ++ b)
  = match encode a, encode b with
    | Some x, Some y => Some (x ++ y)
    | _, _ => None
    end.
Proof using.
  induction a as [|c a IH]; cbn [app encode].
  - now destruct (encode b).
  - rewrite IH. destruct (encode_char c) as [cs|]; [|reflexivity].
    destruct (encode a) as [x|]; [|reflexivity].
    destruct (encode b) as [y|]; [|reflexivity].
    now rewrite app_assoc.
Qed.

(** The frame of a command encodes exactly when the command does. *)
Lemma frame_encodable (command : pystr) :
  forallb encodable (lit ":" ++ command ++ nl) = forallb encodable command.
Proof using.
  rewrite !forallb_app. change (forallb encodable (lit ":")) with true.
  change (forallb encodable nl) with true. now rewrite andb_true_r.
Qed.

(** X1. With the port open, [send_command] stops before the write
    exactly for the commands that hold a surrogate or a code point above
    U+10FFFF: it raises the UnicodeEncodeError of [encode], and nothing
    is written, emitted, printed or changed. For every other command the
    frame is handed to the port, and when the port takes it the rest goes
    by the [print] that follows: the call returns normally when standard
    output takes the line, and when it does not the exception of [print]
    reaches the caller with the frame already written. *)
Theorem send_command_writes_iff_encodable
        (wo : write_outcome) (command : pystr) (w : world) :
  port_is_open (self w) = true ->
  let sent := lit "Enviado: " ++ strip (lit ":" ++ command ++ nl) in
  (forallb encodable command = false ->
   send_command wo command w
   = (Raised (mk_exn UnicodeEncodeError
                     (encode_error_text (lit ":" ++ command ++ nl))), w))
  /\
  (forallb encodable command = true ->
   exists data,
     encode (lit ":" ++ command ++ nl) = Some data /\
     (sys_stdout (printed w) sent = print_ok ->
      send_command write_ok command w
      = (Returned tt,
         mk_world (self w) (emitted w) (printed w ++ [sent])
                  (wire w ++ data))) /\
     (forall err, sys_stdout (printed w) sent = print_raises err ->
      send_command write_ok command w
      = (Raised (stdout_exn err),
         mk_world (self w) (emitted w) (printed w) (wire w ++ data)))).
Proof.
  intros O sent. split; intro E.
  - apply send_command_unencodable; [exact O|].
    apply encode_none. now rewrite frame_encodable.
  - destruct (encode (lit ":" ++ command ++ nl)) as [data|] eqn:D.
    + exists data. split; [reflexivity|]. split.
      * intro P. exact (send_command_written command data w O D P).
      * intros err P. exact (send_command_unprinted command data err w O D P).
    + apply encode_none in D. rewrite frame_encodable in D. congruence.
Qed.

(** Every byte of a code point above U+007F has its top bit set. *)
Lemma encode_char_high (c : N) (bs : list byte) :
  (0x80 <= c)%N -> encode_char c = Some bs ->
  forall b, In b bs -> (0x80 <= Byte.to_N b)%N.
Proof using.
  clear decode_error_text encode_error_text sys_stdout.
  unfold encode_char. intros L1 E.
  destruct (N.ltb_spec c 0x80) as [L|_]; [lia|].
  destruct (N.ltb_spec c 0x800) as [L2|L2].
  { apply some_eq in E; subst bs. rewrite shiftr_6, land_63.
    destruct (lead2_bits (c / 64)) as [A0 _]; [dlia|].
    destruct (cont_bits (c mod 64)) as [A1 _]; [dlia|].
    rewrite A0, A1. intros b [<-|[<-|[]]]; rewrite to_N_byte_of; dlia. }
  destruct (N.ltb_spec c 0x10000) as [L3|L3].
  { destruct ((0xD800 <=? c) && (c <=? 0xDFFF))%N; [discriminate E|].
    apply some_eq in E; subst bs. rewrite shiftr_6, shiftr_12, !land_63.
    destruct (lead3_bits (c / 4096)) as [A0 _]; [dlia|].
    destruct (cont_bits ((c / 64) mod 64)) as [A1 _]; [dlia|].
    destruct (cont_bits (c mod 64)) as [A2 _]; [dlia|].
    rewrite A0, A1, A2.
    intros b [<-|[<-|[<-|[]]]]; rewrite to_N_byte_of; dlia. }
  destruct (N.ltb_spec c 0x110000) as [L4|L4]; [|discriminate E].
  apply some_eq in E; subst bs.
  rewrite shiftr_6, shiftr_12, shiftr_18, !land_63.
  destruct (lead4_bits (c / 262144)) as [A0 _]; [dlia|].
  destruct (cont_bits ((c / 4096) mod 64)) as [A1 _]; [dlia|].
  destruct (cont_bits ((c / 64) mod 64)) as [A2 _]; [dlia|].
  destruct (cont_bits (c mod 64)) as [A3 _]; [dlia|].
  rewrite A0, A1, A2, A3.
  intros b [<-|[<-|[<-|[<-|[]]]]]; rewrite to_N_byte_of; dlia.
Qed.

(** A newline byte in an encoding is the encoding of a newline. *)
Lemma encode_char_newline (c : N) (bs : list byte) :
  encode_char c = Some bs -> (In x0a bs <-> c = 10%N).
Proof using.
  clear decode_error_text encode_error_text sys_stdout.
  intro E. destruct (N.ltb_spec c 0x80) as [L|L].
  - assert (B : bs = [byte_of c]).
    { unfold encode_char in E. destruct (N.ltb_spec c 0x80); [|lia].
      now apply some_eq in E. }
    subst bs. split.
    + intros [H|[]]. apply (f_equal Byte.to_N) in H.
      rewrite to_N_byte_of in H by lia. now rewrite H.
    + intros ->. now left.
  - split.
    + intro I. pose proof (encode_char_high c bs L E x0a I) as H.
      cbn in H. lia.
    + intros ->. lia.
Qed.

Lemma encode_newline (s : pystr) (bs : list byte) :
  encode s = Some bs -> (In x0a bs <-> In 10%N s).
Proof using.
  revert bs. induction s as [|c s IH]; intros bs E; cbn [encode] in E.
  - apply some_eq in E. subst bs. reflexivity.
  - destruct (encode_char c) as [cs|] eqn:C; [|discriminate E].
    destruct (encode s) as [bs'|]; [|discriminate E].
    apply some_eq in E. subst bs. rewrite in_app_iff.
    rewrite (encode_char_newline c cs C), (IH bs' eq_refl).
    cbn [In]. split; intros [H|H]; auto.
Qed.

Lemma frame_bytes (command : pystr) (data : list byte) :
  ~ In 10%N command ->
  encode (lit ":" ++ command ++ nl) = Some data ->
  exists body,
    encode command = Some body /\
    data = x3a :: body ++ [x0a] /\
    ~ In x0a body.
Proof using.
  intros N E. rewrite !encode_app in E.
  change (encode (lit ":")) with (Some [x3a]) in E.
  change (encode nl) with (Some [x0a]) in E.
  destruct (encode command) as [body|] eqn:C; [|discriminate E].
  apply some_eq in E. exists body. split; [reflexivity|].
  split; [now subst data|].
  intro I. apply N. now apply (encode_newline command body C).
Qed.

(** X2. What [send_command] puts on the wire is one line: when the
    command holds no newline, the bytes written are a colon, the encoding
    of the command, which holds no newline byte, and one final newline
    byte. *)
Theorem frame_is_one_line (command : pystr) (w w' : world) :
  port_is_open (self w) = true ->
  ~ In 10%N command ->
  send_command write_ok command w = (Returned tt, w') ->
  exists body,
    encode command = Some body /\
    wire w' = wire w ++ x3a :: body ++ [x0a] /\
    ~ In x0a body.
Proof.
  intros O N S.
  destruct (encode (lit ":" ++ command ++ nl)) as [data|] eqn:E.
  - destruct (send_command_wire command data w O E) as [r [pr W]].
    rewrite W in S.
    destruct (frame_bytes command data N E) as [body [C [D I]]].
    exists body. split; [exact C|]. split; [|exact I].
    inversion S. cbn [wire]. now rewrite D.
  - rewrite (send_command_unencodable write_ok command w O E) in S.
    discriminate S.
Qed.

(** *** [send_command] and the session object *)

(** X3. Whatever the write does, [send_command] leaves the session object
    as it was: the port handle, the running flag and so the loop test are
    unchanged, and no [port_closed] is emitted. A failed send therefore
    does not end the session: the next command is written as usual. *)
Theorem send_command_keeps_session
        (wo : write_outcome) (c1 c2 : pystr) (data : list byte) (w : world) :
  self (snd (send_command wo c1 w)) = self w
  /\ loop_test (snd (send_command wo c1 w)) = loop_test w
  /\ count_port_closed (emitted (snd (send_command wo c1 w)))
     = count_port_closed (emitted w)
  /\ (port_is_open (self w) = true ->
      encode (lit ":" ++ c2 ++ nl) = Some data ->
      wire (snd (send_command write_ok c2 (snd (send_command wo c1 w))))
      = wire (snd (send_command wo c1 w)) ++ data).
Proof.
  destruct (send_command_frame wo c1 w) as [S [l [E C]]].
  split; [exact S|]. split; [unfold loop_test; now rewrite S|].
  split; [rewrite E, count_port_closed_app; lia|].
  intros O D.
  destruct (send_command_wire c2 data (snd (send_command wo c1 w)))
    as [r [pr W]]; [now rewrite S | exact D |].
  now rewrite W.
Qed.

(** *** The read loop as a whole *)



(** X19. A line standard output does not take ends the loop. [print] is
    inside the [try] of the loop and comes before the emission: when it
    raises for a line that decodes and is not empty, the turn emits no
    [response_received] and no [error_received] carrying the line, even
    for a well-formed [:ACK] or [:NACK] line, but one [error_received]
    with "Erro de leitura: " and the text of the exception of [print],
    and the loop ends with [port_closed], the port handle left open. *)
Theorem unprintable_line_ends_loop
        (before during : list caller_op) (raw : list byte) (text : pystr)
        (err : stdout_error) (rest : list iteration) (w : world) :
  loop_test (other_thread before w) = true ->
  decode raw = Some text ->
  truthy (strip text) = true ->
  let w2 := other_thread during (other_thread before w) in
  sys_stdout (printed w2) (lit "Recebido: " ++ strip text)
  = print_raises err ->
  run (mk_iteration before during (read_returns raw) :: rest) w
  = (Returned tt,
     emits [error_received (lit "Erro de leitura: "
                            ++ exc_str (stdout_exn err));
            port_closed] w2).
Proof.
  intros T D K w2 P.
  rewrite (run_break (mk_iteration before during (read_returns raw)) rest w
             (emits [error_received
                       (lit "Erro de leitura: "
                        ++ exc_str (stdout_exn err))] w2) T).
  - now rewrite emits_emits.
  - cbn [before_test during_read read]. fold w2.
    exact (run_body_unprinted raw text err w2 D K P).
Qed.

Lemma other_call_closed (op : caller_op) (w : world) :
  port_is_open (self w) = false \/ is_disconnect op = true ->
  port_is_open (self (other_call op w)) = false.
Proof.
  destruct op as [|wo command]; simpl.
  - intros _. rewrite disconnect_eq. unfold port_is_open. cbn [self serial_port].
    now destruct (serial_port (self w)).
  - intros [H|H]; [|discriminate H].
    now rewrite (proj1 (send_command_frame wo command w)).
Qed.

Lemma other_thread_closed (ops : list caller_op) (w : world) :
  port_is_open (self w) = false \/ existsb is_disconnect ops = true ->
  port_is_open (self (other_thread ops w)) = false.
Proof.
  revert w. induction ops as [|op ops IH]; intros w H; simpl.
  - destruct H as [H|H]; [exact H | discriminate H].
  - apply IH. simpl in H. rewrite orb_true_iff in H.
    destruct H as [H|[H|H]]; auto; left; apply other_call_closed; auto.
Qed.

(** X5. Once the other thread has called [disconnect], the loop does not
    read again. With the flag down when a turn begins, or with a
    [disconnect] landing before the test of the turn, the loop ends at
    that test, whatever [readline] would have returned and whatever else
    was to come. With a [disconnect] landing while the read of a turn is
    blocked, that read is the last: the turn runs to its end with the
    flag down and the port closed, and the loop ends there if the turn
    breaks and at the very next test if it does not. In every case the
    loop returns having emitted [port_closed] last. *)
Theorem disconnect_stops_reading
        (it : iteration) (rest : list iteration) (w : world) :
  let w1 := other_thread (before_test it) w in
  (_is_running (self w) = false ->
   run [] w = (Returned tt, emits [port_closed] w)
   /\ run (it :: rest) w = (Returned tt, emits [port_closed] w1))
  /\
  (existsb is_disconnect (before_test it) = true ->
   run (it :: rest) w = (Returned tt, emits [port_closed] w1)
   /\ _is_running (self w1) = false
   /\ port_is_open (self w1) = false)
  /\
  (loop_test w1 = true ->
   existsb is_disconnect (during_read it) = true ->
   exists c w2,
     run_body (read it) (other_thread (during_read it) w1) = (Returned c, w2)
     /\ _is_running (self w2) = false
     /\ port_is_open (self w2) = false
     /\ run (it :: rest) w
        = (Returned tt,
           emits [port_closed]
                 (match c, rest with
                  | Next, nx :: _ => other_thread (before_test nx) w2
                  | _, _ => w2
                  end))).
Proof.
  intro w1. split; [|split].
  - intro F. split.
    + now rewrite run_nil, (loop_test_stopped w F).
    + apply (run_exits it rest w). apply loop_test_stopped.
      apply other_thread_stopped. now left.
  - intro D.
    pose proof (other_thread_stopped (before_test it) w (or_intror D)) as S.
    split; [|split; [exact S | now apply other_thread_closed; right]].
    apply (run_exits it rest w). now apply loop_test_stopped.
  - intros T D.
    destruct (run_body_total (read it) (other_thread (during_read it) w1))
      as [c [w2 [B [S _]]]].
    pose proof (other_thread_stopped (during_read it) w1 (or_intror D)) as F.
    pose proof (other_thread_closed (during_read it) w1 (or_intror D)) as C.
    rewrite <- S in F, C.
    exists c, w2. split; [exact B|]. split; [exact F|]. split; [exact C|].
    destruct c.
    + rewrite (run_next it rest w w2 T B). destruct rest as [|nx rest'].
      * now rewrite run_nil, (loop_test_stopped w2 F).
      * apply (run_exits nx rest' w2). apply loop_test_stopped.
        apply other_thread_stopped. now left.
    + exact (run_break it rest w w2 T B).
Qed.

Lemma other_thread_no_disconnect (ops : list caller_op) (w : world) :
  existsb is_disconnect ops = false -> self (other_thread ops w) = self w.
Proof.
  revert w. induction ops as [|op ops IH]; intros w H; simpl; [reflexivity|].
  simpl in H. apply orb_false_iff in H. destruct H as [H1 H2].
  rewrite (IH _ H2). destruct op as [|wo command]; [discriminate H1|].
  simpl. apply send_command_frame.
Qed.

(** Only [disconnect] changes the session object while the loop runs. *)
Lemma run_self (env : list iteration) (w : world) (r : outcome unit) (w' : world) :
  forallb no_disconnect env = true -> run env w = (r, w') -> self w' = self w.
Proof.
  revert w. induction env as [|it env IH]; intros w N R.
  - rewrite run_nil in R. destruct (loop_test w); now inversion R.
  - cbn [forallb] in N. apply andb_true_iff in N. destruct N as [N1 N].
    unfold no_disconnect in N1. apply andb_true_iff in N1.
    destruct N1 as [B D]. apply negb_true_iff in B, D.
    pose proof (other_thread_no_disconnect (before_test it) w B) as S1.
    destruct (loop_test (other_thread (before_test it) w)) eqn:T.
    + pose proof (other_thread_no_disconnect (during_read it)
                    (other_thread (before_test it) w) D) as S2.
      destruct (run_body_total (read it)
                  (other_thread (during_read it)
                     (other_thread (before_test it) w)))
        as [c [w2 [Bd [S3 _]]]].
      destruct c.
      * rewrite (run_next it env w w2 T Bd) in R.
        rewrite (IH w2 N R). congruence.
      * rewrite (run_break it env w w2 T Bd) in R. inversion R.
        unfold emits. cbn [self]. congruence.
    + rewrite (run_exits it env w T) in R. inversion R.
      unfold emits. cbn [self]. exact S1.
Qed.

(** X6. A read fault ends the loop without closing anything. When no
    [disconnect] is called and some read faults, [run] returns having
    emitted [port_closed] last, yet the session object is as it was: the
    port handle is still open and the running flag still set. *)
Theorem read_fault_leaves_port_open (env : list iteration) (w : world) :
  loop_test w = true ->
  forallb no_disconnect env = true ->
  existsb (fun it => read_faults (read it)) env = true ->
  exists w' l,
    run env w = (Returned tt, w') /\
    emitted w' = emitted w ++ l ++ [port_closed] /\
    self w' = self w /\
    port_is_open (self w') = true /\ _is_running (self w') = true.
Proof.
  intros T N F.
  assert (S : existsb stops env = true).
  { apply existsb_exists in F. destruct F as [it [I F]].
    apply existsb_exists. exists it. split; [exact I|].
    unfold stops. now rewrite F, orb_true_r. }
  pose proof (run_returns env w (or_intror S)) as R.
  destruct (run env w) as [r w'] eqn:E. cbn [fst] in R. subst r.
  destruct (run_safe env w _ _ E) as [[_ [l [El _]]]|[H _]]; [|discriminate H].
  pose proof (run_self env w _ _ N E) as Sf.
  exists w', l. split; [reflexivity|]. split; [exact El|].
  split; [exact Sf|]. rewrite Sf. unfold loop_test in T.
  apply andb_true_iff in T. destruct T as [T1 T2]. now split.
Qed.

(** *** [serial_ports] *)

Lemma candidate_ports_win (h : host) :
  startswith (sys_platform h) (lit "win") = true ->
  candidate_ports h
  = Returned (map (fun i => lit "COM" ++ str_of_nat (i + 1)) (seq 0 256)).
Proof using. intro W. unfold candidate_ports. rewrite W. reflexivity. Qed.

(** X7. On Windows only COM1 to COM256 are ever listed: every name
    [serial_ports] returns is "COM" followed by a number from 1 to 256
    whose probe opened, and there are at most 256 of them. *)
Theorem windows_ports_are_COM1_to_COM256 (h : host) (result : list pystr) :
  startswith (sys_platform h) (lit "win") = true ->
  serial_ports h = Returned result ->
  (forall p, In p result ->
     exists n, 1 <= n <= 256 /\ p = lit "COM" ++ str_of_nat n
               /\ probe h p = None)
  /\ List.length result <= 256.
Proof.
  intros W R. unfold serial_ports in R. rewrite (candidate_ports_win h W) in R.
  apply probe_ports_result in R. rewrite app_nil_l in R. subst result. split.
  - intros p I. apply filter_In in I. destruct I as [I P].
    apply in_map_iff in I. destruct I as [i [E I]]. apply in_seq in I.
    exists (i + 1). split; [lia|]. split; [symmetry; exact E|].
    unfold probe_ok in P. destruct (probe h p); [discriminate P | reflexivity].
  - eapply Nat.le_trans; [apply filter_length_le|].
    rewrite length_map, length_seq. apply le_n.
Qed.

Lemma probe_ports_app (h : host) (before rest acc : list pystr) :
  (forall q e, In q before -> probe h q = Some e ->
               issubclass (exc_type e) OSError = true) ->
  probe_ports h (before ++ rest) acc
  = probe_ports h rest (acc ++ filter (probe_ok h) before).
Proof.
  revert acc. induction before as [|q before IH]; intros acc H.
  - cbn [app filter]. now rewrite app_nil_r.
  - assert (H' : forall q' e, In q' before -> probe h q' = Some e ->
                              issubclass (exc_type e) OSError = true)
      by (intros q' e' I; apply H; now right).
    change ((q :: before) ++ rest) with (q :: (before ++ rest)).
    cbn [probe_ports filter]. unfold probe_ok at 1.
    destruct (probe h q) as [e|] eqn:P.
    + unfold catches. cbn [existsb].
      rewrite (H q e (or_introl eq_refl) P). cbn [orb].
      now apply IH.
    + rewrite (IH _ H'). now rewrite <- app_assoc.
Qed.

Lemma not_OSError_not_caught (e : exn) :
  issubclass (exc_type e) OSError = false ->
  catches [OSError; SerialException] e = false.
Proof using. destruct e as [c s]; destruct c; simpl; auto. Qed.

(** X8. The probe loop gives up on the first exception that is not an
    [OSError]: when a candidate's probe raises one, [serial_ports] raises
    it too, whatever the candidates before it gave and without getting to
    those after it. *)
Theorem probe_other_exception_aborts
        (h : host) (before after : list pystr) (p : pystr) (e : exn) :
  candidate_ports h = Returned (before ++ p :: after) ->
  (forall q e', In q before -> probe h q = Some e' ->
                issubclass (exc_type e') OSError = true) ->
  probe h p = Some e ->
  issubclass (exc_type e) OSError = false ->
  serial_ports h = Raised e.
Proof.
  intros C B P N. unfold serial_ports. rewrite C.
  rewrite (probe_ports_app h before (p :: after) [] B).
  cbn [probe_ports]. rewrite P. now rewrite (not_OSError_not_caught e N).
Qed.

(** *** [str.replace] and the status line of a panel *)

Lemma startswith_app (p s : pystr) : startswith (p ++ s) p = true.
Proof using.
  induction p as [|c p IH]; [now destruct s|].
  cbn [app startswith]. now rewrite N.eqb_refl.
Qed.

Lemma replace_from_skip (old new a s : pystr) :
  replace_from old new (List.length a) (a ++ s) = replace_from old new 0 s.
Proof using.
  induction a as [|c a IH]; [reflexivity|].
  cbn [List.length app replace_from]. exact IH.
Qed.

(** An occurrence at the front is replaced and the scan goes on after it. *)
Lemma replace_from_prefix (c : N) (o new s : pystr) :
  replace_from (c :: o) new 0 ((c :: o) ++ s)
  = new ++ replace_from (c :: o) new 0 s.
Proof using.
  change ((c :: o) ++ s) with (c :: (o ++ s)) at 1.
  cbn [replace_from].
  change (c :: (o ++ s)) with ((c :: o) ++ s). rewrite startswith_app.
  replace (List.length (c :: o) - 1) with (List.length o)
    by (cbn [List.length]; lia).
  now rewrite replace_from_skip.
Qed.

(** A text in which [old] does not occur is left as it is. *)
Lemma replace_from_absent (old new s : pystr) :
  occurs old s = false -> replace_from old new 0 s = s.
Proof using.
  induction s as [|c s IH]; intro H; [reflexivity|].
  cbn [occurs] in H. apply orb_false_iff in H. destruct H as [H1 H2].
  cbn [replace_from]. rewrite H1. now rewrite (IH H2).
Qed.

Lemma str_replace_marker (old payload : pystr) :
  old <> [] -> occurs old payload = false ->
  str_replace (old ++ payload) old [] = payload.
Proof using.
  intros N H. destruct old as [|c o]; [contradiction|].
  unfold str_replace. rewrite replace_from_prefix. cbn [app].
  now apply replace_from_absent.
Qed.

Lemma str_replace_absent (old s : pystr) :
  old <> [] -> occurs old s = false -> str_replace s old [] = s.
Proof using.
  intros N H. destruct old as [|c o]; [contradiction|].
  unfold str_replace. now apply replace_from_absent.
Qed.

Lemma NACK_marker : lit ":NACK:" <> [].
Proof using. discriminate. Qed.

Lemma ACK_marker : lit ":ACK:" <> [].
Proof using. discriminate. Qed.

(** X9. The status line drops the marker of a response. For a payload in
    which the marker does not occur again, an error [":NACK:" + payload]
    is shown as "Erro: " and the stripped payload, in red italics, and a
    success [":ACK:" + payload] as "OK: " and the stripped payload, or as
    plain "OK" when nothing but blanks follows the marker, in green. *)
Theorem update_status_strips_marker (payload : pystr) (wd : BaseCommandWidget) :
  (occurs (lit ":NACK:") payload = false ->
   update_status (lit ":NACK:" ++ payload) true wd
   = mk_BaseCommandWidget (error_label (strip payload)))
  /\
  (occurs (lit ":ACK:") payload = false ->
   update_status (lit ":ACK:" ++ payload) false wd
   = mk_BaseCommandWidget (ok_label (strip payload))).
Proof.
  split; intro H; unfold update_status, error_label, ok_label.
  - now rewrite (str_replace_marker _ _ NACK_marker H).
  - now rewrite (str_replace_marker _ _ ACK_marker H).
Qed.

(** X10. A message without the marker is shown whole: an error text in
    which ":NACK:" does not occur appears after "Erro: " stripped of
    surrounding blanks and otherwise unchanged, and a success text in
    which ":ACK:" does not occur appears whole after "OK: ". *)
Theorem update_status_plain_message (message : pystr) (wd : BaseCommandWidget) :
  (occurs (lit ":NACK:") message = false ->
   update_status message true wd
   = mk_BaseCommandWidget (error_label (strip message)))
  /\
  (occurs (lit ":ACK:") message = false ->
   update_status message false wd
   = mk_BaseCommandWidget (ok_label (strip message))).
Proof.
  split; intro H; unfold update_status, error_label, ok_label.
  - now rewrite (str_replace_absent _ _ NACK_marker H).
  - now rewrite (str_replace_absent _ _ ACK_marker H).
Qed.

(** *** The panels *)

Lemma all_truthy (l : list pystr) :
  forallb truthy l = true <-> ~ In [] l.
Proof using.
  induction l as [|s l IH]; cbn [forallb In].
  - split; [intros _ [] | reflexivity].
  - rewrite andb_true_iff, IH. destruct s; cbn [truthy].
    + split; [intros [H _]; discriminate H | intro H; exfalso; apply H; now left].
    + split; [intros [_ H] [K|K]; [discriminate K | now apply H]
             | intro H; split; [reflexivity | intro K; apply H; now right]].
Qed.

(** X11. The sweep panel asks for a command only when all five fields are
    filled in: then it emits exactly the sweep command and leaves its
    status line alone; as soon as one field is empty it emits nothing and
    shows "Erro: Todos os campos devem ser preenchidos." instead. *)
Theorem sweep_needs_every_field
        (band min_wl max_wl step_wl time_ms : pystr) (wd : BaseCommandWidget) :
  (~ In [] [band; min_wl; max_wl; step_wl; time_ms] ->
   on_start_sweep_clicked band min_wl max_wl step_wl time_ms wd
   = ([sweep_command band min_wl max_wl step_wl time_ms], wd))
  /\
  (In [] [band; min_wl; max_wl; step_wl; time_ms] ->
   on_start_sweep_clicked band min_wl max_wl step_wl time_ms wd
   = ([], mk_BaseCommandWidget
            (error_label (lit "Todos os campos devem ser preenchidos.")))).
Proof.
  unfold on_start_sweep_clicked. split; intro H.
  - apply all_truthy in H. now rewrite H.
  - destruct (forallb truthy [band; min_wl; max_wl; step_wl; time_ms]) eqn:F.
    + apply all_truthy in F. contradiction.
    + reflexivity.
Qed.

Lemma colon_split (a a' x x' : pystr) :
  no_colon a = true -> no_colon a' = true ->
  a ++ 58%N :: x = a' ++ 58%N :: x' -> a = a' /\ x = x'.
Proof using.
  revert a'. induction a as [|c a IH]; intros [|c' a'] A A' E;
    cbn [app] in E.
  - inversion E. now split.
  - inversion E; subst c'. cbn in A'. discriminate A'.
  - inversion E; subst c. cbn in A. discriminate A.
  - inversion E; subst c'. cbn [no_colon forallb] in A, A'.
    apply andb_true_iff in A, A'. destruct A as [_ A], A' as [_ A'].
    destruct (IH a' A A' H1) as [-> ->]. now split.
Qed.

(** X12. The sweep command can be read back: two clicks whose band,
    limits and step hold no colon produce the same command only when all
    five fields were the same. *)
Theorem sweep_command_unambiguous
        (band min_wl max_wl step_wl time_ms
         band' min_wl' max_wl' step_wl' time_ms' : pystr) :
  no_colon band = true -> no_colon min_wl = true ->
  no_colon max_wl = true -> no_colon step_wl = true ->
  no_colon band' = true -> no_colon min_wl' = true ->
  no_colon max_wl' = true -> no_colon step_wl' = true ->
  sweep_command band min_wl max_wl step_wl time_ms
  = sweep_command band' min_wl' max_wl' step_wl' time_ms' ->
  band = band' /\ min_wl = min_wl' /\ max_wl = max_wl'
  /\ step_wl = step_wl' /\ time_ms = time_ms'.
Proof.
  intros B M X S B' M' X' S' E. unfold sweep_command in E.
  apply app_inv_head in E.
  change (lit ":") with [58%N] in E. cbn [app] in E.
  destruct (colon_split _ _ _ _ B B' E) as [-> E1].
  destruct (colon_split _ _ _ _ M M' E1) as [-> E2].
  destruct (colon_split _ _ _ _ X X' E2) as [-> E3].
  destruct (colon_split _ _ _ _ S S' E3) as [-> ->].
  repeat split.
Qed.

(** *** The window and its session *)

Lemma encode_ascii (s : pystr) :
  forallb is_ascii s = true -> encode s = Some (map byte_of s).
Proof using.
  induction s as [|c s IH]; intro H; [reflexivity|].
  cbn [forallb] in H. apply andb_true_iff in H. destruct H as [C H].
  cbn [encode map]. rewrite (IH H). unfold encode_char.
  unfold is_ascii in C. now rewrite C.
Qed.

(** Putting back the session object the window already holds leaves the
    window as it is. *)
Lemma store_window (sc : SerialCommunicator) (a : application) :
  communicator (window a) = Some sc ->
  mk_MainWindow (comm_thread (window a)) (Some sc)
                (port_selector (window a)) (refresh_button (window a))
                (connect_button (window a)) (command_widgets (window a))
                (message_boxes (window a))
  = window a.
Proof using.
  destruct a as [[t c p r b ws m] e pr wi]. cbn. now intros ->.
Qed.

Lemma store_world_of (sc : SerialCommunicator) (a : application) :
  communicator (window a) = Some sc -> store (world_of sc a) a = a.
Proof using.
  destruct a as [[t c p r b ws m] e pr wi]. cbn. now intros ->.
Qed.

(** A call from the GUI thread that emits nothing runs no slot. *)
Lemma gui_call_silent (m : M unit) (sc : SerialCommunicator) (a : application)
      (r : outcome unit) (w' : world) :
  m (world_of sc a) = (r, w') -> emitted w' = app_emitted a ->
  gui_call m sc a = (r, store w' a).
Proof using.
  intros E Q. unfold gui_call. rewrite E, Q, skipn_all. reflexivity.
Qed.

(** X13. A command asked for by a panel goes to the port only through an
    open session. With no session the window shows the warning
    "Desconectado" and nothing is written; with a session whose port is
    open and a command of ASCII characters, the bytes written are the
    colon, one byte per character of the command, and the newline, no
    signal is emitted and the window does not change, whatever the
    [print] after the write does; when standard output takes its line,
    the line is printed and the call returns normally. *)
Theorem widget_command_reaches_wire (command : pystr) (a : application) :
  (forall wo, communicator (window a) = None ->
     send_command_from_widget wo command a
     = (Returned tt,
        warning (lit "Desconectado")
                (lit "Conecte-se a uma porta serial primeiro.") a))
  /\
  (forall sc, communicator (window a) = Some sc ->
     port_is_open sc = true ->
     forallb is_ascii command = true ->
     let sent := lit "Enviado: " ++ strip (lit ":" ++ command ++ nl) in
     exists r pr,
       send_command_from_widget write_ok command a
       = (r,
          mk_application
            (window a) (app_emitted a) pr
            (app_wire a ++ x3a :: map byte_of command ++ [x0a]))
       /\ (sys_stdout (app_printed a) sent = print_ok ->
           r = Returned tt /\ pr = app_printed a ++ [sent])).
Proof.
  split.
  - intros wo C. unfold send_command_from_widget. now rewrite C.
  - intros sc C O A sent. unfold send_command_from_widget. rewrite C.
    assert (E : encode (lit ":" ++ command ++ nl)
                = Some (x3a :: map byte_of command ++ [x0a])).
    { rewrite !encode_app, (encode_ascii command A). reflexivity. }
    pose proof (store_window sc a C) as W.
    destruct (sys_stdout (app_printed a) sent) as [|err] eqn:P.
    + exists (Returned tt), (app_printed a ++ [sent]).
      split; [|intros _; now split].
      rewrite (gui_call_silent _ sc a _ _
                 (send_command_written command _ (world_of sc a) O E P)
                 eq_refl).
      f_equal. unfold store. cbn [self emitted printed wire world_of].
      f_equal. exact W.
    + exists (Raised (stdout_exn err)), (app_printed a).
      split; [|intro H; discriminate H].
      rewrite (gui_call_silent _ sc a _ _
                 (send_command_unprinted command _ err (world_of sc a) O E P)
                 eq_refl).
      f_equal. unfold store. cbn [self emitted printed wire world_of].
      f_equal. exact W.
Qed.

Lemma not_port_closed (l : list signal) (i : nat) (s : signal) :
  count_port_closed l = 0 -> nth_error l i = Some s ->
  is_port_closed s = false.
Proof using.
  revert i. induction l as [|x l IH]; intros i C N.
  - destruct i; discriminate N.
  - unfold count_port_closed in C. cbn [filter] in C.
    destruct (is_port_closed x) eqn:X; [discriminate C|].
    destruct i as [|i]; cbn in N.
    + inversion N. now subst.
    + exact (IH i C N).
Qed.

Lemma half_open_disconnect (since : nat) (sc : SerialCommunicator)
      (a : application) :
  communicator (window a) = Some sc -> half_open since a ->
  half_open since (snd (gui_call disconnect sc a)).
Proof.
  intros C [[sc' [C' P]] [B [R [S N]]]].
  rewrite C in C'. inversion C'; subst sc'.
  rewrite (gui_call_silent disconnect sc a _ _ (disconnect_eq _) eq_refl).
  cbn [snd]. unfold half_open, store.
  cbn [window communicator connect_button refresh_button port_selector
       app_emitted self emitted world_of serial_port].
  rewrite P. split; [eexists; split; reflexivity|]. now repeat split.
Qed.

Lemma half_open_step (since : nat) (ev : gui_event) (a : application) :
  half_open since a -> half_open since (gui_step since ev a).
Proof.
  intro H. pose proof H as [[sc [C P]] [B [R [S N]]]].
  destruct ev as [|wo command|i|]; cbn [gui_step].
  - unfold toggle_connection. rewrite C. now apply half_open_disconnect.
  - unfold send_command_from_widget. rewrite C.
    assert (O : port_is_open (self (world_of sc a)) = false)
      by (unfold port_is_open; cbn [self world_of]; now rewrite P).
    rewrite (gui_call_silent _ sc a _ _
               (send_command_not_open wo command _ O) eq_refl).
    cbn [snd]. now rewrite (store_world_of sc a C).
  - destruct (nth_error (skipn since (app_emitted a)) i) as [s|] eqn:E;
      [|exact H].
    pose proof (not_port_closed _ _ _ N E) as K.
    destruct s as [x|x|]; [| |discriminate K];
      (split; [exists sc; split; [exact C | exact P]|]); now repeat split.
  - unfold closeEvent. rewrite C. now apply half_open_disconnect.
Qed.

(** X14. After an open that failed, the window never leaves its connected
    look. From a window with a port selected and no session, whatever
    earlier sessions have emitted, a click on the connect button followed
    by an open that raises a SerialException leaves a state in which,
    whatever is clicked, asked for, delivered or closed afterwards, the
    window still holds its session object, the button still reads
    "Desconectar", the refresh button and the port list stay disabled,
    and the session object never emits [port_closed]. *)
Theorem failed_open_leaves_window_connected
        (a0 : application) (e : exn) (env : list iteration)
        (evs : list gui_event) :
  communicator (window a0) = None ->
  truthy (currentText (port_selector (window a0))) = true ->
  exc_type e = SerialException ->
  let since := List.length (app_emitted a0) in
  half_open since
    (gui_steps since evs
       (snd (thread_started (open_raises e) env (toggle_connection a0)))).
Proof.
  intros C T X since.
  assert (H : half_open since
                (snd (thread_started (open_raises e) env
                        (toggle_connection a0)))).
  { unfold toggle_connection. rewrite C, T. cbn [negb].
    unfold thread_started, set_window. cbn [window communicator].
    rewrite connect_open_raises.
    rewrite (proj2 (catches_SerialException e) X).
    unfold half_open, store, emits, world_of, init.
    cbn [snd window communicator connect_button refresh_button port_selector
         app_emitted self emitted serial_port button_text button_enabled
         combo_setEnabled combo_enabled].
    split; [eexists; split; reflexivity|].
    repeat split. unfold since.
    rewrite skipn_app, skipn_all, Nat.sub_diag. reflexivity. }
  revert H. generalize (snd (thread_started (open_raises e) env
                               (toggle_connection a0))).
  induction evs as [|ev evs IH]; intros a H; [exact H|].
  cbn [gui_steps fold_left]. apply IH. now apply half_open_step.
Qed.

Lemma dispatch_same_controls (s : signal) (a : application) :
  is_port_closed s = false ->
  same_controls a (dispatch s a)
  /\ app_emitted (dispatch s a) = app_emitted a.
Proof using.
  destruct s as [x|x|]; [| |discriminate]; intros _;
    unfold same_controls; cbn; rewrite length_map; repeat split.
Qed.

Lemma deliver_same_controls (l : list signal) (a : application) :
  count_port_closed l = 0 ->
  same_controls a (fold_left (fun a s => dispatch s a) l a).
Proof using.
  revert a. induction l as [|s l IH]; intros a C.
  - unfold same_controls. repeat split.
  - unfold count_port_closed in C. cbn [filter] in C.
    destruct (is_port_closed s) eqn:K; [discriminate C|].
    cbn [fold_left]. destruct (dispatch_same_controls s a K) as [S1 _].
    pose proof (IH (dispatch s a) C) as S2.
    unfold same_controls in *.
    destruct S1 as [A1 [A2 [A3 [A4 [A5 [A6 A7]]]]]].
    destruct S2 as [B1 [B2 [B3 [B4 [B5 [B6 B7]]]]]].
    repeat split; congruence.
Qed.

(** X15. A session that ends gives the window back. From a window with a
    port selected and no session, a click on the connect button, an open
    that succeeds, a loop that ends (a [disconnect] or a read fault occurs
    in the script) and the delivery, in order, of what the session
    emitted leave the window with no session and no thread, the button
    reading "Conectar", and the refresh button and the port list enabled
    again, with the ports it listed before. *)
Theorem session_end_resets_window (a0 : application) (env : list iteration) :
  communicator (window a0) = None ->
  truthy (currentText (port_selector (window a0))) = true ->
  existsb stops env = true ->
  let a1 := thread_started open_ok env (toggle_connection a0) in
  let a2 := fold_left (fun a s => dispatch s a)
                      (skipn (List.length (app_emitted a0))
                             (app_emitted (snd a1)))
                      (snd a1) in
  fst a1 = Returned tt
  /\ communicator (window a2) = None
  /\ comm_thread (window a2) = None
  /\ connect_button (window a2)
     = mk_QPushButton (lit "Conectar")
                      (button_enabled (connect_button (window a0)))
  /\ refresh_button (window a2)
     = mk_QPushButton (button_text (refresh_button (window a0))) true
  /\ port_selector (window a2)
     = combo_setEnabled true (port_selector (window a0))
  /\ message_boxes (window a2) = message_boxes (window a0).
Proof.
  intros C T S. cbv zeta.
  set (a1 := toggle_connection a0).
  assert (A1 : a1 = set_window
                      (mk_MainWindow
                         (Some (mk_QThread true))
                         (Some (init (currentText (port_selector (window a0)))
                                     115200%Z))
                         (combo_setEnabled false (port_selector (window a0)))
                         (mk_QPushButton
                            (button_text (refresh_button (window a0))) false)
                         (mk_QPushButton
                            (lit "Desconectar")
                            (button_enabled (connect_button (window a0))))
                         (command_widgets (window a0))
                         (message_boxes (window a0))) a0).
  { unfold a1, toggle_connection. now rewrite C, T. }
  assert (E1 : app_emitted a1 = app_emitted a0) by now rewrite A1.
  unfold thread_started.
  replace (communicator (window a1))
    with (Some (init (currentText (port_selector (window a0))) 115200%Z))
    by now rewrite A1.
  rewrite connect_opens.
  set (w := opened (world_of _ a1)).
  pose proof (run_returns env w (or_intror S)) as R.
  destruct (run env w) as [r w'] eqn:E. cbn [fst] in R. subst r.
  destruct (run_safe env w _ _ E) as [[_ [l [El Cl]]]|[H _]]; [|discriminate H].
  cbn [fst snd]. split; [reflexivity|].
  replace (app_emitted (store w' a1)) with (app_emitted a0 ++ l ++ [port_closed])
    by (unfold store; cbn [app_emitted]; rewrite El; unfold w;
        cbn [opened emitted world_of]; now rewrite E1).
  rewrite skipn_app, skipn_all, Nat.sub_diag. cbn [skipn app].
  rewrite fold_left_app. cbn [fold_left dispatch].
  pose proof (deliver_same_controls l (store w' a1) Cl)
    as [_ [_ [A3 [A4 [A5 [A6 _]]]]]].
  unfold on_disconnected, set_window.
  cbn [window communicator comm_thread connect_button refresh_button
       port_selector message_boxes].
  rewrite A3, A4, A5, A6. unfold store.
  cbn [window connect_button refresh_button port_selector message_boxes].
  rewrite A1. repeat split.
Qed.

Lemma fold_addItem (ports : list pystr) (c : QComboBox) :
  fold_left (fun c p => combo_addItem p c) ports c
  = mk_QComboBox (items c ++ ports)
                 (match items c with
                  | [] => hd (currentText c) ports
                  | _ :: _ => currentText c
                  end)
                 (combo_enabled c).
Proof using.
  revert c. induction ports as [|p ports IH]; intro c; cbn [fold_left].
  - rewrite app_nil_r. now destruct c as [[|i its] t en].
  - rewrite IH. unfold combo_addItem. cbn [items currentText combo_enabled].
    rewrite <- app_assoc. cbn [app hd].
    now destruct (items c) as [|i its].
Qed.

(** X16. Refreshing replaces the port list. When [serial_ports] returns,
    [populate_ports] leaves in the selector exactly the ports returned, in
    that order, with the first one selected, whatever was listed before,
    so that refreshing twice lists the same as refreshing once; when
    [serial_ports] raises, [populate_ports] raises too, with the selector
    already emptied. *)
Theorem populate_ports_replaces_list (h : host) (a : application) :
  (forall ports, serial_ports h = Returned ports ->
     populate_ports h a
     = (Returned tt,
        with_port_selector
          (mk_QComboBox ports (hd [] ports)
                        (combo_enabled (port_selector (window a)))) a)
     /\ populate_ports h (snd (populate_ports h a)) = populate_ports h a)
  /\
  (forall e, serial_ports h = Raised e ->
     populate_ports h a
     = (Raised e,
        with_port_selector
          (mk_QComboBox [] [] (combo_enabled (port_selector (window a)))) a)).
Proof.
  split.
  - intros ports P.
    assert (G : forall b,
               populate_ports h b
               = (Returned tt,
                  with_port_selector
                    (mk_QComboBox ports (hd [] ports)
                                  (combo_enabled (port_selector (window b))))
                    b)).
    { intro b. unfold populate_ports. rewrite P. rewrite fold_addItem.
      reflexivity. }
    split; [apply G|]. rewrite !G. reflexivity.
  - intros e P. unfold populate_ports. rewrite P. reflexivity.
Qed.

(** X17. A response read by the loop is shown on every panel, whichever
    panel sent the command. For a line that decodes and strips to
    [":NACK:" + payload] and that standard output takes when the loop
    prints it, the loop emits one [error_received] and its delivery sets
    the status line of all panels to "Erro: " and the stripped payload;
    for [":ACK:" + payload] the loop emits one [response_received] and
    all panels show "OK: " and the stripped payload (or "OK"). The marker
    is assumed not to occur in the payload. *)
Theorem response_reaches_every_panel
        (raw : list byte) (text payload : pystr)
        (sc : SerialCommunicator) (a : application) :
  communicator (window a) = Some sc ->
  decode raw = Some text ->
  sys_stdout (app_printed a) (lit "Recebido: " ++ strip text) = print_ok ->
  (strip text = lit ":NACK:" ++ payload ->
   occurs (lit ":NACK:") payload = false ->
   exists w',
     run_body (read_returns raw) (world_of sc a) = (Returned Next, w') /\
     emitted w' = app_emitted a ++ [error_received (strip text)] /\
     command_widgets
       (window (dispatch (error_received (strip text)) (store w' a)))
     = map (fun _ => mk_BaseCommandWidget (error_label (strip payload)))
           (command_widgets (window a)))
  /\
  (strip text = lit ":ACK:" ++ payload ->
   occurs (lit ":ACK:") payload = false ->
   exists w',
     run_body (read_returns raw) (world_of sc a) = (Returned Next, w') /\
     emitted w' = app_emitted a ++ [response_received (strip text)] /\
     command_widgets
       (window (dispatch (response_received (strip text)) (store w' a)))
     = map (fun _ => mk_BaseCommandWidget (ok_label (strip payload)))
           (command_widgets (window a))).
Proof.
  intros C D Q. split; intros S O.
  - eexists.
    split; [apply (run_body_line raw text (world_of sc a) D (fun _ => Q))|].
    rewrite S. unfold classify.
    change (truthy (lit ":NACK:" ++ payload)) with true.
    change (startswith (lit ":NACK:" ++ payload) (lit ":ACK")) with false.
    change (startswith (lit ":NACK:" ++ payload) (lit ":NACK")) with true.
    cbv iota. split; [reflexivity|].
    cbn [dispatch handle_error set_command_widgets set_window window
         command_widgets store emits prints self].
    apply map_ext. intro wd.
    unfold update_status, error_label.
    now rewrite (str_replace_marker _ _ NACK_marker O).
  - eexists.
    split; [apply (run_body_line raw text (world_of sc a) D (fun _ => Q))|].
    rewrite S. unfold classify.
    change (truthy (lit ":ACK:" ++ payload)) with true.
    change (startswith (lit ":ACK:" ++ payload) (lit ":ACK")) with true.
    cbv iota. split; [reflexivity|].
    cbn [dispatch handle_response set_command_widgets set_window window
         command_widgets store emits prints self].
    apply map_ext. intro wd.
    unfold update_status, ok_label.
    now rewrite (str_replace_marker _ _ ACK_marker O).
Qed.

(** X18. A click on "Desconectar" that comes before the worker thread has
    begun [connect] is lost. The session object just built has no handle
    and its flag is down, so the [disconnect] of the second click changes
    nothing at all: the window and the session are as after the first
    click, and the worker thread goes on to open the port and to run the
    loop as if the second click had not been made. *)
Theorem early_disconnect_is_lost
        (a0 : application) (o : open_outcome) (env : list iteration) :
  communicator (window a0) = None ->
  truthy (currentText (port_selector (window a0))) = true ->
  toggle_connection (toggle_connection a0) = toggle_connection a0
  /\ thread_started o env (toggle_connection (toggle_connection a0))
     = thread_started o env (toggle_connection a0).
Proof.
  intros C T.
  assert (E : toggle_connection (toggle_connection a0) = toggle_connection a0).
  { assert (A1 : toggle_connection a0
                 = set_window
                     (mk_MainWindow
                        (Some (mk_QThread true))
                        (Some (init (currentText (port_selector (window a0)))
                                    115200%Z))
                        (combo_setEnabled false (port_selector (window a0)))
                        (mk_QPushButton
                           (button_text (refresh_button (window a0))) false)
                        (mk_QPushButton
                           (lit "Desconectar")
                           (button_enabled (connect_button (window a0))))
                        (command_widgets (window a0))
                        (message_boxes (window a0))) a0)
      by (unfold toggle_connection; now rewrite C, T).
    rewrite A1. unfold toggle_connection, set_window.
    cbn [window communicator].
    rewrite (gui_call_silent disconnect _ _ _ _ (disconnect_eq _) eq_refl).
    reflexivity. }
  split; [exact E | now rewrite E].
Qed.
End Session.

Example lit_ack : lit ":ACK" = [58; 65; 67; 75]%N.
Proof. reflexivity. Qed.

Example strip_crlf : strip (lit "  :ACK:1550.000" ++ [13; 10]%N) = lit ":ACK:1550.000".
Proof. reflexivity. Qed.

Example com_name : (lit "COM" ++ str_of_nat 256) = lit "COM256".
Proof. reflexivity. Qed.

Example encode_iden :
  encode (lit ":iden?" ++ [10%N]) =
  Some [x3a; x69; x64; x65; x6e; x3f; x0a].
Proof. reflexivity. Qed.

Example encode_euro : encode [0x20AC%N] = Some [xe2; x82; xac].
Proof. reflexivity. Qed.

Example decode_euro : decode [xe2; x82; xac] = Some [0x20AC%N].
Proof. reflexivity. Qed.

Example encode_surrogate : encode [0xD800%N] = None.
Proof. reflexivity. Qed.

Example decode_overlong : decode [xc0; x80] = None.
Proof. reflexivity. Qed.

Example decode_astral : decode [xf0; x9f; x98; x80] = Some [0x1F600%N].
Proof. reflexivity. Qed.

(** ** The scenarios of the specification, run on the model *)

(** [connect("COM3", 115200)] succeeds, then [send("iden?")]: the wire
    receives the frame of the command. *)
Example scenario_send_iden :
  wire (snd (send_command sample_encode_text utf8_stdout write_ok (lit "iden?")
               (opened fresh_world)))
  = ascii_bytes ":iden?" ++ [x0a].
Proof. reflexivity. Qed.

(** The device sends the line [:ACK:1550.000]. *)
Example scenario_ack_line :
  emitted (snd (run sample_decode_text sample_encode_text utf8_stdout
                  [mk_iteration [] []
                     (read_returns (ascii_bytes ":ACK:1550.000" ++ [x0a]))]
                  open_world))
  = [response_received (lit ":ACK:1550.000")].
Proof. reflexivity. Qed.

(** The device sends the line [:NACK:OUT_OF_RANGE]. *)
Example scenario_nack_line :
  emitted (snd (run sample_decode_text sample_encode_text utf8_stdout
                  [mk_iteration [] []
                     (read_returns (ascii_bytes ":NACK:OUT_OF_RANGE" ++ [x0a]))]
                  open_world))
  = [error_received (lit ":NACK:OUT_OF_RANGE")].
Proof. reflexivity. Qed.

(** The caller calls [disconnect()] while a read is pending. *)
Example scenario_disconnect_during_read :
  connect sample_decode_text sample_encode_text utf8_stdout open_ok
          [mk_iteration [] [call_disconnect] (read_raises fd_gone)]
          fresh_world
  = (Returned tt,
     mk_world (mk_SerialCommunicator
                 (Some (mk_Serial (lit "COM3") 115200%Z (Some 1%Z) false))
                 (lit "COM3") 115200%Z false)
              [port_closed] [] []).
Proof. reflexivity. Qed.

(** A read that times out returns no bytes and the loop just goes round. *)
Example scenario_read_timeout :
  run sample_decode_text sample_encode_text utf8_stdout
      [mk_iteration [] [] (read_returns [])] open_world
  = (Pending, open_world).
Proof. reflexivity. Qed.

Example scenario_linux_ports :
  serial_ports linux_box = Returned [lit "/dev/ttyUSB0"].
Proof. reflexivity. Qed.

Example scenario_windows_candidates :
  exists ports,
    candidate_ports (mk_host (lit "win32") (fun _ => []) (fun _ => None))
    = Returned ports /\
    List.length ports = 256 /\
    nth 0 ports [] = lit "COM1" /\ nth 255 ports [] = lit "COM256".
Proof. eexists. split; [reflexivity|]. repeat split. Qed.

(** ** The theorems at concrete inputs *)

Lemma ack_nack_line_emits_once_witness :
  loop_test (other_thread sample_encode_text utf8_stdout [] open_world) = true
  /\ decode (ascii_bytes ":ACK:1550.000" ++ [x0a])
     = Some (lit ":ACK:1550.000" ++ nl)
  /\ startswith (strip (lit ":ACK:1550.000" ++ nl)) (lit ":ACK") = true
  /\ utf8_stdout (printed open_world) (lit "Recebido: :ACK:1550.000")
     = print_ok
  /\ run sample_decode_text sample_encode_text utf8_stdout
         [mk_iteration [] []
            (read_returns (ascii_bytes ":ACK:1550.000" ++ [x0a]))]
         open_world
     = run sample_decode_text sample_encode_text utf8_stdout []
           (emits [response_received (lit ":ACK:1550.000")]
                  (prints [lit "Recebido: :ACK:1550.000"] open_world))
  /\ decode (ascii_bytes ":NACK:OUT_OF_RANGE" ++ [x0a])
     = Some (lit ":NACK:OUT_OF_RANGE" ++ nl)
  /\ startswith (strip (lit ":NACK:OUT_OF_RANGE" ++ nl)) (lit ":NACK") = true
  /\ utf8_stdout (printed open_world) (lit "Recebido: :NACK:OUT_OF_RANGE")
     = print_ok
  /\ run sample_decode_text sample_encode_text utf8_stdout
         [mk_iteration [] []
            (read_returns (ascii_bytes ":NACK:OUT_OF_RANGE" ++ [x0a]))]
         open_world
     = run sample_decode_text sample_encode_text utf8_stdout []
           (emits [error_received (lit ":NACK:OUT_OF_RANGE")]
                  (prints [lit "Recebido: :NACK:OUT_OF_RANGE"] open_world))
  /\ bare (lit ":ACK:1550.000") = true
  /\ forallb isspace [13%N; 10%N] = true
  /\ strip (lit ":ACK:1550.000" ++ [13%N; 10%N]) = lit ":ACK:1550.000".
Proof.
  split; [reflexivity|].
  split; [reflexivity|].
  split; [reflexivity|].
  split; [reflexivity|].
  split.
  { exact (proj1 (ack_nack_line_emits_once
                    sample_decode_text sample_encode_text utf8_stdout [] []
                    (ascii_bytes ":ACK:1550.000" ++ [x0a])
                    (lit ":ACK:1550.000" ++ nl) [] open_world
                    eq_refl eq_refl) eq_refl eq_refl). }
  split; [reflexivity|].
  split; [reflexivity|].
  split; [reflexivity|].
  split.
  { exact (proj1 (proj2 (ack_nack_line_emits_once
                           sample_decode_text sample_encode_text utf8_stdout
                           [] []
                           (ascii_bytes ":NACK:OUT_OF_RANGE" ++ [x0a])
                           (lit ":NACK:OUT_OF_RANGE" ++ nl) [] open_world
                           eq_refl eq_refl)) eq_refl eq_refl). }
  split; [reflexivity|].
  split; [reflexivity|].
  exact (proj2 (proj2 (ack_nack_line_emits_once
                         sample_decode_text sample_encode_text utf8_stdout [] []
                         (ascii_bytes ":ACK:1550.000" ++ [x0d; x0a])
                         (lit ":ACK:1550.000" ++ [13%N; 10%N]) [] open_world
                         eq_refl eq_refl))
               (lit ":ACK:1550.000") [13%N; 10%N] eq_refl eq_refl eq_refl).
Defined.

Lemma send_command_writes_frame_witness :
  port_is_open (self open_world) = true
  /\ encode (lit ":" ++ lit "iden?" ++ nl) = Some (ascii_bytes ":iden?" ++ [x0a])
  /\ decode (ascii_bytes ":iden?" ++ [x0a]) = Some (lit ":" ++ lit "iden?" ++ nl)
  /\ exists r w',
       send_command sample_encode_text utf8_stdout write_ok (lit "iden?")
                    open_world
       = (r, w')
       /\ wire w' = wire open_world ++ (ascii_bytes ":iden?" ++ [x0a])
       /\ emitted w' = emitted open_world
       /\ self w' = self open_world
       /\ (utf8_stdout (printed open_world)
                       (lit "Enviado: "
                        ++ strip (lit ":" ++ lit "iden?" ++ nl))
           = print_ok ->
           r = Returned tt).
Proof.
  split; [reflexivity|].
  split; [reflexivity|].
  exact (send_command_writes_frame sample_encode_text utf8_stdout (lit "iden?")
           (ascii_bytes ":iden?" ++ [x0a]) open_world eq_refl eq_refl).
Defined.

Lemma port_closed_once_per_opened_session_witness :
  existsb stops [mk_iteration [] [call_disconnect] (read_raises fd_gone)] = true
  /\ fst (connect sample_decode_text sample_encode_text utf8_stdout open_ok
            [mk_iteration [] [call_disconnect] (read_raises fd_gone)]
            fresh_world) = Returned tt
  /\ ((Returned tt = Returned tt /\
       exists l,
         emitted (snd (connect sample_decode_text sample_encode_text utf8_stdout
                               open_ok
                         [mk_iteration [] [call_disconnect]
                            (read_raises fd_gone)] fresh_world))
         = emitted fresh_world ++ l ++ [port_closed]
         /\ count_port_closed l = 0)
      \/ (Returned tt = @Pending unit /\
          exists l,
            emitted (snd (connect sample_decode_text sample_encode_text
                                  utf8_stdout
                                  open_ok
                            [mk_iteration [] [call_disconnect]
                               (read_raises fd_gone)] fresh_world))
            = emitted fresh_world ++ l
            /\ count_port_closed l = 0)).
Proof.
  pose proof (port_closed_once_per_opened_session
                sample_decode_text sample_encode_text utf8_stdout
                [mk_iteration [] [call_disconnect] (read_raises fd_gone)]
                fresh_world) as [P1 P2].
  split; [reflexivity|].
  split; [exact (P2 eq_refl)|].
  exact (P1 _ _ eq_refl).
Defined.


Lemma faults_caught_by_class_witness :
  exc_type busy = SerialException
  /\ connect sample_decode_text sample_encode_text utf8_stdout
             (open_raises busy) []
             fresh_world
     = (Returned tt,
        emits [error_received
                 (lit "Falha ao abrir porta COM3: could not open port")]
              fresh_world)
  /\ exc_type bad_baud <> SerialException
  /\ connect sample_decode_text sample_encode_text utf8_stdout
             (open_raises bad_baud) []
             fresh_world
     = (Raised bad_baud, fresh_world)
  /\ (@Pending unit = Returned tt \/ @Pending unit = Pending)
  /\ port_is_open (self open_world) = true
  /\ encode (lit ":" ++ lit "iden?" ++ nl) = Some (ascii_bytes ":iden?" ++ [x0a])
  /\ send_command sample_encode_text utf8_stdout
                  (write_raises busy) (lit "iden?")
                  open_world
     = (Returned tt,
        emits [error_received
                 (lit "Erro ao enviar comando: could not open port")]
              open_world)
  /\ exc_type fd_gone <> SerialException
  /\ send_command sample_encode_text utf8_stdout
                  (write_raises fd_gone) (lit "iden?")
                  open_world
     = (Raised fd_gone, open_world)
  /\ encode (lit ":" ++ [0xD800%N] ++ nl) = None
  /\ send_command sample_encode_text utf8_stdout write_ok [0xD800%N] open_world
     = (Raised (mk_exn UnicodeEncodeError
                       (sample_encode_text (lit ":" ++ [0xD800%N] ++ nl))),
        open_world)
  /\ (@Pending unit = Returned tt \/ @Pending unit = Pending).
Proof.
  assert (N1 : exc_type bad_baud <> SerialException) by discriminate.
  assert (N2 : exc_type fd_gone <> SerialException) by discriminate.
  pose proof (faults_caught_by_class sample_decode_text sample_encode_text
                                     utf8_stdout
                fresh_world) as [F1 [F2 [F3 _]]].
  pose proof (faults_caught_by_class sample_decode_text sample_encode_text
                                     utf8_stdout
                open_world) as [_ [_ [_ [F4 [F5 [F6 F7]]]]]].
  split; [reflexivity|].
  split; [exact (F1 busy [] eq_refl)|].
  split; [exact N1|].
  split; [exact (F2 bad_baud [] N1)|].
  split; [exact (F3 [] Pending (opened fresh_world) eq_refl)|].
  split; [reflexivity|].
  split; [reflexivity|].
  split; [exact (F4 busy (lit "iden?") _ eq_refl eq_refl eq_refl)|].
  split; [exact N2|].
  split; [exact (F5 fd_gone (lit "iden?") _ eq_refl eq_refl N2)|].
  split; [reflexivity|].
  split; [exact (F6 write_ok [0xD800%N] eq_refl eq_refl)|].
  exact (F7 [] Pending open_world eq_refl).
Defined.

Lemma other_line_emits_nothing_witness :
  loop_test (other_thread sample_encode_text utf8_stdout [] open_world) = true
  /\ decode (ascii_bytes "booting..." ++ [x0a]) = Some (lit "booting..." ++ nl)
  /\ startswith (strip (lit "booting..." ++ nl)) (lit ":ACK") = false
  /\ startswith (strip (lit "booting..." ++ nl)) (lit ":NACK") = false
  /\ (truthy (strip (lit "booting..." ++ nl)) = true ->
      utf8_stdout (printed open_world) (lit "Recebido: booting...")
      = print_ok)
  /\ run sample_decode_text sample_encode_text utf8_stdout
         [mk_iteration [] []
            (read_returns (ascii_bytes "booting..." ++ [x0a]))] open_world
     = run sample_decode_text sample_encode_text utf8_stdout []
           (prints [lit "Recebido: booting..."] open_world)
  /\ decode [x0d; x0a] = Some [13%N; 10%N]
  /\ run sample_decode_text sample_encode_text utf8_stdout
         [mk_iteration [] [] (read_returns [x0d; x0a])] open_world
     = run sample_decode_text sample_encode_text utf8_stdout [] open_world.
Proof.
  split; [reflexivity|].
  split; [reflexivity|].
  split; [reflexivity|].
  split; [reflexivity|].
  split; [intros _; reflexivity|].
  split.
  { exact (other_line_emits_nothing
             sample_decode_text sample_encode_text utf8_stdout
             [] [] (ascii_bytes "booting..." ++ [x0a])
             (lit "booting..." ++ nl) [] open_world
             eq_refl eq_refl eq_refl eq_refl (fun _ => eq_refl)). }
  split; [reflexivity|].
  exact (other_line_emits_nothing
           sample_decode_text sample_encode_text utf8_stdout
           [] [] [x0d; x0a] [13%N; 10%N] [] open_world
           eq_refl eq_refl eq_refl eq_refl (fun _ => eq_refl)).
Defined.

Lemma serial_ports_only_opened_witness :
  candidate_ports linux_box = Returned [lit "/dev/ttyUSB0"; lit "/dev/ttyS0"]
  /\ serial_ports linux_box = Returned [lit "/dev/ttyUSB0"]
  /\ [lit "/dev/ttyUSB0"]
     = filter (probe_ok linux_box) [lit "/dev/ttyUSB0"; lit "/dev/ttyS0"]
  /\ (forall p, In p [lit "/dev/ttyUSB0"] ->
                In p [lit "/dev/ttyUSB0"; lit "/dev/ttyS0"]
                /\ probe linux_box p = None)
  /\ startswith (sys_platform unknown_box) (lit "win") = false
  /\ startswith (sys_platform unknown_box) (lit "linux") = false
  /\ startswith (sys_platform unknown_box) (lit "cygwin") = false
  /\ startswith (sys_platform unknown_box) (lit "darwin") = false
  /\ serial_ports unknown_box
     = Raised (mk_exn OSError (lit "Unsupported platform")).
Proof.
  pose proof (serial_ports_only_opened linux_box) as [S1 [S2 _]].
  pose proof (serial_ports_only_opened unknown_box) as [_ [_ S3]].
  assert (P : forall p e,
             In p [lit "/dev/ttyUSB0"; lit "/dev/ttyS0"] ->
             probe linux_box p = Some e ->
             issubclass (exc_type e) OSError = true).
  { intros p e [<-|[<-|[]]] H; inversion H; reflexivity. }
  split; [reflexivity|].
  split; [exact (S2 _ eq_refl P)|].
  split; [exact (proj1 (S1 _ _ eq_refl eq_refl))|].
  split; [exact (proj2 (S1 _ _ eq_refl eq_refl))|].
  split; [reflexivity|].
  split; [reflexivity|].
  split; [reflexivity|].
  split; [reflexivity|].
  exact (S3 eq_refl eq_refl eq_refl eq_refl).
Defined.

Lemma send_command_not_open_is_noop_witness :
  serial_port (self fresh_world) = None
  /\ send_command sample_encode_text utf8_stdout
                  write_ok (lit "iden?") fresh_world
     = (Returned tt, fresh_world)
  /\ (exists p, serial_port (self (snd (disconnect open_world))) = Some p
                /\ is_open p = false)
  /\ send_command sample_encode_text utf8_stdout write_ok (lit "iden?")
                  (snd (disconnect open_world))
     = (Returned tt, snd (disconnect open_world)).
Proof.
  assert (C : exists p, serial_port (self (snd (disconnect open_world))) = Some p
                        /\ is_open p = false).
  { eexists. split; reflexivity. }
  split; [reflexivity|].
  split.
  { exact (send_command_not_open_is_noop sample_encode_text utf8_stdout write_ok
             (lit "iden?") fresh_world (or_introl eq_refl)). }
  split; [exact C|].
  exact (send_command_not_open_is_noop sample_encode_text utf8_stdout write_ok
           (lit "iden?") (snd (disconnect open_world)) (or_intror C)).
Defined.

Lemma failures_share_error_channel_witness :
  exc_type busy = SerialException
  /\ (exists s,
        connect sample_decode_text sample_encode_text utf8_stdout
                (open_raises busy) []
                fresh_world
        = (Returned tt, emits [error_received s] fresh_world))
  /\ port_is_open (self open_world) = true
  /\ encode (lit ":" ++ lit "iden?" ++ nl) = Some (ascii_bytes ":iden?" ++ [x0a])
  /\ (exists s,
        send_command sample_encode_text utf8_stdout
                     (write_raises busy) (lit "iden?")
                     open_world
        = (Returned tt, emits [error_received s] open_world))
  /\ exc_type io_fault <> TypeError
  /\ (exists s,
        run_body sample_decode_text utf8_stdout
                 (read_raises io_fault) open_world
        = (Returned Break, emits [error_received s] open_world))
  /\ decode (ascii_bytes ":NACK:OUT_OF_RANGE" ++ [x0a])
     = Some (lit ":NACK:OUT_OF_RANGE" ++ nl)
  /\ startswith (strip (lit ":NACK:OUT_OF_RANGE" ++ nl)) (lit ":NACK") = true
  /\ (exists s,
        emitted (snd (run_body sample_decode_text utf8_stdout
                        (read_returns
                           (ascii_bytes ":NACK:OUT_OF_RANGE" ++ [x0a]))
                        open_world))
        = emitted open_world ++ [error_received s]).
Proof.
  assert (N : exc_type io_fault <> TypeError) by discriminate.
  pose proof (failures_share_error_channel
                sample_decode_text sample_encode_text utf8_stdout fresh_world)
    as [E1 _].
  pose proof (failures_share_error_channel
                sample_decode_text sample_encode_text utf8_stdout open_world)
    as [_ [E2 [E3 [E4 _]]]].
  split; [reflexivity|].
  split; [exact (E1 busy [] eq_refl)|].
  split; [reflexivity|].
  split; [reflexivity|].
  split; [exact (E2 busy (lit "iden?") _ eq_refl eq_refl eq_refl)|].
  split; [exact N|].
  split; [exact (E3 io_fault N)|].
  split; [reflexivity|].
  split; [reflexivity|].
  exact (E4 (ascii_bytes ":NACK:OUT_OF_RANGE" ++ [x0a])
            (lit ":NACK:OUT_OF_RANGE" ++ nl) eq_refl eq_refl).
Defined.

(** ** Where the specification's wording and the code part *)

(** C1 as worded fails. The device sends the line ":ACK:OK " (a blank
    before the terminator): it starts with [:ACK], yet the signal carries
    ":ACK:OK", not the line. And a line that starts with the bytes of
    [:ACK] but is not valid UTF-8 yields no [response_received] at all:
    the loop reports a read error and ends. So does a well-formed line
    that standard output does not take: ":ACK:caf" and an e with acute
    accent, on a standard output whose encoding is ASCII. *)
Lemma ack_line_not_carried_verbatim :
  startswith (lit ":ACK:OK ") (lit ":ACK") = true
  /\ emitted (snd (run sample_decode_text sample_encode_text utf8_stdout
                     [mk_iteration [] []
                        (read_returns (ascii_bytes ":ACK:OK " ++ [x0a]))]
                     open_world))
     = [response_received (lit ":ACK:OK")]
  /\ lit ":ACK:OK" <> lit ":ACK:OK "
  /\ lit ":ACK:OK" <> lit ":ACK:OK " ++ nl
  /\ run sample_decode_text sample_encode_text utf8_stdout
         [mk_iteration [] []
            (read_returns (ascii_bytes ":ACK" ++ [xff; x0a]))]
         open_world
     = (Returned tt,
        emits [error_received
                 (lit "Erro de leitura: "
                  ++ sample_decode_text (ascii_bytes ":ACK" ++ [xff; x0a]));
               port_closed] open_world)
  /\ decode (ascii_bytes ":ACK:caf" ++ [xc3; xa9; x0a])
     = Some (lit ":ACK:caf" ++ [0xE9%N] ++ nl)
  /\ run sample_decode_text sample_encode_text ascii_stdout
         [mk_iteration [] []
            (read_returns (ascii_bytes ":ACK:caf" ++ [xc3; xa9; x0a]))]
         open_world
     = (Returned tt,
        emits [error_received (lit "Erro de leitura: " ++ ascii_error_text);
               port_closed] open_world).
Proof.
  split; [reflexivity|].
  split; [reflexivity|].
  split; [discriminate|].
  split; [discriminate|].
  split; [reflexivity|].
  split; reflexivity.
Qed.

(** C3 as worded fails. A session whose port does not open reports the
    failure and is over without any [port_closed], and a [disconnect]
    afterwards does not emit one either. *)
Lemma failed_open_emits_no_port_closed :
  connect sample_decode_text sample_encode_text utf8_stdout
          (open_raises busy) []
          fresh_world
  = (Returned tt,
     emits [error_received
              (lit "Falha ao abrir porta COM3: could not open port")]
           fresh_world)
  /\ count_port_closed
       (emitted (snd (disconnect
                        (snd (connect sample_decode_text sample_encode_text
                                      utf8_stdout
                                (open_raises busy) [] fresh_world)))))
     = 0.
Proof. split; reflexivity. Qed.


(** C5 as worded fails. A command holding a lone surrogate has no UTF-8
    encoding: [send_command] lets the UnicodeEncodeError out to its caller.
    So does [connect] with a ValueError of the port constructor, and
    [send_command] with a TypeError of the write. *)
Lemma exception_reaches_caller :
  send_command sample_encode_text utf8_stdout write_ok [0xD800%N] open_world
  = (Raised (mk_exn UnicodeEncodeError
                    (sample_encode_text (lit ":" ++ [0xD800%N] ++ nl))),
     open_world)
  /\ connect sample_decode_text sample_encode_text utf8_stdout
             (open_raises bad_baud) []
             fresh_world
     = (Raised bad_baud, fresh_world)
  /\ send_command sample_encode_text utf8_stdout
                  (write_raises fd_gone) (lit "iden?")
                  open_world
     = (Raised fd_gone, open_world).
Proof. repeat split. Qed.

(** C6 as worded fails. The device sends the line " :ACK" (a blank first):
    it starts with neither [:ACK] nor [:NACK], yet a [response_received]
    is emitted for it. And a line of bytes that are not UTF-8 starts with
    neither, yet an [error_received] is emitted and the loop ends. So it
    is for a line that standard output does not take: "pr" and an e with
    acute accent, on a standard output whose encoding is ASCII. *)
Lemma unmatched_line_emits :
  startswith (lit " :ACK") (lit ":ACK") = false
  /\ startswith (lit " :ACK") (lit ":NACK") = false
  /\ emitted (snd (run sample_decode_text sample_encode_text utf8_stdout
                     [mk_iteration [] []
                        (read_returns (ascii_bytes " :ACK" ++ [x0a]))]
                     open_world))
     = [response_received (lit ":ACK")]
  /\ emitted (snd (run sample_decode_text sample_encode_text utf8_stdout
                     [mk_iteration [] [] (read_returns [xff; x0a])]
                     open_world))
     = [error_received (lit "Erro de leitura: "
                        ++ sample_decode_text [xff; x0a]);
        port_closed]
  /\ decode (ascii_bytes "pr" ++ [xc3; xa9; x0a])
     = Some (lit "pr" ++ [0xE9%N] ++ nl)
  /\ startswith (lit "pr" ++ [0xE9%N] ++ nl) (lit ":ACK") = false
  /\ startswith (lit "pr" ++ [0xE9%N] ++ nl) (lit ":NACK") = false
  /\ emitted (snd (run sample_decode_text sample_encode_text ascii_stdout
                     [mk_iteration [] []
                        (read_returns (ascii_bytes "pr" ++ [xc3; xa9; x0a]))]
                     open_world))
     = [error_received (lit "Erro de leitura: " ++ ascii_error_text);
        port_closed].
Proof. repeat split. Qed.

(** A click on the sweep panel of a connected window, down to the wire. *)
Example scenario_sweep_click :
  let (commands, _) :=
    on_start_sweep_clicked (lit "C") (lit "1530.0") (lit "1565.0")
                           (lit "0.5") (lit "500") BaseCommandWidget_init in
  app_wire (fold_left
              (fun a c => snd (send_command_from_widget sample_encode_text
                                                        utf8_stdout
                                 write_ok c a))
              commands connected_app)
  = ascii_bytes ":sweep:C:1530.0:1565.0:0.5:500" ++ [x0a].
Proof. reflexivity. Qed.

(** The window cannot be built on a platform [serial_ports] does not
    know. *)
Example scenario_window_on_unknown_platform :
  fst (MainWindow_init unknown_box)
  = Raised (mk_exn OSError (lit "Unsupported platform")).
Proof. reflexivity. Qed.

(** A failed write shows on every panel at once. *)
Example scenario_failed_write_is_shown :
  map (fun wd => label_text (status_label wd))
      (command_widgets
         (window (snd (send_command_from_widget sample_encode_text utf8_stdout
                         (write_raises busy) (lit "iden?") connected_app))))
  = [lit "Erro: Erro ao enviar comando: could not open port";
     lit "Erro: Erro ao enviar comando: could not open port";
     lit "Erro: Erro ao enviar comando: could not open port";
     lit "Erro: Erro ao enviar comando: could not open port"].
Proof. reflexivity. Qed.

(** ** The further properties at concrete inputs *)

Lemma send_command_writes_iff_encodable_witness :
  port_is_open (self open_world) = true
  /\ forallb encodable [0xD800%N] = false
  /\ send_command sample_encode_text ascii_stdout write_ok [0xD800%N]
                  open_world
     = (Raised (mk_exn UnicodeEncodeError
                       (sample_encode_text (lit ":" ++ [0xD800%N] ++ nl))),
        open_world)
  /\ forallb encodable (lit "iden?") = true
  /\ ascii_stdout (printed open_world) (lit "Enviado: :iden?") = print_ok
  /\ (exists data,
        encode (lit ":" ++ lit "iden?" ++ nl) = Some data
        /\ send_command sample_encode_text ascii_stdout write_ok
                        (lit "iden?") open_world
           = (Returned tt,
              mk_world (self open_world) (emitted open_world)
                       (printed open_world ++ [lit "Enviado: :iden?"])
                       (wire open_world ++ data)))
  /\ forallb encodable [0xE9%N] = true
  /\ ascii_stdout (printed open_world) (lit "Enviado: :" ++ [0xE9%N])
     = print_raises
         (cannot_encode ascii_error_text)
  /\ (exists data,
        encode (lit ":" ++ [0xE9%N] ++ nl) = Some data
        /\ send_command sample_encode_text ascii_stdout write_ok [0xE9%N]
                        open_world
           = (Raised
                (mk_exn UnicodeEncodeError ascii_error_text),
              mk_world (self open_world) (emitted open_world)
                       (printed open_world) (wire open_world ++ data))).
Proof.
  split; [reflexivity|].
  split; [reflexivity|].
  split.
  { exact (proj1 (send_command_writes_iff_encodable
                    sample_encode_text ascii_stdout write_ok [0xD800%N]
                    open_world eq_refl)
                 eq_refl). }
  split; [reflexivity|].
  split; [reflexivity|].
  split.
  { destruct (proj2 (send_command_writes_iff_encodable
                       sample_encode_text ascii_stdout write_ok (lit "iden?")
                       open_world eq_refl)
                    eq_refl) as [data [E [K _]]].
    exists data. split; [exact E | exact (K eq_refl)]. }
  split; [reflexivity|].
  split; [reflexivity|].
  destruct (proj2 (send_command_writes_iff_encodable
                     sample_encode_text ascii_stdout write_ok [0xE9%N]
                     open_world eq_refl)
                  eq_refl) as [data [E [_ K]]].
  exists data. split; [exact E | exact (K _ eq_refl)].
Defined.

Lemma frame_is_one_line_witness :
  port_is_open (self open_world) = true
  /\ ~ In 10%N (lit "get-wl?C")
  /\ send_command sample_encode_text utf8_stdout
                  write_ok (lit "get-wl?C") open_world
     = (Returned tt,
        snd (send_command sample_encode_text utf8_stdout
                          write_ok (lit "get-wl?C")
                          open_world))
  /\ exists body,
       encode (lit "get-wl?C") = Some body
       /\ wire (snd (send_command sample_encode_text utf8_stdout write_ok
                                  (lit "get-wl?C") open_world))
          = wire open_world ++ x3a :: body ++ [x0a]
       /\ ~ In x0a body.
Proof.
  assert (N : ~ In 10%N (lit "get-wl?C")).
  { intro H. cbn in H.
    repeat (destruct H as [H|H]; [discriminate H|]). exact H. }
  split; [reflexivity|].
  split; [exact N|].
  split; [reflexivity|].
  exact (frame_is_one_line sample_encode_text utf8_stdout
                           (lit "get-wl?C") open_world _
                           eq_refl N eq_refl).
Defined.

Lemma send_command_keeps_session_witness :
  port_is_open (self open_world) = true
  /\ encode (lit ":" ++ lit "iden?" ++ nl) = Some (ascii_bytes ":iden?" ++ [x0a])
  /\ self (snd (send_command sample_encode_text utf8_stdout (write_raises busy)
                             (lit "get-wl?C") open_world))
     = self open_world
  /\ wire (snd (send_command sample_encode_text utf8_stdout
                             write_ok (lit "iden?")
                  (snd (send_command sample_encode_text utf8_stdout
                                     (write_raises busy)
                                     (lit "get-wl?C") open_world))))
     = wire (snd (send_command sample_encode_text utf8_stdout
                               (write_raises busy)
                               (lit "get-wl?C") open_world))
       ++ (ascii_bytes ":iden?" ++ [x0a]).
Proof.
  pose proof (send_command_keeps_session
                sample_encode_text utf8_stdout (write_raises busy)
                (lit "get-wl?C") (lit "iden?")
                (ascii_bytes ":iden?" ++ [x0a]) open_world)
    as [K1 [_ [_ K4]]].
  split; [reflexivity|].
  split; [reflexivity|].
  split; [exact K1|].
  exact (K4 eq_refl eq_refl).
Defined.


Lemma unprintable_line_ends_loop_witness :
  loop_test (other_thread sample_encode_text ascii_stdout [] open_world) = true
  /\ decode (ascii_bytes ":ACK:caf" ++ [xc3; xa9; x0a])
     = Some (lit ":ACK:caf" ++ [0xE9%N] ++ nl)
  /\ truthy (strip (lit ":ACK:caf" ++ [0xE9%N] ++ nl)) = true
  /\ ascii_stdout (printed open_world)
                  (lit "Recebido: " ++ strip (lit ":ACK:caf" ++ [0xE9%N] ++ nl))
     = print_raises
         (cannot_encode ascii_error_text)
  /\ run sample_decode_text sample_encode_text ascii_stdout
         [mk_iteration [] []
            (read_returns (ascii_bytes ":ACK:caf" ++ [xc3; xa9; x0a]))]
         open_world
     = (Returned tt,
        emits [error_received
                 (lit "Erro de leitura: " ++ ascii_error_text);
               port_closed] open_world).
Proof.
  split; [reflexivity|].
  split; [reflexivity|].
  split; [reflexivity|].
  split; [reflexivity|].
  exact (unprintable_line_ends_loop
           sample_decode_text sample_encode_text ascii_stdout [] []
           (ascii_bytes ":ACK:caf" ++ [xc3; xa9; x0a])
           (lit ":ACK:caf" ++ [0xE9%N] ++ nl) _ [] open_world
           eq_refl eq_refl eq_refl eq_refl).
Defined.

Lemma disconnect_stops_reading_witness :
  _is_running (self (snd (disconnect open_world))) = false
  /\ run sample_decode_text sample_encode_text utf8_stdout
         [mk_iteration [] []
            (read_returns (ascii_bytes ":ACK:1550.000" ++ [x0a]))]
         (snd (disconnect open_world))
     = (Returned tt, emits [port_closed] (snd (disconnect open_world)))
  /\ existsb is_disconnect [call_disconnect] = true
  /\ run sample_decode_text sample_encode_text utf8_stdout
         [mk_iteration [call_disconnect] []
            (read_returns (ascii_bytes ":ACK:1550.000" ++ [x0a]))]
         open_world
     = (Returned tt,
        emits [port_closed]
              (other_thread sample_encode_text utf8_stdout [call_disconnect]
                 open_world))
  /\ loop_test (other_thread sample_encode_text utf8_stdout [] open_world)
     = true
  /\ (exists c w2,
        run_body sample_decode_text utf8_stdout
                 (read_returns (ascii_bytes ":ACK:1550.000" ++ [x0a]))
                 (other_thread sample_encode_text utf8_stdout [call_disconnect]
                    (other_thread sample_encode_text utf8_stdout []
                       open_world))
        = (Returned c, w2)
        /\ _is_running (self w2) = false
        /\ port_is_open (self w2) = false
        /\ run sample_decode_text sample_encode_text utf8_stdout
               [mk_iteration [] [call_disconnect]
                  (read_returns (ascii_bytes ":ACK:1550.000" ++ [x0a]));
                mk_iteration [] []
                  (read_returns (ascii_bytes ":ACK:1551.000" ++ [x0a]))]
               open_world
           = (Returned tt,
              emits [port_closed]
                    (match c with
                     | Next => other_thread sample_encode_text utf8_stdout []
                                 w2
                     | Break => w2
                     end))).
Proof.
  split; [reflexivity|].
  split.
  { exact (proj2 (proj1 (disconnect_stops_reading
                           sample_decode_text sample_encode_text utf8_stdout
                           (mk_iteration [] []
                              (read_returns
                                 (ascii_bytes ":ACK:1550.000" ++ [x0a])))
                           [] (snd (disconnect open_world)))
                        eq_refl)). }
  split; [reflexivity|].
  split.
  { exact (proj1 (proj1 (proj2 (disconnect_stops_reading
                                  sample_decode_text sample_encode_text
                                  utf8_stdout
                                  (mk_iteration [call_disconnect] []
                                     (read_returns
                                        (ascii_bytes ":ACK:1550.000"
                                         ++ [x0a])))
                                  [] open_world))
                        eq_refl)). }
  split; [reflexivity|].
  exact (proj2 (proj2 (disconnect_stops_reading
                         sample_decode_text sample_encode_text utf8_stdout
                         (mk_iteration [] [call_disconnect]
                            (read_returns
                               (ascii_bytes ":ACK:1550.000" ++ [x0a])))
                         [mk_iteration [] []
                            (read_returns
                               (ascii_bytes ":ACK:1551.000" ++ [x0a]))]
                         open_world))
               eq_refl eq_refl).
Defined.

Lemma read_fault_leaves_port_open_witness :
  loop_test open_world = true
  /\ forallb no_disconnect
       [mk_iteration [call_send_command write_ok (lit "iden?")] []
          (read_raises io_fault)] = true
  /\ existsb (fun it => read_faults (read it))
       [mk_iteration [call_send_command write_ok (lit "iden?")] []
          (read_raises io_fault)] = true
  /\ exists w' l,
       run sample_decode_text sample_encode_text utf8_stdout
           [mk_iteration [call_send_command write_ok (lit "iden?")] []
              (read_raises io_fault)] open_world
       = (Returned tt, w')
       /\ emitted w' = emitted open_world ++ l ++ [port_closed]
       /\ self w' = self open_world
       /\ port_is_open (self w') = true /\ _is_running (self w') = true.
Proof.
  split; [reflexivity|].
  split; [reflexivity|].
  split; [reflexivity|].
  exact (read_fault_leaves_port_open sample_decode_text sample_encode_text
                                     utf8_stdout
           [mk_iteration [call_send_command write_ok (lit "iden?")] []
              (read_raises io_fault)] open_world eq_refl eq_refl eq_refl).
Defined.

Lemma windows_ports_are_COM1_to_COM256_witness :
  startswith (sys_platform windows_box) (lit "win") = true
  /\ serial_ports windows_box = Returned [lit "COM3"; lit "COM7"]
  /\ (forall p, In p [lit "COM3"; lit "COM7"] ->
        exists n, 1 <= n <= 256 /\ p = lit "COM" ++ str_of_nat n
                  /\ probe windows_box p = None)
  /\ List.length [lit "COM3"; lit "COM7"] <= 256.
Proof.
  assert (R : serial_ports windows_box = Returned [lit "COM3"; lit "COM7"])
    by (vm_compute; reflexivity).
  split; [reflexivity|].
  split; [exact R|].
  exact (windows_ports_are_COM1_to_COM256 windows_box
           [lit "COM3"; lit "COM7"] eq_refl R).
Defined.

Lemma probe_other_exception_aborts_witness :
  candidate_ports odd_box
  = Returned ([lit "/dev/ttyUSB0"] ++ lit "/dev/ttyS0" :: [lit "/dev/ttyS1"])
  /\ (forall q e', In q [lit "/dev/ttyUSB0"] -> probe odd_box q = Some e' ->
                   issubclass (exc_type e') OSError = true)
  /\ probe odd_box (lit "/dev/ttyS0") = Some bad_baud
  /\ issubclass (exc_type bad_baud) OSError = false
  /\ serial_ports odd_box = Raised bad_baud.
Proof.
  assert (B : forall q e', In q [lit "/dev/ttyUSB0"] ->
                           probe odd_box q = Some e' ->
                           issubclass (exc_type e') OSError = true).
  { intros q e' [<-|[]] H. discriminate H. }
  split; [reflexivity|].
  split; [exact B|].
  split; [reflexivity|].
  split; [reflexivity|].
  exact (probe_other_exception_aborts odd_box [lit "/dev/ttyUSB0"]
           [lit "/dev/ttyS1"] (lit "/dev/ttyS0") bad_baud
           eq_refl B eq_refl eq_refl).
Defined.

Lemma update_status_strips_marker_witness :
  occurs (lit ":NACK:") (lit "OUT_OF_RANGE") = false
  /\ update_status (lit ":NACK:" ++ lit "OUT_OF_RANGE") true
                   BaseCommandWidget_init
     = mk_BaseCommandWidget
         (mk_QLabel (lit "Erro: OUT_OF_RANGE")
                    (lit "color: red; font-style: italic;"))
  /\ occurs (lit ":ACK:") (lit "1550.000 ") = false
  /\ update_status (lit ":ACK:" ++ lit "1550.000 ") false
                   BaseCommandWidget_init
     = mk_BaseCommandWidget
         (mk_QLabel (lit "OK: 1550.000") (lit "color: green;")).
Proof.
  split; [reflexivity|].
  split.
  { exact (proj1 (update_status_strips_marker (lit "OUT_OF_RANGE")
                    BaseCommandWidget_init) eq_refl). }
  split; [reflexivity|].
  exact (proj2 (update_status_strips_marker (lit "1550.000 ")
                  BaseCommandWidget_init) eq_refl).
Defined.

Lemma update_status_plain_message_witness :
  occurs (lit ":NACK:") (lit "Erro de leitura: Input/output error") = false
  /\ update_status (lit "Erro de leitura: Input/output error") true
                   BaseCommandWidget_init
     = mk_BaseCommandWidget
         (mk_QLabel (lit "Erro: Erro de leitura: Input/output error")
                    (lit "color: red; font-style: italic;"))
  /\ occurs (lit ":ACK:") (lit ":ACK") = false
  /\ update_status (lit ":ACK") false BaseCommandWidget_init
     = mk_BaseCommandWidget (mk_QLabel (lit "OK: :ACK") (lit "color: green;")).
Proof.
  split; [reflexivity|].
  split.
  { exact (proj1 (update_status_plain_message
                    (lit "Erro de leitura: Input/output error")
                    BaseCommandWidget_init) eq_refl). }
  split; [reflexivity|].
  exact (proj2 (update_status_plain_message (lit ":ACK")
                  BaseCommandWidget_init) eq_refl).
Defined.

Lemma sweep_needs_every_field_witness :
  ~ In [] [lit "C"; lit "1530.0"; lit "1565.0"; lit "0.5"; lit "500"]
  /\ on_start_sweep_clicked (lit "C") (lit "1530.0") (lit "1565.0")
                            (lit "0.5") (lit "500") BaseCommandWidget_init
     = ([lit "sweep:C:1530.0:1565.0:0.5:500"], BaseCommandWidget_init)
  /\ In [] [lit "C"; lit "1530.0"; lit "1565.0"; []; lit "500"]
  /\ on_start_sweep_clicked (lit "C") (lit "1530.0") (lit "1565.0")
                            [] (lit "500") BaseCommandWidget_init
     = ([], mk_BaseCommandWidget
              (mk_QLabel (lit "Erro: Todos os campos devem ser preenchidos.")
                         (lit "color: red; font-style: italic;"))).
Proof.
  assert (N : ~ In [] [lit "C"; lit "1530.0"; lit "1565.0"; lit "0.5";
                       lit "500"]).
  { intro H. cbn in H.
    repeat (destruct H as [H|H]; [discriminate H|]). exact H. }
  assert (E : In [] [lit "C"; lit "1530.0"; lit "1565.0"; []; lit "500"]).
  { right. right. right. now left. }
  split; [exact N|].
  split.
  { exact (proj1 (sweep_needs_every_field
                    (lit "C") (lit "1530.0") (lit "1565.0") (lit "0.5")
                    (lit "500") BaseCommandWidget_init) N). }
  split; [exact E|].
  exact (proj2 (sweep_needs_every_field
                  (lit "C") (lit "1530.0") (lit "1565.0") []
                  (lit "500") BaseCommandWidget_init) E).
Defined.

Lemma sweep_command_unambiguous_witness :
  no_colon (lit "C") = true /\ no_colon (lit "1530.0") = true
  /\ no_colon (lit "1565.0") = true /\ no_colon (lit "0.5") = true
  /\ sweep_command (lit "C") (lit "1530.0") (lit "1565.0") (lit "0.5")
                   (lit "500")
     = sweep_command (lit "C") (lit "1530.0") (lit "1565.0") (lit "0.5")
                     (lit "500")
  /\ (lit "C" = lit "C" /\ lit "1530.0" = lit "1530.0"
      /\ lit "1565.0" = lit "1565.0" /\ lit "0.5" = lit "0.5"
      /\ lit "500" = lit "500").
Proof.
  split; [reflexivity|].
  split; [reflexivity|].
  split; [reflexivity|].
  split; [reflexivity|].
  split; [reflexivity|].
  exact (sweep_command_unambiguous
           (lit "C") (lit "1530.0") (lit "1565.0") (lit "0.5") (lit "500")
           (lit "C") (lit "1530.0") (lit "1565.0") (lit "0.5") (lit "500")
           eq_refl eq_refl eq_refl eq_refl eq_refl eq_refl eq_refl eq_refl
           eq_refl).
Defined.

Lemma widget_command_reaches_wire_witness :
  communicator (window sample_app) = None
  /\ send_command_from_widget sample_encode_text utf8_stdout write_ok
                              (lit "iden?") sample_app
     = (Returned tt,
        warning (lit "Desconectado")
                (lit "Conecte-se a uma porta serial primeiro.") sample_app)
  /\ communicator (window connected_app) = Some (self open_world)
  /\ port_is_open (self open_world) = true
  /\ forallb is_ascii (lit "iden?") = true
  /\ exists r pr,
       send_command_from_widget sample_encode_text utf8_stdout write_ok
                                (lit "iden?") connected_app
       = (r,
          mk_application
            (window connected_app) (app_emitted connected_app) pr
            (app_wire connected_app
             ++ x3a :: map byte_of (lit "iden?") ++ [x0a]))
       /\ (utf8_stdout (app_printed connected_app)
                       (lit "Enviado: "
                        ++ strip (lit ":" ++ lit "iden?" ++ nl))
           = print_ok ->
           r = Returned tt
           /\ pr = app_printed connected_app
                   ++ [lit "Enviado: "
                       ++ strip (lit ":" ++ lit "iden?" ++ nl)]).
Proof.
  pose proof (widget_command_reaches_wire sample_encode_text utf8_stdout
                (lit "iden?") sample_app) as [K1 _].
  pose proof (widget_command_reaches_wire sample_encode_text utf8_stdout
                (lit "iden?") connected_app) as [_ K2].
  split; [reflexivity|].
  split; [exact (K1 write_ok eq_refl)|].
  split; [reflexivity|].
  split; [reflexivity|].
  split; [reflexivity|].
  exact (K2 (self open_world) eq_refl eq_refl eq_refl).
Defined.

Lemma failed_open_leaves_window_connected_witness :
  communicator (window used_app) = None
  /\ truthy (currentText (port_selector (window used_app))) = true
  /\ count_port_closed (app_emitted used_app) = 1
  /\ exc_type busy = SerialException
  /\ half_open
       (List.length (app_emitted used_app))
       (gui_steps sample_encode_text utf8_stdout
          (List.length (app_emitted used_app))
          [ev_toggle; ev_deliver 0; ev_deliver 1;
           ev_command write_ok (lit "iden?"); ev_toggle; ev_close]
          (snd (thread_started sample_decode_text sample_encode_text
                  utf8_stdout (open_raises busy) []
                  (toggle_connection used_app)))).
Proof.
  split; [reflexivity|].
  split; [reflexivity|].
  split; [reflexivity|].
  split; [reflexivity|].
  exact (failed_open_leaves_window_connected
           sample_decode_text sample_encode_text utf8_stdout used_app busy []
           [ev_toggle; ev_deliver 0; ev_deliver 1;
            ev_command write_ok (lit "iden?"); ev_toggle; ev_close]
           eq_refl eq_refl eq_refl).
Defined.

Lemma session_end_resets_window_witness :
  communicator (window sample_app) = None
  /\ truthy (currentText (port_selector (window sample_app))) = true
  /\ existsb stops [mk_iteration [] [call_disconnect] (read_raises fd_gone)]
     = true
  /\ fst (thread_started sample_decode_text sample_encode_text utf8_stdout
                         open_ok
            [mk_iteration [] [call_disconnect] (read_raises fd_gone)]
            (toggle_connection sample_app)) = Returned tt
  /\ communicator
       (window
          (fold_left (fun a s => dispatch s a)
             (skipn (List.length (app_emitted sample_app))
                (app_emitted
                   (snd (thread_started sample_decode_text sample_encode_text
                                        utf8_stdout
                           open_ok
                           [mk_iteration [] [call_disconnect]
                              (read_raises fd_gone)]
                           (toggle_connection sample_app)))))
             (snd (thread_started sample_decode_text sample_encode_text
                                  utf8_stdout
                     open_ok
                     [mk_iteration [] [call_disconnect] (read_raises fd_gone)]
                     (toggle_connection sample_app)))))
     = None.
Proof.
  pose proof (session_end_resets_window
                sample_decode_text sample_encode_text utf8_stdout sample_app
                [mk_iteration [] [call_disconnect] (read_raises fd_gone)]
                eq_refl eq_refl eq_refl) as K.
  cbv zeta in K. destruct K as [K1 [K2 _]].
  split; [reflexivity|].
  split; [reflexivity|].
  split; [reflexivity|].
  split; [exact K1|].
  exact K2.
Defined.

Lemma populate_ports_replaces_list_witness :
  serial_ports linux_box = Returned [lit "/dev/ttyUSB0"]
  /\ populate_ports linux_box sample_app
     = (Returned tt,
        with_port_selector
          (mk_QComboBox [lit "/dev/ttyUSB0"] (hd [] [lit "/dev/ttyUSB0"])
                        (combo_enabled (port_selector (window sample_app))))
          sample_app)
  /\ populate_ports linux_box (snd (populate_ports linux_box sample_app))
     = populate_ports linux_box sample_app
  /\ serial_ports unknown_box
     = Raised (mk_exn OSError (lit "Unsupported platform"))
  /\ populate_ports unknown_box sample_app
     = (Raised (mk_exn OSError (lit "Unsupported platform")),
        with_port_selector
          (mk_QComboBox [] []
                        (combo_enabled (port_selector (window sample_app))))
          sample_app).
Proof.
  pose proof (populate_ports_replaces_list linux_box sample_app) as [K1 _].
  pose proof (populate_ports_replaces_list unknown_box sample_app) as [_ K2].
  split; [reflexivity|].
  split; [exact (proj1 (K1 _ eq_refl))|].
  split; [exact (proj2 (K1 _ eq_refl))|].
  split; [reflexivity|].
  exact (K2 _ eq_refl).
Defined.

Lemma response_reaches_every_panel_witness :
  communicator (window connected_app) = Some (self open_world)
  /\ decode (ascii_bytes ":NACK:OUT_OF_RANGE" ++ [x0d; x0a])
     = Some (lit ":NACK:OUT_OF_RANGE" ++ [13%N; 10%N])
  /\ strip (lit ":NACK:OUT_OF_RANGE" ++ [13%N; 10%N])
     = lit ":NACK:" ++ lit "OUT_OF_RANGE"
  /\ utf8_stdout (app_printed connected_app)
                 (lit "Recebido: "
                  ++ strip (lit ":NACK:OUT_OF_RANGE" ++ [13%N; 10%N]))
     = print_ok
  /\ occurs (lit ":NACK:") (lit "OUT_OF_RANGE") = false
  /\ (exists w',
        run_body sample_decode_text utf8_stdout
                 (read_returns (ascii_bytes ":NACK:OUT_OF_RANGE" ++ [x0d; x0a]))
                 (world_of (self open_world) connected_app)
        = (Returned Next, w')
        /\ emitted w'
           = app_emitted connected_app
             ++ [error_received
                   (strip (lit ":NACK:OUT_OF_RANGE" ++ [13%N; 10%N]))]
        /\ command_widgets
             (window
                (dispatch
                   (error_received
                      (strip (lit ":NACK:OUT_OF_RANGE" ++ [13%N; 10%N])))
                   (store w' connected_app)))
           = map (fun _ => mk_BaseCommandWidget
                             (error_label (strip (lit "OUT_OF_RANGE"))))
                 (command_widgets (window connected_app)))
  /\ decode (ascii_bytes ":ACK:1550.000" ++ [x0a])
     = Some (lit ":ACK:1550.000" ++ nl)
  /\ strip (lit ":ACK:1550.000" ++ nl) = lit ":ACK:" ++ lit "1550.000"
  /\ utf8_stdout (app_printed connected_app)
                 (lit "Recebido: " ++ strip (lit ":ACK:1550.000" ++ nl))
     = print_ok
  /\ occurs (lit ":ACK:") (lit "1550.000") = false
  /\ (exists w',
        run_body sample_decode_text utf8_stdout
                 (read_returns (ascii_bytes ":ACK:1550.000" ++ [x0a]))
                 (world_of (self open_world) connected_app)
        = (Returned Next, w')
        /\ emitted w'
           = app_emitted connected_app
             ++ [response_received (strip (lit ":ACK:1550.000" ++ nl))]
        /\ command_widgets
             (window
                (dispatch
                   (response_received (strip (lit ":ACK:1550.000" ++ nl)))
                   (store w' connected_app)))
           = map (fun _ => mk_BaseCommandWidget
                             (ok_label (strip (lit "1550.000"))))
                 (command_widgets (window connected_app))).
Proof.
  split; [reflexivity|].
  split; [reflexivity|].
  split; [reflexivity|].
  split; [reflexivity|].
  split; [reflexivity|].
  split.
  { exact (proj1 (response_reaches_every_panel
                    sample_decode_text utf8_stdout
                    (ascii_bytes ":NACK:OUT_OF_RANGE" ++ [x0d; x0a])
                    (lit ":NACK:OUT_OF_RANGE" ++ [13%N; 10%N])
                    (lit "OUT_OF_RANGE") (self open_world) connected_app
                    eq_refl eq_refl eq_refl) eq_refl eq_refl). }
  split; [reflexivity|].
  split; [reflexivity|].
  split; [reflexivity|].
  split; [reflexivity|].
  exact (proj2 (response_reaches_every_panel
                  sample_decode_text utf8_stdout
                  (ascii_bytes ":ACK:1550.000" ++ [x0a])
                  (lit ":ACK:1550.000" ++ nl)
                  (lit "1550.000") (self open_world) connected_app
                  eq_refl eq_refl eq_refl) eq_refl eq_refl).
Defined.

Lemma early_disconnect_is_lost_witness :
  communicator (window sample_app) = None
  /\ truthy (currentText (port_selector (window sample_app))) = true
  /\ toggle_connection (toggle_connection sample_app)
     = toggle_connection sample_app
  /\ thread_started sample_decode_text sample_encode_text utf8_stdout open_ok []
                    (toggle_connection (toggle_connection sample_app))
     = thread_started sample_decode_text sample_encode_text utf8_stdout
                      open_ok []
                      (toggle_connection sample_app).
Proof.
  split; [reflexivity|].
  split; [reflexivity|].
  exact (early_disconnect_is_lost sample_decode_text sample_encode_text
                                  utf8_stdout
           sample_app open_ok [] eq_refl eq_refl).
Defined.
